(** * One More Run: the Inspector decision engine

    A shallow embedding of [inspection_game.py] (class [InspectorAI], the
    payoff calculator of [InspectionGame]) and of the round driver
    [WebGameSession.play_round] of [web_app.py].

    Modelling conventions.
    - Python [int]s are [Z]; actions are the integer constants of the source
      ([ACT_SMUGGLE = 1], ...), so smuggler and inspector actions share
      the numbers 1..4 exactly as they do in the program.
    - Python [float]s are modelled by exact rationals [Q]: every sum,
      product, quotient and comparison is the mathematical one, rounding is
      not modelled.  Properties of the trust level and of the traits are
      therefore stated as the one [max] or [min] an update computes, as
      bounds and as orderings, not as closed forms of repeated sums.
    - [self] is threaded explicitly: a method is a function in the state
      monad [M] over the record [InspectorAI].
    - [self.rng] is a [random.Random]; the generator is an interface
      ([RandomSource]) with the three operations the program uses.
    - [self.personality.rng] and [self.personality.llm] are the very objects
      [self.rng] and [self.llm]; the record keeps one field for each.
    - The remote dialogue generator answers over the network; the model
      fixes the answers in advance as a table indexed by the call count. *)

From Stdlib Require Import ZArith QArith Qminmax Qround List String Bool Lia Lqa.
From Stdlib Require Import Qabs DecimalString.
Import ListNotations.
Open Scope string_scope.
Open Scope Q_scope.
Open Scope Z_scope.

(** ** Game configuration *)

Definition ROUNDS_PER_GAME : Z := 20.
Definition EARLY_GAME_END : Z := 6.
Definition MID_GAME_END : Z := 14.

Definition PAYOFF_SMUGGLE_INSPECT : Z := -5.
Definition PAYOFF_SMUGGLE_DONT : Z := 10.
Definition PAYOFF_LAYLOW_INSPECT : Z := 0.
Definition PAYOFF_LAYLOW_DONT : Z := 1.

Definition BRIBE_COST : Z := 3.

Definition ACT_SMUGGLE : Z := 1.
Definition ACT_LAY_LOW : Z := 2.
Definition ACT_BRIBE : Z := 3.
Definition ACT_SIGNAL_TRUCE : Z := 4.

Definition ACT_INSPECT : Z := 1.
Definition ACT_DONT_INSPECT : Z := 2.
Definition ACT_ACCEPT_BRIBE : Z := 3.
Definition ACT_SET_TRAP : Z := 4.

(** ** Python primitives *)

(** [x < y] on floats. *)
Definition Qltb (x y : Q) : bool := negb (Qle_bool y x).

(** [max(a, b)]: the first argument unless the second is strictly greater. *)
Definition py_max (a b : Q) : Q := if Qltb a b then b else a.

(** [min(a, b)]: the first argument unless the second is strictly smaller. *)
Definition py_min (a b : Q) : Q := if Qltb b a then b else a.

(** [a in xs] for a list of integers. *)
Definition py_in (a : Z) (xs : list Z) : bool := existsb (Z.eqb a) xs.

(** [sum(1 for a in xs if p(a))]. *)
Definition py_count (p : Z -> bool) (xs : list Z) : Z :=
  fold_left (fun n a => if p a then n + 1 else n) xs 0.

(** [xs[-n:]]. *)
Definition py_last_n {A : Type} (n : nat) (xs : list A) : list A :=
  skipn (List.length xs - n) xs.

(** Truth value of an optional integer ([if x:]). *)
Definition py_truthy (x : option Z) : bool :=
  match x with
  | None => false
  | Some n => negb (n =? 0)
  end.

(** Truth value of an optional string ([if x:]). *)
Definition py_nonempty (x : option string) : bool :=
  match x with
  | None => false
  | Some s => negb (String.eqb s "")
  end.

(** [x == lit] where [x] is [None] or a string. *)
Definition deal_is (lit : string) (x : option string) : bool :=
  match x with
  | None => false
  | Some s => String.eqb s lit
  end.

(** ** The seeded random source *)

Class RandomSource (G : Type) : Type := {
  (** [random.Random(seed)] *)
  Random : Z -> G;
  (** [rng.random()]: the next float in [0, 1) and the advanced generator *)
  random : G -> Q * G;
  (** [rng._randbelow(n)], the index drawn by [rng.choice] *)
  randbelow : nat -> G -> nat * G
}.

(** ** The optional dialogue generator *)

Record LLMDialogueGenerator : Type := {
  traits : option (Q * Q * Q);
  enabled : bool;
  (** what the k-th API call returns ([None] on an error or a timeout) *)
  replies : nat -> option string;
  calls : nat
}.

(** [LLMDialogueGenerator.generate]: every [get_*] method of the generator
    ends in one call of it. *)
Definition generate (l : LLMDialogueGenerator)
  : option string * LLMDialogueGenerator :=
  if negb (enabled l) then (None, l)
  else (replies l (calls l),
        {| traits := traits l; enabled := enabled l;
           replies := replies l; calls := S (calls l) |}).

(** ** Inspector state *)

Record InspectorPersonality : Type := {
  honesty_streak : Z;
  betrayal_count : Z;
  mood : string
}.

Record InspectorAI (G : Type) : Type := {
  rng : G;
  llm : option LLMDialogueGenerator;
  personality : InspectorPersonality;
  history_smuggler : list Z;
  history_inspector : list Z;
  history_bribes_offered : Z;
  history_bribes_accepted : Z;
  history_truces_signaled : Z;
  history_traps_set : Z;
  history_traps_sprung : Z;
  trust_level : Q;
  pending_deal : option string;
  immunity_turns : Z;
  consecutive_passive_rounds : Z;
  greed : Q;
  deceptiveness : Q;
  adaptiveness : Q
}.

Arguments rng {G} _.
Arguments llm {G} _.
Arguments personality {G} _.
Arguments history_smuggler {G} _.
Arguments history_inspector {G} _.
Arguments history_bribes_offered {G} _.
Arguments history_bribes_accepted {G} _.
Arguments history_truces_signaled {G} _.
Arguments history_traps_set {G} _.
Arguments history_traps_sprung {G} _.
Arguments trust_level {G} _.
Arguments pending_deal {G} _.
Arguments immunity_turns {G} _.
Arguments consecutive_passive_rounds {G} _.
Arguments greed {G} _.
Arguments deceptiveness {G} _.
Arguments adaptiveness {G} _.

(** Field assignments [self.f = v]. *)

Definition set_rng {G : Type} (v : G) (s : InspectorAI G) : InspectorAI G :=
  Build_InspectorAI G v (llm s) (personality s) (history_smuggler s)
    (history_inspector s) (history_bribes_offered s)
    (history_bribes_accepted s) (history_truces_signaled s)
    (history_traps_set s) (history_traps_sprung s) (trust_level s)
    (pending_deal s) (immunity_turns s) (consecutive_passive_rounds s)
    (greed s) (deceptiveness s) (adaptiveness s).

Definition set_llm {G : Type} (v : option LLMDialogueGenerator) (s : InspectorAI G) : InspectorAI G :=
  Build_InspectorAI G (rng s) v (personality s) (history_smuggler s)
    (history_inspector s) (history_bribes_offered s)
    (history_bribes_accepted s) (history_truces_signaled s)
    (history_traps_set s) (history_traps_sprung s) (trust_level s)
    (pending_deal s) (immunity_turns s) (consecutive_passive_rounds s)
    (greed s) (deceptiveness s) (adaptiveness s).

Definition set_personality {G : Type} (v : InspectorPersonality) (s : InspectorAI G) : InspectorAI G :=
  Build_InspectorAI G (rng s) (llm s) v (history_smuggler s)
    (history_inspector s) (history_bribes_offered s)
    (history_bribes_accepted s) (history_truces_signaled s)
    (history_traps_set s) (history_traps_sprung s) (trust_level s)
    (pending_deal s) (immunity_turns s) (consecutive_passive_rounds s)
    (greed s) (deceptiveness s) (adaptiveness s).

Definition set_history_smuggler {G : Type} (v : list Z) (s : InspectorAI G) : InspectorAI G :=
  Build_InspectorAI G (rng s) (llm s) (personality s) v
    (history_inspector s) (history_bribes_offered s)
    (history_bribes_accepted s) (history_truces_signaled s)
    (history_traps_set s) (history_traps_sprung s) (trust_level s)
    (pending_deal s) (immunity_turns s) (consecutive_passive_rounds s)
    (greed s) (deceptiveness s) (adaptiveness s).

Definition set_history_inspector {G : Type} (v : list Z) (s : InspectorAI G) : InspectorAI G :=
  Build_InspectorAI G (rng s) (llm s) (personality s) (history_smuggler s) v
    (history_bribes_offered s) (history_bribes_accepted s)
    (history_truces_signaled s) (history_traps_set s)
    (history_traps_sprung s) (trust_level s) (pending_deal s)
    (immunity_turns s) (consecutive_passive_rounds s) (greed s)
    (deceptiveness s) (adaptiveness s).

Definition set_history_bribes_offered {G : Type} (v : Z) (s : InspectorAI G) : InspectorAI G :=
  Build_InspectorAI G (rng s) (llm s) (personality s) (history_smuggler s)
    (history_inspector s) v (history_bribes_accepted s)
    (history_truces_signaled s) (history_traps_set s)
    (history_traps_sprung s) (trust_level s) (pending_deal s)
    (immunity_turns s) (consecutive_passive_rounds s) (greed s)
    (deceptiveness s) (adaptiveness s).

Definition set_history_bribes_accepted {G : Type} (v : Z) (s : InspectorAI G) : InspectorAI G :=
  Build_InspectorAI G (rng s) (llm s) (personality s) (history_smuggler s)
    (history_inspector s) (history_bribes_offered s) v
    (history_truces_signaled s) (history_traps_set s)
    (history_traps_sprung s) (trust_level s) (pending_deal s)
    (immunity_turns s) (consecutive_passive_rounds s) (greed s)
    (deceptiveness s) (adaptiveness s).

Definition set_history_truces_signaled {G : Type} (v : Z) (s : InspectorAI G) : InspectorAI G :=
  Build_InspectorAI G (rng s) (llm s) (personality s) (history_smuggler s)
    (history_inspector s) (history_bribes_offered s)
    (history_bribes_accepted s) v (history_traps_set s)
    (history_traps_sprung s) (trust_level s) (pending_deal s)
    (immunity_turns s) (consecutive_passive_rounds s) (greed s)
    (deceptiveness s) (adaptiveness s).

Definition set_history_traps_set {G : Type} (v : Z) (s : InspectorAI G) : InspectorAI G :=
  Build_InspectorAI G (rng s) (llm s) (personality s) (history_smuggler s)
    (history_inspector s) (history_bribes_offered s)
    (history_bribes_accepted s) (history_truces_signaled s) v
    (history_traps_sprung s) (trust_level s) (pending_deal s)
    (immunity_turns s) (consecutive_passive_rounds s) (greed s)
    (deceptiveness s) (adaptiveness s).

Definition set_history_traps_sprung {G : Type} (v : Z) (s : InspectorAI G) : InspectorAI G :=
  Build_InspectorAI G (rng s) (llm s) (personality s) (history_smuggler s)
    (history_inspector s) (history_bribes_offered s)
    (history_bribes_accepted s) (history_truces_signaled s)
    (history_traps_set s) v (trust_level s) (pending_deal s)
    (immunity_turns s) (consecutive_passive_rounds s) (greed s)
    (deceptiveness s) (adaptiveness s).

Definition set_trust_level {G : Type} (v : Q) (s : InspectorAI G) : InspectorAI G :=
  Build_InspectorAI G (rng s) (llm s) (personality s) (history_smuggler s)
    (history_inspector s) (history_bribes_offered s)
    (history_bribes_accepted s) (history_truces_signaled s)
    (history_traps_set s) (history_traps_sprung s) v (pending_deal s)
    (immunity_turns s) (consecutive_passive_rounds s) (greed s)
    (deceptiveness s) (adaptiveness s).

Definition set_pending_deal {G : Type} (v : option string) (s : InspectorAI G) : InspectorAI G :=
  Build_InspectorAI G (rng s) (llm s) (personality s) (history_smuggler s)
    (history_inspector s) (history_bribes_offered s)
    (history_bribes_accepted s) (history_truces_signaled s)
    (history_traps_set s) (history_traps_sprung s) (trust_level s) v
    (immunity_turns s) (consecutive_passive_rounds s) (greed s)
    (deceptiveness s) (adaptiveness s).

Definition set_immunity_turns {G : Type} (v : Z) (s : InspectorAI G) : InspectorAI G :=
  Build_InspectorAI G (rng s) (llm s) (personality s) (history_smuggler s)
    (history_inspector s) (history_bribes_offered s)
    (history_bribes_accepted s) (history_truces_signaled s)
    (history_traps_set s) (history_traps_sprung s) (trust_level s)
    (pending_deal s) v (consecutive_passive_rounds s) (greed s)
    (deceptiveness s) (adaptiveness s).

Definition set_consecutive_passive_rounds {G : Type} (v : Z) (s : InspectorAI G) : InspectorAI G :=
  Build_InspectorAI G (rng s) (llm s) (personality s) (history_smuggler s)
    (history_inspector s) (history_bribes_offered s)
    (history_bribes_accepted s) (history_truces_signaled s)
    (history_traps_set s) (history_traps_sprung s) (trust_level s)
    (pending_deal s) (immunity_turns s) v (greed s) (deceptiveness s)
    (adaptiveness s).

(** ** The state monad of the methods *)

Definition M (G A : Type) : Type := InspectorAI G -> A * InspectorAI G.

Definition ret {G A : Type} (a : A) : M G A := fun s => (a, s).

Definition bind {G A B : Type} (m : M G A) (k : A -> M G B) : M G B :=
  fun s => let (a, s') := m s in k a s'.

Definition get {G : Type} : M G (InspectorAI G) := fun s => (s, s).

Definition modify {G : Type} (f : InspectorAI G -> InspectorAI G) : M G unit :=
  fun s => (tt, f s).

Declare Scope py_scope.
Delimit Scope py_scope with py.
Notation "x <- m ;; k" := (bind m (fun x => k))
  (at level 61, m at next level, right associativity) : py_scope.
Notation "' p <- m ;; k" := (bind m (fun p => k))
  (at level 61, p pattern, m at next level, right associativity) : py_scope.
Notation "m ;; k" := (bind m (fun _ => k))
  (at level 61, right associativity) : py_scope.
Open Scope py_scope.

Section Methods.
Context {G : Type} `{RandomSource G}.

(** *** Draws from [self.rng] *)

Definition rng_random : M G Q :=
  fun s => let (u, g) := random (rng s) in (u, set_rng g s).

(** [rng.uniform(a, b)] is [a + (b - a) * rng.random()]. *)
Definition rng_uniform (a b : Q) : M G Q :=
  u <- rng_random ;; ret (a + (b - a) * u)%Q.

(** [rng.choice(seq)] is [seq[rng._randbelow(len(seq))]]. *)
Definition rng_choice (seq : list string) : M G string :=
  fun s => let (i, g) := randbelow (List.length seq) (rng s) in
           (nth i seq "", set_rng g s).

(** *** Calls of [self.llm], guarded by [if self.llm:] *)

Definition llm_generate : M G (option string) :=
  fun s => match llm s with
           | None => (None, s)
           | Some l => let (r, l') := generate l in (r, set_llm (Some l') s)
           end.

(** *** InspectorPersonality *)

Definition BETRAYAL : list string :=
  [ "Did you really trust an inspector?"; "Business is business.";
    "Sorry, but I have quotas to meet."; "That was a mistake.";
    "Never trust a badge." ].

Definition CAUGHT_REACTIONS : list string :=
  [ "Gotcha! Should've played it safe.";
    "Too predictable. I saw that coming."; "The house always wins.";
    "Did you really think I'd miss that?"; "Another one bites the dust." ].

Definition MISSED_REACTIONS : list string :=
  [ "Hmm. Lucky this time."; "I'll get you next round.";
    "Enjoy it while it lasts."; "That won't happen again.";
    "You're craftier than I thought." ].

Definition WASTED_INSPECTION : list string :=
  [ "Playing it safe, huh? Smart."; "I wasted my time on you.";
    "Cautious. I respect that."; "Nothing to see here, apparently.";
    "You're harder to read than I thought." ].

Definition MUTUAL_PASSIVE : list string :=
  [ "Quiet round. Too quiet."; "We're both being careful.";
    "A gentleman's agreement, then?"; "Neither of us blinked.";
    "Interesting strategy." ].

Definition BRIBE_CONSIDER : list string :=
  [ "A bribe? How... tempting."; "You think you can buy me?";
    "Money talks, I suppose."; "That's an interesting offer.";
    "Corruption has its price." ].

Definition TRUCE_RESPONSE : list string :=
  [ "A truce? In this economy?"; "You want to cooperate? Curious.";
    "Trust is a dangerous game."; "Maybe we can work something out.";
    "Actions speak louder than signals." ].

Definition set_mood (m : string) : M G unit :=
  modify (fun s =>
    set_personality
      {| honesty_streak := honesty_streak (personality s);
         betrayal_count := betrayal_count (personality s);
         mood := m |} s).

Definition record_honesty (kept_word : bool) : M G unit :=
  modify (fun s =>
    let p := personality s in
    set_personality
      (if kept_word
       then {| honesty_streak := honesty_streak p + 1;
               betrayal_count := betrayal_count p;
               mood := mood p |}
       else {| honesty_streak := 0;
               betrayal_count := betrayal_count p + 1;
               mood := mood p |}) s).

Definition get_bribe_response (accepted will_honor : bool) : M G string :=
  r <- llm_generate ;;
  match r with
  | Some txt =>
      if py_nonempty r then ret txt
      else ret (if accepted
                then (if will_honor
                      then "Deal. You've bought yourself a pass."
                      else "Deal. I'll look the other way.")
                else "I can't be bought. Not today.")
  | None =>
      ret (if accepted
           then (if will_honor
                 then "Deal. You've bought yourself a pass."
                 else "Deal. I'll look the other way.")
           else "I can't be bought. Not today.")
  end.

Definition get_truce_response (trust_high : bool) : M G string :=
  r <- llm_generate ;;
  match r with
  | Some txt =>
      if py_nonempty r then ret txt
      else ret (if trust_high
                then "Noted. Maybe we can work together."
                else "Trust is earned, not given.")
  | None =>
      ret (if trust_high
           then "Noted. Maybe we can work together."
           else "Trust is earned, not given.")
  end.

(** The static part of [get_outcome_comment], after the [if self.llm:]
    block. *)
Definition outcome_fallback (player_action inspector_action : Z)
    (was_trap : bool) : M G (option string) :=
  if was_trap then (c <- rng_choice BETRAYAL ;; ret (Some c))
  else if player_action =? ACT_SMUGGLE then
    (if inspector_action =? ACT_INSPECT
     then (c <- rng_choice CAUGHT_REACTIONS ;; ret (Some c))
     else (c <- rng_choice MISSED_REACTIONS ;; ret (Some c)))
  else if player_action =? ACT_LAY_LOW then
    (if inspector_action =? ACT_INSPECT
     then (c <- rng_choice WASTED_INSPECTION ;; ret (Some c))
     else (c <- rng_choice MUTUAL_PASSIVE ;; ret (Some c)))
  else if player_action =? ACT_BRIBE then
    (c <- rng_choice BRIBE_CONSIDER ;; ret (Some c))
  else if player_action =? ACT_SIGNAL_TRUCE then
    (c <- rng_choice TRUCE_RESPONSE ;; ret (Some c))
  else ret None.

Definition get_outcome_comment (player_action inspector_action : Z)
    (was_trap : bool) : M G (option string) :=
  s <- get ;;
  match llm s with
  | Some _ =>
      r1 <- (if was_trap then llm_generate else ret None) ;;
      if py_nonempty r1 then ret r1
      else
        r2 <- llm_generate ;;
        if py_nonempty r2 then ret r2
        else outcome_fallback player_action inspector_action was_trap
  | None => outcome_fallback player_action inspector_action was_trap
  end.

(** *** InspectorAI *)

Definition __init__ (seed : Z) (llm_generator : option LLMDialogueGenerator)
  : InspectorAI G :=
  let g0 := Random seed in
  let (u1, g1) := random g0 in
  let (u2, g2) := random g1 in
  let (u3, g3) := random g2 in
  let greed_ := (0.3 + (0.7 - 0.3) * u1)%Q in
  let deceptiveness_ := (0.2 + (0.6 - 0.2) * u2)%Q in
  let adaptiveness_ := (0.4 + (0.8 - 0.4) * u3)%Q in
  {| rng := g3;
     llm := match llm_generator with
            | Some l =>
                Some {| traits :=
                          Some (greed_, deceptiveness_, adaptiveness_);
                        enabled := enabled l;
                        replies := replies l;
                        calls := calls l |}
            | None => None
            end;
     personality :=
       {| honesty_streak := 0; betrayal_count := 0; mood := "neutral" |};
     history_smuggler := [];
     history_inspector := [];
     history_bribes_offered := 0;
     history_bribes_accepted := 0;
     history_truces_signaled := 0;
     history_traps_set := 0;
     history_traps_sprung := 0;
     trust_level := 0.5;
     pending_deal := None;
     immunity_turns := 0;
     consecutive_passive_rounds := 0;
     greed := greed_;
     deceptiveness := deceptiveness_;
     adaptiveness := adaptiveness_ |}.

Definition get_smuggle_frequency (s : InspectorAI G) : Q :=
  match history_smuggler s with
  | [] => 0.3
  | _ :: _ =>
      let smuggle_count :=
        py_count (fun a => a =? ACT_SMUGGLE) (history_smuggler s) in
      (inject_Z smuggle_count
         / inject_Z (Z.of_nat (List.length (history_smuggler s))))%Q
  end.

Definition get_cooperation_frequency (s : InspectorAI G) : Q :=
  match history_smuggler s with
  | [] => 0.5
  | _ :: _ =>
      let coop_actions := [ACT_LAY_LOW; ACT_SIGNAL_TRUCE; ACT_BRIBE] in
      let coop_count :=
        py_count (fun a => py_in a coop_actions) (history_smuggler s) in
      (inject_Z coop_count
         / inject_Z (Z.of_nat (List.length (history_smuggler s))))%Q
  end.

Definition _update_trust (last_player_action : option Z) : M G unit :=
  match last_player_action with
  | None => ret tt
  | Some a =>
      if a =? ACT_SMUGGLE then
        modify (fun s =>
          set_consecutive_passive_rounds 0
            (set_trust_level (py_max 0 (trust_level s - 0.1)) s))
      else if py_in a [ACT_LAY_LOW; ACT_SIGNAL_TRUCE] then
        modify (fun s =>
          let s1 := set_trust_level (py_min 1 (trust_level s + 0.05)) s in
          set_consecutive_passive_rounds
            (consecutive_passive_rounds s1 + 1) s1)
      else if a =? ACT_BRIBE then
        modify (fun s =>
          set_consecutive_passive_rounds 0
            (set_trust_level (py_min 1 (trust_level s + 0.02)) s))
      else ret tt
  end.

Definition _set_mood (round_num : Z) (smuggle_freq : Q) : M G unit :=
  s <- get ;;
  if Qltb 0.5 smuggle_freq then set_mood "aggressive"
  else if Qltb 0.7 (trust_level s) then
    u <- rng_random ;;
    if Qltb u (deceptiveness s) then set_mood "deceptive"
    else set_mood "friendly"
  else set_mood "neutral".

Definition Decision : Type := (Z * bool * option string)%type.

Definition _early_game_decision (round_num : Z) : M G Decision :=
  n <- rng_uniform (-0.1) 0.1 ;;
  let base_prob := (0.6 + n)%Q in
  bait <- (if 4 <=? round_num
           then (u <- rng_random ;; ret (Qltb u 0.15))
           else ret false) ;;
  if bait then ret (ACT_INSPECT, true, Some "I might go easy on you...")
  else
    u <- rng_random ;;
    if Qltb u base_prob then ret (ACT_INSPECT, false, None)
    else ret (ACT_DONT_INSPECT, false, None).

(** The part of [_mid_game_decision] after the collusion block. *)
Definition mid_game_adaptive (smuggle_freq : Q) : M G Decision :=
  s <- get ;;
  let inspect_prob :=
    (if Qltb 0.45 smuggle_freq then 0.75 + adaptiveness s * 0.1
     else if Qltb smuggle_freq 0.2 then 0.35 - adaptiveness s * 0.1
     else 0.55)%Q in
  u <- rng_random ;;
  if Qltb u (deceptiveness s * 0.4)%Q then
    v <- rng_random ;;
    if Qltb v 0.5 then ret (ACT_INSPECT, true, Some "Taking it easy this round.")
    else ret (ACT_DONT_INSPECT, false, Some "You're definitely getting caught.")
  else
    w <- rng_random ;;
    if Qltb w inspect_prob then ret (ACT_INSPECT, false, None)
    else ret (ACT_DONT_INSPECT, false, None).

Definition _mid_game_decision (round_num : Z) (smuggle_freq coop_freq : Q)
  : M G Decision :=
  s <- get ;;
  if Qltb 0.65 (trust_level s) && (2 <=? consecutive_passive_rounds s) then
    u <- rng_random ;;
    if Qltb u (trust_level s - 0.3)%Q then
      ret (ACT_DONT_INSPECT, false, Some "Let's keep this arrangement going.")
    else
      v <- rng_random ;;
      if Qltb v (deceptiveness s) then
        modify (fun s => set_history_traps_set (history_traps_set s + 1) s) ;;
        ret (ACT_INSPECT, true, Some "I appreciate the cooperation...")
      else mid_game_adaptive smuggle_freq
  else mid_game_adaptive smuggle_freq.

Definition _detect_pattern (s : InspectorAI G) : option Z :=
  if (List.length (history_smuggler s) <? 3)%nat then None
  else
    let last_3 := py_last_n 3 (history_smuggler s) in
    if forallb (fun a => a =? ACT_SMUGGLE) last_3 then Some ACT_INSPECT
    else if forallb (fun a => py_in a [ACT_LAY_LOW; ACT_SIGNAL_TRUCE]) last_3
    then Some ACT_DONT_INSPECT
    else if (4 <=? List.length (history_smuggler s))%nat then
      match py_last_n 4 (history_smuggler s) with
      | [h0; h1; h2; h3] =>
          if negb (h0 =? h1) && negb (h1 =? h2) && negb (h2 =? h3) then
            if py_in h3 [ACT_LAY_LOW; ACT_SIGNAL_TRUCE]
            then Some ACT_INSPECT
            else Some ACT_DONT_INSPECT
          else None
      | _ => None
      end
    else None.

(** [_late_game_decision] from "Final rounds pressure" on. *)
Definition late_game_final (round_num : Z) : M G Decision :=
  pressed <- (if 19 <=? round_num
              then (u <- rng_random ;; ret (Qltb u 0.7))
              else ret false) ;;
  if pressed then ret (ACT_INSPECT, false, Some "Can't let you win now.")
  else
    u <- rng_random ;;
    if Qltb u 0.55 then ret (ACT_INSPECT, false, None)
    else ret (ACT_DONT_INSPECT, false, None).

(** [_late_game_decision] from "Aggressive exploitation" on. *)
Definition late_game_exploit (round_num : Z) (smuggle_freq : Q)
  : M G Decision :=
  if Qltb 0.55 smuggle_freq then
    ret (ACT_INSPECT, false, Some "Too aggressive. Predictable.")
  else if Qltb smuggle_freq 0.2 then
    s <- get ;;
    u <- rng_random ;;
    if Qltb u (deceptiveness s)
    then ret (ACT_INSPECT, true, Some "Safe players are boring.")
    else ret (ACT_DONT_INSPECT, false, None)
  else late_game_final round_num.

(** [_late_game_decision] from "High trust + end game" on. *)
Definition late_game_trust (round_num : Z) (smuggle_freq : Q)
  : M G Decision :=
  s <- get ;;
  coop <- (if Qltb 0.75 (trust_level s) && (18 <=? round_num)
           then (u <- rng_random ;; ret (Qltb u 0.5))
           else ret false) ;;
  if coop then ret (ACT_DONT_INSPECT, false, Some "We've built something here.")
  else late_game_exploit round_num smuggle_freq.

Definition _late_game_decision (round_num : Z) (smuggle_freq coop_freq : Q)
  : M G Decision :=
  s <- get ;;
  let pattern_action := _detect_pattern s in
  match pattern_action with
  | Some a =>
      if py_truthy pattern_action then
        u <- rng_random ;;
        if Qltb u 0.7 then ret (a, false, Some "I see what you're doing.")
        else late_game_trust round_num smuggle_freq
      else late_game_trust round_num smuggle_freq
  | None => late_game_trust round_num smuggle_freq
  end.

(** [decide] after the trust update: mood, then the phase dispatch. *)
Definition phase_dispatch (round_num : Z) (smuggle_freq coop_freq : Q)
  : M G Decision :=
  _set_mood round_num smuggle_freq ;;
  if round_num <=? EARLY_GAME_END then _early_game_decision round_num
  else if round_num <=? MID_GAME_END
  then _mid_game_decision round_num smuggle_freq coop_freq
  else _late_game_decision round_num smuggle_freq coop_freq.

(** [decide] below the two guards: the frequencies are read first, then
    the trust update runs, then mood and phase dispatch. *)
Definition decide_phase (round_num : Z) (last_player_action : option Z)
  : M G Decision :=
  s <- get ;;
  let smuggle_freq := get_smuggle_frequency s in
  let coop_freq := get_cooperation_frequency s in
  _update_trust last_player_action ;;
  phase_dispatch round_num smuggle_freq coop_freq.

Definition decide (round_num player_score : Z)
    (last_player_action : option Z) : M G Decision :=
  s <- get ;;
  if 0 <? immunity_turns s then
    modify (set_immunity_turns (immunity_turns s - 1)) ;;
    (* if self.pending_deal == "trap": pass *)
    ret (ACT_DONT_INSPECT, false, Some "I'm looking the other way.")
  else if deal_is "accepted" (pending_deal s) then
    modify (set_pending_deal None) ;;
    u <- rng_random ;;
    if Qltb (deceptiveness s) u then
      record_honesty true ;;
      ret (ACT_DONT_INSPECT, false, Some "I'll keep my word.")
    else
      record_honesty false ;;
      modify (fun s => set_history_traps_set (history_traps_set s + 1) s) ;;
      ret (ACT_INSPECT, true, Some "A deal's a deal... or is it?")
  else decide_phase round_num last_player_action.

(** [acceptance_prob] as [handle_bribe] computes it. *)
Definition acceptance_prob (round_num : Z) (s : InspectorAI G) : Q :=
  let p := (greed s + trust_level s * 0.2)%Q in
  if MID_GAME_END <? round_num then (p - 0.15)%Q else p.

Definition handle_bribe (round_num player_score : Z) : M G (bool * string) :=
  modify (fun s =>
    set_history_bribes_offered (history_bribes_offered s + 1) s) ;;
  s <- get ;;
  let p := acceptance_prob round_num s in
  u <- rng_random ;;
  if Qltb u p then
    modify (fun s =>
      set_history_bribes_accepted (history_bribes_accepted s + 1) s) ;;
    v <- rng_random ;;
    let will_betray := Qltb v (deceptiveness s * 0.5)%Q in
    modify (set_pending_deal
              (Some (if will_betray then "trap" else "accepted"))) ;;
    response <- get_bribe_response true (negb will_betray) ;;
    (if negb will_betray
     then modify (fun s => set_pending_deal (Some "safe")
                             (set_immunity_turns 2 s))
     else ret tt) ;;
    ret (true, response)
  else
    response <- get_bribe_response false false ;;
    ret (false, response).

Definition handle_truce_signal : M G string :=
  modify (fun s =>
    set_history_truces_signaled (history_truces_signaled s + 1) s) ;;
  s <- get ;;
  let trust_high := Qltb 0.6 (trust_level s) in
  (if trust_high
   then modify (set_trust_level (py_min 1 (trust_level s + 0.1)))
   else ret tt) ;;
  get_truce_response trust_high.

Definition record_round (player_action inspector_action : Z)
    (was_trap_sprung : bool) : M G unit :=
  modify (fun s =>
    set_history_smuggler (history_smuggler s ++ [player_action]) s) ;;
  modify (fun s =>
    set_history_inspector (history_inspector s ++ [inspector_action]) s) ;;
  if was_trap_sprung
  then modify (fun s =>
         set_history_traps_sprung (history_traps_sprung s + 1) s)
  else ret tt.

End Methods.

(** ** Payoff calculator ([InspectionGame.calculate_payoff]) *)

Definition calculate_payoff (player_action inspector_action : Z)
    (bribe_accepted : bool) (amount : Z) : Z :=
  let base := if player_action =? ACT_BRIBE then - BRIBE_COST else 0 in
  let effective_player :=
    if py_in player_action [ACT_BRIBE; ACT_SIGNAL_TRUCE]
    then ACT_LAY_LOW else player_action in
  if effective_player =? ACT_SMUGGLE then
    if inspector_action =? ACT_INSPECT
    then base + PAYOFF_SMUGGLE_INSPECT * amount
    else base + PAYOFF_SMUGGLE_DONT * amount
  else
    if inspector_action =? ACT_INSPECT
    then base + PAYOFF_LAYLOW_INSPECT
    else base + PAYOFF_LAYLOW_DONT.

(** ** The round driver ([WebGameSession] of [web_app.py])

    The session's [advisor] and [tutor] own a generator of their own and
    only produce text; they and the list of result dictionaries kept for
    display are left out. *)

Record WebGameSession (G : Type) : Type := {
  inspector : InspectorAI G;
  round_num : Z;
  score : Z;
  last_player_action : option Z
}.

Arguments inspector {G} _.
Arguments round_num {G} _.
Arguments score {G} _.
Arguments last_player_action {G} _.

(** The entries of the [round_result] dictionary that are not text. *)
Record RoundResult : Type := {
  r_round : Z;
  r_player_action : Z;
  r_inspector_action : Z;
  r_payoff : Z;
  r_amount : Z;
  r_total_score : Z;
  r_was_trap : bool;
  r_bribe_accepted : bool
}.

Section Driver.
Context {G : Type} `{RandomSource G}.

Definition new_session (seed : Z) : WebGameSession G :=
  {| inspector := __init__ seed None;
     round_num := 0;
     score := 0;
     last_player_action := None |}.

(** Step 2 of [play_round]: the bribe and the truce signal. *)
Definition special_actions (player_action rnd sc : Z) : M G bool :=
  if player_action =? ACT_BRIBE then
    r <- handle_bribe rnd sc ;; ret (fst r)
  else if player_action =? ACT_SIGNAL_TRUCE then
    handle_truce_signal ;; ret false
  else ret false.

(** The override applied to the decision [decide] returned: the pair is
    the inspector action and [was_trap]. *)
Definition override (bribe_accepted : bool) (inspector_action : Z)
  : M G (Z * bool) :=
  s <- get ;;
  if bribe_accepted && negb (deal_is "trap" (pending_deal s)) then
    ret (ACT_DONT_INSPECT, false)
  else if deal_is "trap" (pending_deal s) then
    modify (set_pending_deal None) ;;
    ret (ACT_INSPECT, true)
  else ret (inspector_action, false).

(** Step 4 of [play_round], the payoff written out a second time there. *)
Definition round_payoff (player_action inspector_action amount : Z) : Z :=
  let payoff := 0 in
  let payoff :=
    if player_action =? ACT_BRIBE then payoff - BRIBE_COST else payoff in
  let effective_player :=
    if py_in player_action [ACT_BRIBE; ACT_SIGNAL_TRUCE]
    then ACT_LAY_LOW else player_action in
  if effective_player =? ACT_SMUGGLE then
    if inspector_action =? ACT_INSPECT
    then payoff + PAYOFF_SMUGGLE_INSPECT * amount
    else payoff + PAYOFF_SMUGGLE_DONT * amount
  else
    if inspector_action =? ACT_INSPECT
    then payoff + PAYOFF_LAYLOW_INSPECT
    else payoff + PAYOFF_LAYLOW_DONT.

(** What one round does to the inspector: steps 2, 3, 5 and the record. *)
Definition round_inspector (player_action rnd sc : Z)
    (last : option Z) : M G (Z * bool * bool) :=
  bribe_accepted <- special_actions player_action rnd sc ;;
  d <- decide rnd sc last ;;
  let '(inspector_action, is_bait, announced) := d in
  o <- override bribe_accepted inspector_action ;;
  let '(inspector_action, was_trap) := o in
  let was_trap :=
    if is_bait && (player_action =? ACT_SMUGGLE) then true else was_trap in
  get_outcome_comment player_action inspector_action was_trap ;;
  record_round player_action inspector_action was_trap ;;
  ret (inspector_action, was_trap, bribe_accepted).

(** [play_round]; [None] stands for the [{'error': 'Game Over'}] answer. *)
Definition play_round (player_action amount : Z) (g : WebGameSession G)
  : option RoundResult * WebGameSession G :=
  if ROUNDS_PER_GAME <=? round_num g then (None, g)
  else
    let rnd := round_num g + 1 in
    let '((inspector_action, was_trap, bribe_accepted), i) :=
      round_inspector player_action rnd (score g)
        (last_player_action g) (inspector g) in
    let payoff := round_payoff player_action inspector_action amount in
    let total := score g + payoff in
    (Some {| r_round := rnd;
             r_player_action := player_action;
             r_inspector_action := inspector_action;
             r_payoff := payoff;
             r_amount := amount;
             r_total_score := total;
             r_was_trap := was_trap;
             r_bribe_accepted := bribe_accepted |},
     {| inspector := i;
        round_num := rnd;
        score := total;
        last_player_action := Some player_action |}).

(** A game: the moves [(action, amount)] played in order. *)
Fixpoint play_rounds (moves : list (Z * Z)) (g : WebGameSession G)
  : WebGameSession G :=
  match moves with
  | [] => g
  | (a, n) :: rest => play_rounds rest (snd (play_round a n g))
  end.

End Driver.

(** ** Driving an instance through its interface *)

Inductive Call : Type :=
| CallDecide (rnd sc : Z) (last : option Z)
| CallHandleBribe (rnd sc : Z)
| CallHandleTruceSignal
| CallRecordRound (player_action inspector_action : Z) (was_trap : bool)
| CallUpdateTrust (last : option Z).

Inductive Output : Type :=
| OutDecision (d : Decision)
| OutBribe (accepted : bool) (response : string)
| OutTruce (response : string)
| OutNone.

(** What the determinism property compares: decisions and acceptances, not
    the response texts. *)
Inductive Observed : Type :=
| ObsDecision (d : Decision)
| ObsBribe (accepted : bool)
| ObsSilent.

Definition observe (o : Output) : Observed :=
  match o with
  | OutDecision d => ObsDecision d
  | OutBribe a _ => ObsBribe a
  | OutTruce _ => ObsSilent
  | OutNone => ObsSilent
  end.

Section Run.
Context {G : Type} `{RandomSource G}.

Definition call (c : Call) : M G Output :=
  match c with
  | CallDecide rnd sc last =>
      d <- decide rnd sc last ;; ret (OutDecision d)
  | CallHandleBribe rnd sc =>
      r <- handle_bribe rnd sc ;; ret (OutBribe (fst r) (snd r))
  | CallHandleTruceSignal =>
      r <- handle_truce_signal ;; ret (OutTruce r)
  | CallRecordRound p i t => record_round p i t ;; ret OutNone
  | CallUpdateTrust last => _update_trust last ;; ret OutNone
  end.

Fixpoint run (cs : list Call) : M G (list Output) :=
  match cs with
  | [] => ret []
  | c :: rest => o <- call c ;; os <- run rest ;; ret (o :: os)
  end.

End Run.

(** ** A generator that replays a given list of draws

    [random] hands out the listed values in order (and 0 once the list is
    used up); [randbelow n] scales the next value to an index below [n]. *)

Definition scripted_random (g : list Q) : Q * list Q :=
  match g with
  | [] => (0%Q, [])
  | u :: g' => (u, g')
  end.

Definition scripted_randbelow (n : nat) (g : list Q) : nat * list Q :=
  match g with
  | [] => (0%nat, [])
  | u :: g' => (Z.to_nat (Qfloor (u * inject_Z (Z.of_nat n))), g')
  end.

Definition Scripted (script : Z -> list Q) : RandomSource (list Q) :=
  {| Random := script;
     random := scripted_random;
     randbelow := scripted_randbelow |}.

(** ** The pattern detector in the words of its description *)

Definition is_passive (a : Z) : bool :=
  (a =? ACT_LAY_LOW) || (a =? ACT_SIGNAL_TRUCE).

(** First matching rule wins: fewer than three entries, none; last three all
    Smuggle, Inspect; last three all passive, DontInspect; last four
    alternating, Inspect after a passive action and DontInspect after a
    Smuggle; otherwise none.  The history is read from its newest entry. *)
Definition detect_pattern_described (history : list Z) : option Z :=
  match rev history with
  | c :: b :: a :: older =>
      if (a =? ACT_SMUGGLE) && (b =? ACT_SMUGGLE) && (c =? ACT_SMUGGLE)
      then Some ACT_INSPECT
      else if is_passive a && is_passive b && is_passive c
      then Some ACT_DONT_INSPECT
      else
        match older with
        | z :: _ =>
            if negb (z =? a) && negb (a =? b) && negb (b =? c) then
              if is_passive c then Some ACT_INSPECT
              else if c =? ACT_SMUGGLE then Some ACT_DONT_INSPECT
              else None
            else None
        | [] => None
        end
  | _ => None
  end.

(** The same, with DontInspect after every action that is not passive. *)
Definition detect_pattern_amended (history : list Z) : option Z :=
  match rev history with
  | c :: b :: a :: older =>
      if (a =? ACT_SMUGGLE) && (b =? ACT_SMUGGLE) && (c =? ACT_SMUGGLE)
      then Some ACT_INSPECT
      else if is_passive a && is_passive b && is_passive c
      then Some ACT_DONT_INSPECT
      else
        match older with
        | z :: _ =>
            if negb (z =? a) && negb (a =? b) && negb (b =? c) then
              if is_passive c then Some ACT_INSPECT
              else Some ACT_DONT_INSPECT
            else None
        | [] => None
        end
  | _ => None
  end.

(** ** What the phase logic may touch

    [frame s s'] holds when [s'] differs from [s] at most in the generator,
    the personality and the counter of traps set. *)

Definition frame {G : Type} (s s' : InspectorAI G) : Prop :=
  llm s' = llm s
  /\ history_smuggler s' = history_smuggler s
  /\ history_inspector s' = history_inspector s
  /\ history_bribes_offered s' = history_bribes_offered s
  /\ history_bribes_accepted s' = history_bribes_accepted s
  /\ history_truces_signaled s' = history_truces_signaled s
  /\ history_traps_sprung s' = history_traps_sprung s
  /\ trust_level s' = trust_level s
  /\ pending_deal s' = pending_deal s
  /\ immunity_turns s' = immunity_turns s
  /\ consecutive_passive_rounds s' = consecutive_passive_rounds s
  /\ greed s' = greed s
  /\ deceptiveness s' = deceptiveness s
  /\ adaptiveness s' = adaptiveness s.

Definition keeps {G A : Type} (m : M G A) : Prop :=
  forall s, frame s (snd (m s)).

(** ** The values of the pending deal *)

Definition deal_known {G : Type} (s : InspectorAI G) : Prop :=
  pending_deal s = None \/ pending_deal s = Some "trap"
  \/ pending_deal s = Some "safe".

Definition deal_settled {G : Type} (s : InspectorAI G) : Prop :=
  pending_deal s = None \/ pending_deal s = Some "safe".

(** A call of the interface other than [handle_bribe]. *)
Definition no_bribe_call (c : Call) : Prop :=
  match c with
  | CallHandleBribe _ _ => False
  | _ => True
  end.

(** ** Forgetting the dialogue generator

    [erase] forgets the dialogue generator.  [simAt R m m' s] says that
    running [m] from [s] and [m'] from the erased [s] ends in states that
    agree once erased, with results related by [R]. *)

Definition erase {G : Type} (s : InspectorAI G) : InspectorAI G :=
  set_llm None s.

Definition simAt {G A : Type} (R : A -> A -> Prop) (m m' : M G A)
    (s : InspectorAI G) : Prop :=
  erase (snd (m s)) = snd (m' (erase s))
  /\ R (fst (m s)) (fst (m' (erase s))).

(** ** Two replayed games

    Seed 1: traits from the draws 0.5, 0.5, 0.5 (greed
    0.5, deceptiveness 0.4, adaptiveness 0.6), then a bribe that is accepted
    (0.1 < 0.6) and betrayed (0.1 < 0.2).  Seed 2: the same traits, then a
    bribe that is accepted (0.1 < 0.6) and honoured (0.9 >= 0.2). *)

Definition demo_script (seed : Z) : list Q :=
  (if seed =? 1 then [0.5; 0.5; 0.5; 0.1; 0.1; 0.5; 0.9; 0.5; 0.9]
   else if seed =? 2 then [0.5; 0.5; 0.5; 0.1; 0.9; 0.5; 0.2]
   else [])%Q.

#[local] Instance demo_source : RandomSource (list Q) := Scripted demo_script.

Definition betrayed : InspectorAI (list Q) :=
  snd (run [CallHandleBribe 1 0] (__init__ 1 None)).

Definition honoured_from : InspectorAI (list Q) := __init__ 2 None.

Definition two_rounds_recorded : InspectorAI (list Q) :=
  snd (run [CallRecordRound ACT_SMUGGLE ACT_INSPECT false;
            CallRecordRound ACT_BRIBE ACT_DONT_INSPECT false]
         (__init__ 0 None)).

Definition alternation_ending_in_bribe : InspectorAI (list Q) :=
  snd (run [CallRecordRound ACT_SMUGGLE ACT_INSPECT false;
            CallRecordRound ACT_LAY_LOW ACT_INSPECT false;
            CallRecordRound ACT_SMUGGLE ACT_DONT_INSPECT false;
            CallRecordRound ACT_BRIBE ACT_INSPECT false]
         (__init__ 0 None)).

(** ** The rest of the session and of the game

    The handler of [/api/move] clamps the quantity before it calls
    [play_round]; the session keeps the results of the rounds played in
    [self.history]; [InspectionGame] rates how predictable the player was;
    [GameTheoryTutor] writes the end-of-game report. *)

(** [amount = max(1, min(amount, 5))]. *)
Definition clamp_amount (amount : Z) : Z := Z.max 1 (Z.min amount 5).

(** [is_game_over], and the [game_over] entry of [to_dict]. *)
Definition is_game_over {G : Type} (g : WebGameSession G) : bool :=
  ROUNDS_PER_GAME <=? round_num g.

Section Game.
Context {G : Type} `{RandomSource G}.

(** The body of the [/api/move] handler once its inputs are integers. *)
Definition move (action amount : Z) (g : WebGameSession G)
  : option RoundResult * WebGameSession G :=
  play_round action (clamp_amount amount) g.

(** The moves played in order, with [self.history]: the result of every
    round that was played, oldest first. *)
Fixpoint play_game (moves : list (Z * Z)) (g : WebGameSession G)
  : list RoundResult * WebGameSession G :=
  match moves with
  | [] => ([], g)
  | (a, n) :: rest =>
      let (r, g1) := play_round a n g in
      let (rs, g2) := play_game rest g1 in
      (match r with
       | Some x => x :: rs
       | None => rs
       end, g2)
  end.

(** The requests [(action, amount)] served in order by the handler. *)
Fixpoint serve (requests : list (Z * Z)) (g : WebGameSession G)
  : WebGameSession G :=
  match requests with
  | [] => g
  | (a, n) :: rest => serve rest (snd (move a n g))
  end.

End Game.

(** *** [InspectionGame._calculate_pattern_score] *)

(** The repetition loop: [prev] is [history[i-1]], [rest] is [history[i:]]. *)
Fixpoint repeat_loop (prev : Z) (rest : list Z) (max_repeat current_repeat : Z)
  : Z :=
  match rest with
  | [] => max_repeat
  | x :: rest' =>
      if x =? prev then
        let current_repeat := current_repeat + 1 in
        repeat_loop x rest' (Z.max max_repeat current_repeat) current_repeat
      else repeat_loop x rest' max_repeat 1
  end.

(** [sum(1 for i in range(1, len(history)) if history[i] != history[i-1])]. *)
Fixpoint alternations_from (prev : Z) (rest : list Z) : Z :=
  match rest with
  | [] => 0
  | x :: rest' =>
      (if negb (x =? prev) then 1 else 0) + alternations_from x rest'
  end.

Definition _calculate_pattern_score {G : Type} (s : InspectorAI G) : Q :=
  if (List.length (history_smuggler s) <? 5)%nat then 0.5%Q
  else
    match history_smuggler s with
    | [] => 0.5%Q
    | h0 :: rest =>
        let max_repeat := repeat_loop h0 rest 1 1 in
        let repeat_score := py_min 1 (inject_Z max_repeat / 5)%Q in
        let alternations := alternations_from h0 rest in
        let alt_ratio :=
          (inject_Z alternations
           / inject_Z (Z.of_nat (List.length (history_smuggler s)) - 1))%Q in
        let alt_score := (Qabs (alt_ratio - 0.5) * 2)%Q in
        ((repeat_score + alt_score) / 2)%Q
    end.

(** *** [GameTheoryTutor.generate_report] *)

Record ReportEntry : Type := {
  concept : string;
  definition : string;
  analysis : string;
  rating : string
}.

(** [sum(1 for r in history if p(r))]. *)
Definition count_rounds (p : RoundResult -> bool) (history : list RoundResult)
  : Z :=
  fold_left (fun n r => if p r then n + 1 else n) history 0.

Definition strategy_entry (smuggle_rate : Q) : ReportEntry :=
  if Qltb 0.3 smuggle_rate && Qltb smuggle_rate 0.7 then
    {| concept := "Mixed Strategy Equilibrium";
       definition := "A strategy where a player randomizes their choices to remain unpredictable.";
       analysis := "You played a strong Mixed Strategy. By keeping your huge smuggle rate between 30-70%, you made it mathematically impossible for the Inspector to fully exploit you.";
       rating := "A" |}
  else if Qltb 0.7 smuggle_rate then
    {| concept := "Predictability Tax";
       definition := "In zero-sum games, being predictable allows your opponent to maximize their counter-strategy.";
       analysis := "You were too aggressive. In Game Theory, a 'Pure Strategy' (always smuggling) is easily exploited. You gave the Inspector a dominant strategy (always inspecting).";
       rating := "C" |}
  else
    {| concept := "Risk Aversion";
       definition := "The tendency to prefer a sure outcome over a gamble with higher expected value.";
       analysis := "You played 'Minimax' - minimizing your maximum loss. While safe, you left 'Expected Value' on the table by not bluffing enough to force the Inspector to patrol.";
       rating := "B" |}.

Definition signaling_entries (bribe_attempts truce_signals : Z) (trust : Q)
  : list ReportEntry :=
  if 3 <? bribe_attempts + truce_signals then
    if Qltb 0.6 trust then
      [ {| concept := "Signaling Theory";
           definition := "Conveying information (truthful or false) to influence the recipient's belief system.";
           analysis := "You successfully used 'Costly Signaling' (truces/bribes). By investing resources to build trust, you shifted the game from a 'Zero-Sum' conflict to a localized 'Cooperative Game'.";
           rating := "S" |} ]
    else
      [ {| concept := "Cheap Talk";
           definition := "Communication between players that does not directly affect payoffs.";
           analysis := "Your signals failed to stick. In Game Theory, 'Cheap Talk' is ignored if actions don't match. You tried to signal cooperation but likely defected (smuggled) too soon.";
           rating := "D" |} ]
  else [].

Definition asymmetry_entries (traps : Z) : list ReportEntry :=
  if 0 <? traps then
    [ {| concept := "Information Asymmetry";
         definition := "When one party has more or better information than the other.";
         analysis :=
           "The Inspector used Information Asymmetry against you "
           ++ NilEmpty.string_of_int (Z.to_int traps)
           ++ " times. They knew they were going to inspect while signaling safety. In repeated games, verify signals before committing high stakes.";
         rating := "B-" |} ]
  else [].

Definition generate_report (history : list RoundResult) (final_score : Z)
    (trust : Q) : list ReportEntry :=
  let smuggle_count :=
    count_rounds (fun r => r_player_action r =? ACT_SMUGGLE) history in
  let rounds := Z.of_nat (List.length history) in
  let smuggle_rate :=
    if 0 <? rounds then (inject_Z smuggle_count / inject_Z rounds)%Q
    else 0%Q in
  let bribe_attempts :=
    count_rounds (fun r => r_player_action r =? ACT_BRIBE) history in
  let truce_signals :=
    count_rounds (fun r => r_player_action r =? ACT_SIGNAL_TRUCE) history in
  let traps := count_rounds r_was_trap history in
  [strategy_entry smuggle_rate]
    ++ signaling_entries bribe_attempts truce_signals trust
    ++ asymmetry_entries traps.

(** ** Predicates of the further properties *)

(** [yields P m]: whatever the state, [m] returns a value satisfying [P]. *)
Definition yields {G A : Type} (P : A -> Prop) (m : M G A) : Prop :=
  forall s, P (fst (m s)).

(** A decision is Inspect or DontInspect, and a bait is always an Inspect. *)
Definition decision_ok (d : Decision) : Prop :=
  let '(action, is_bait, _) := d in
  (action = ACT_INSPECT \/ action = ACT_DONT_INSPECT)
  /\ (is_bait = true -> action = ACT_INSPECT).

(** The fields that only [handle_bribe], [handle_truce_signal] and
    [record_round] write. *)
Definition statics {G : Type} (s s' : InspectorAI G) : Prop :=
  llm s' = llm s
  /\ history_smuggler s' = history_smuggler s
  /\ history_inspector s' = history_inspector s
  /\ history_bribes_offered s' = history_bribes_offered s
  /\ history_bribes_accepted s' = history_bribes_accepted s
  /\ history_truces_signaled s' = history_truces_signaled s
  /\ history_traps_sprung s' = history_traps_sprung s
  /\ greed s' = greed s
  /\ deceptiveness s' = deceptiveness s
  /\ adaptiveness s' = adaptiveness s.

(** The smuggler and inspector actions a call sequence records, in order. *)
Fixpoint recorded (cs : list Call) : list (Z * Z) :=
  match cs with
  | [] => []
  | CallRecordRound p i _ :: rest => (p, i) :: recorded rest
  | _ :: rest => recorded rest
  end.

(** The number of [handle_bribe] calls in a call sequence. *)
Fixpoint bribes_offered_in (cs : list Call) : Z :=
  match cs with
  | [] => 0
  | CallHandleBribe _ _ :: rest => 1 + bribes_offered_in rest
  | _ :: rest => bribes_offered_in rest
  end.

(** A history in which no action equals the one before it: [prev] is the
    first action, [rest] the ones after it. *)
Fixpoint adjacent_differ (prev : Z) (rest : list Z) : Prop :=
  match rest with
  | [] => True
  | x :: rest' => x <> prev /\ adjacent_differ x rest'
  end.

(** The trust update run [k] times in a row on the same last action. *)
Definition update_trust_times {G : Type} `{RandomSource G} (a : Z) (k : nat)
    (s : InspectorAI G) : InspectorAI G :=
  Nat.iter k (fun s => snd (_update_trust (Some a) s)) s.

(** ** Further recorded histories *)

Definition five_smuggles : InspectorAI (list Q) :=
  snd (run (repeat (CallRecordRound ACT_SMUGGLE ACT_INSPECT false) 5)
         (__init__ 0 None)).

Definition zigzag : InspectorAI (list Q) :=
  snd (run [CallRecordRound ACT_SMUGGLE ACT_INSPECT false;
            CallRecordRound ACT_LAY_LOW ACT_INSPECT false;
            CallRecordRound ACT_SMUGGLE ACT_DONT_INSPECT false;
            CallRecordRound ACT_LAY_LOW ACT_DONT_INSPECT false;
            CallRecordRound ACT_SMUGGLE ACT_INSPECT false]
         (__init__ 0 None)).

Definition truce_then_alternation : InspectorAI (list Q) :=
  snd (run [CallRecordRound ACT_SIGNAL_TRUCE ACT_DONT_INSPECT false;
            CallRecordRound ACT_SMUGGLE ACT_INSPECT false;
            CallRecordRound ACT_LAY_LOW ACT_INSPECT false;
            CallRecordRound ACT_SMUGGLE ACT_DONT_INSPECT false;
            CallRecordRound ACT_BRIBE ACT_INSPECT false]
         (__init__ 1 None)).

Definition mostly_smuggling : InspectorAI (list Q) :=
  snd (run [CallRecordRound ACT_SMUGGLE ACT_INSPECT false;
            CallRecordRound ACT_SMUGGLE ACT_DONT_INSPECT false;
            CallRecordRound ACT_LAY_LOW ACT_INSPECT false;
            CallRecordRound ACT_SMUGGLE ACT_DONT_INSPECT false]
         (__init__ 0 None)).

(** The session of seed 2 after its first round, an honoured bribe. *)
Definition after_honoured_bribe : WebGameSession (list Q) :=
  snd (play_round ACT_BRIBE 1 (new_session 2)).

(** [m] leaves the personality record as it is. *)
Definition personality_kept {G A : Type} (m : M G A) : Prop :=
  forall s, personality (snd (m s)) = personality s.

(** The moods [_set_mood] can set, and the initial one. *)
Definition known_mood (m : string) : Prop :=
  m = "neutral" \/ m = "aggressive" \/ m = "deceptive" \/ m = "friendly".

(** * Properties *)

(** ** Comparisons and clamps *)

Lemma Qltb_lt (x y : Q) : Qltb x y = true <-> (x < y)%Q.
Proof.
  unfold Qltb. rewrite negb_true_iff. split; intro E.
  - destruct (Qlt_le_dec x y) as [L | L]; [exact L |].
    apply Qle_bool_iff in L. congruence.
  - destruct (Qle_bool y x) eqn:B; [| reflexivity].
    apply Qle_bool_iff in B. exfalso. exact (Qlt_not_le _ _ E B).
Qed.

Lemma Qltb_ge (x y : Q) : Qltb x y = false <-> (y <= x)%Q.
Proof.
  unfold Qltb. rewrite negb_false_iff. apply Qle_bool_iff.
Qed.

Lemma py_max_Qmax (a b : Q) : (py_max a b == Qmax a b)%Q.
Proof.
  unfold py_max. destruct (Qltb a b) eqn:E.
  - apply Qltb_lt in E. symmetry. apply Q.max_r. apply Qlt_le_weak, E.
  - apply Qltb_ge in E. symmetry. apply Q.max_l. exact E.
Qed.

Lemma py_min_Qmin (a b : Q) : (py_min a b == Qmin a b)%Q.
Proof.
  unfold py_min. destruct (Qltb b a) eqn:E.
  - apply Qltb_lt in E. symmetry. apply Q.min_r. apply Qlt_le_weak, E.
  - apply Qltb_ge in E. symmetry. apply Q.min_l. exact E.
Qed.

Lemma py_max_bounds (x : Q) : (x <= 1 -> 0 <= py_max 0 x <= 1)%Q.
Proof.
  intro U. unfold py_max. destruct (Qltb 0 x) eqn:E.
  - apply Qltb_lt in E. split; [apply Qlt_le_weak, E | exact U].
  - split; [apply Qle_refl | discriminate].
Qed.

Lemma py_min_bounds (x : Q) : (0 <= x -> 0 <= py_min 1 x <= 1)%Q.
Proof.
  intro L. unfold py_min. destruct (Qltb x 1) eqn:E.
  - apply Qltb_lt in E. split; [exact L | apply Qlt_le_weak, E].
  - split; discriminate.
Qed.

(** ** Payoff calculator *)

(** C7. The payoff is the bribe cost (-3, paid exactly when the smuggler
    action is Bribe, whatever the inspector does) plus, for Smuggle,
    -5 x quantity when inspected and +10 x quantity otherwise, and for every
    other action (LayLow, and Bribe and SignalTruce, which count as LayLow)
    the unscaled 0 when inspected and +1 otherwise; the bribe flag plays no
    part.  The four scenarios of the description follow. *)
Theorem calculate_payoff_cases :
  (forall pa ia b n,
      calculate_payoff pa ia b n =
      (if pa =? ACT_BRIBE then -3 else 0)
      + (if pa =? ACT_SMUGGLE
         then (if ia =? ACT_INSPECT then -5 * n else 10 * n)
         else (if ia =? ACT_INSPECT then 0 else 1)))
  /\ (forall ia b n,
         calculate_payoff ACT_BRIBE ia b n
         = calculate_payoff ACT_LAY_LOW ia b n - 3)
  /\ (forall ia b n,
         calculate_payoff ACT_SIGNAL_TRUCE ia b n
         = calculate_payoff ACT_LAY_LOW ia b n)
  /\ (forall pa ia b b' n,
         calculate_payoff pa ia b n = calculate_payoff pa ia b' n)
  /\ calculate_payoff ACT_SMUGGLE ACT_INSPECT false 1 = -5
  /\ calculate_payoff ACT_SMUGGLE ACT_DONT_INSPECT false 3 = 30
  /\ calculate_payoff ACT_BRIBE ACT_INSPECT false 1 = -3
  /\ calculate_payoff ACT_LAY_LOW ACT_DONT_INSPECT false 1 = 1.
Proof.
  assert (main : forall pa ia b n,
             calculate_payoff pa ia b n =
             (if pa =? ACT_BRIBE then -3 else 0)
             + (if pa =? ACT_SMUGGLE
                then (if ia =? ACT_INSPECT then -5 * n else 10 * n)
                else (if ia =? ACT_INSPECT then 0 else 1))).
  { intros pa ia b n. unfold calculate_payoff, py_in, existsb.
    unfold ACT_BRIBE, ACT_SIGNAL_TRUCE, ACT_LAY_LOW, ACT_SMUGGLE, BRIBE_COST,
      PAYOFF_SMUGGLE_INSPECT, PAYOFF_SMUGGLE_DONT, PAYOFF_LAYLOW_INSPECT,
      PAYOFF_LAYLOW_DONT.
    destruct (Z.eqb_spec pa 3) as [-> | N3]; simpl.
    - destruct (ia =? ACT_INSPECT); reflexivity.
    - destruct (Z.eqb_spec pa 4) as [-> | N4]; simpl.
      + destruct (ia =? ACT_INSPECT); reflexivity.
      + destruct (pa =? 1), (ia =? ACT_INSPECT); reflexivity. }
  repeat split; try reflexivity; try exact main.
  intros ia b n. rewrite !main. simpl.
  destruct (ia =? ACT_INSPECT); reflexivity.
Qed.

(** The payoff written out inside [play_round] is the calculator's. *)
Lemma round_payoff_calculate (pa ia n : Z) (b : bool) :
  round_payoff pa ia n = calculate_payoff pa ia b n.
Proof.
  unfold round_payoff, calculate_payoff.
  destruct (pa =? ACT_BRIBE); reflexivity.
Qed.

(** ** Running the monad *)

Lemma bind_run {G A B : Type} (m : M G A) (k : A -> M G B) (s : InspectorAI G) :
  bind m k s = k (fst (m s)) (snd (m s)).
Proof.
  unfold bind. destruct (m s); reflexivity.
Qed.

(** ** The frame of the phase logic *)

Lemma frame_refl {G : Type} (s : InspectorAI G) : frame s s.
Proof.
  unfold frame. repeat split.
Qed.

Lemma frame_trans {G : Type} (s1 s2 s3 : InspectorAI G) :
  frame s1 s2 -> frame s2 s3 -> frame s1 s3.
Proof.
  unfold frame. intros F1 F2.
  repeat match goal with
         | F : _ /\ _ |- _ => destruct F
         end.
  repeat split; congruence.
Qed.

Lemma keeps_ret {G A : Type} (a : A) : keeps (@ret G A a).
Proof.
  intro s. apply frame_refl.
Qed.

Lemma keeps_get {G : Type} : keeps (@get G).
Proof.
  intro s. apply frame_refl.
Qed.

Lemma keeps_bind {G A B : Type} (m : M G A) (k : A -> M G B) :
  keeps m -> (forall a, keeps (k a)) -> keeps (bind m k).
Proof.
  intros Km Kk s. rewrite bind_run.
  eapply frame_trans; [apply Km | apply Kk].
Qed.

Section Frames.
Context {G : Type} `{RandomSource G}.

Lemma keeps_rng_random : keeps rng_random.
Proof.
  intro s. unfold rng_random. destruct (random (rng s)).
  unfold frame. simpl. repeat split.
Qed.

Lemma keeps_set_mood (m : string) : keeps (@set_mood G m).
Proof.
  intro s. unfold frame. simpl. repeat split.
Qed.

Lemma keeps_traps_set :
  keeps (@modify G (fun s => set_history_traps_set (history_traps_set s + 1) s)).
Proof.
  intro s. unfold frame. simpl. repeat split.
Qed.

Ltac keeps_step :=
  first
    [ apply keeps_ret
    | apply keeps_get
    | apply keeps_rng_random
    | apply keeps_set_mood
    | apply keeps_traps_set
    | apply keeps_bind; [| intro]
    | match goal with
      | |- keeps (if ?b then _ else _) => destruct b
      | |- keeps (match ?x with _ => _ end) => destruct x
      | |- keeps (let '(_, _) := ?x in _) => destruct x
      end ].

Lemma keeps_set_mood_of (rnd : Z) (f : Q) : keeps (_set_mood rnd f).
Proof.
  unfold _set_mood. repeat keeps_step.
Qed.

Lemma keeps_early (rnd : Z) : keeps (_early_game_decision rnd).
Proof.
  unfold _early_game_decision, rng_uniform. repeat keeps_step.
Qed.

Lemma keeps_mid_adaptive (f : Q) : keeps (mid_game_adaptive f).
Proof.
  unfold mid_game_adaptive. repeat keeps_step.
Qed.

Lemma keeps_mid (rnd : Z) (f c : Q) : keeps (_mid_game_decision rnd f c).
Proof.
  unfold _mid_game_decision.
  repeat first [ apply keeps_mid_adaptive | keeps_step ].
Qed.

Lemma keeps_late_final (rnd : Z) : keeps (late_game_final rnd).
Proof.
  unfold late_game_final. repeat keeps_step.
Qed.

Lemma keeps_late_exploit (rnd : Z) (f : Q) : keeps (late_game_exploit rnd f).
Proof.
  unfold late_game_exploit.
  repeat first [ apply keeps_late_final | keeps_step ].
Qed.

Lemma keeps_late_trust (rnd : Z) (f : Q) : keeps (late_game_trust rnd f).
Proof.
  unfold late_game_trust.
  repeat first [ apply keeps_late_exploit | keeps_step ].
Qed.

Lemma keeps_late (rnd : Z) (f c : Q) : keeps (_late_game_decision rnd f c).
Proof.
  unfold _late_game_decision.
  repeat first [ apply keeps_late_trust | keeps_step ].
Qed.

Lemma keeps_phase_dispatch (rnd : Z) (f c : Q) : keeps (phase_dispatch rnd f c).
Proof.
  unfold phase_dispatch.
  repeat first
    [ apply keeps_set_mood_of | apply keeps_early | apply keeps_mid
    | apply keeps_late | keeps_step ].
Qed.

End Frames.

(** ** The guards of [decide] *)

Section Decide.
Context {G : Type} `{RandomSource G}.

Lemma decide_immune_run (s : InspectorAI G) (rnd sc : Z) (last : option Z) :
  0 < immunity_turns s ->
  decide rnd sc last s =
  ((ACT_DONT_INSPECT, false, Some "I'm looking the other way."),
   set_immunity_turns (immunity_turns s - 1) s).
Proof.
  intro I. apply Z.ltb_lt in I.
  unfold decide, bind, get, modify, ret. rewrite I. reflexivity.
Qed.

Lemma decide_not_immune (s : InspectorAI G) (rnd sc : Z) (last : option Z) :
  immunity_turns s <= 0 ->
  deal_is "accepted" (pending_deal s) = false ->
  decide rnd sc last s = decide_phase rnd last s.
Proof.
  intros I D. apply Z.ltb_ge in I.
  unfold decide, bind, get. rewrite I, D. reflexivity.
Qed.

Lemma decide_phase_run (s : InspectorAI G) (rnd : Z) (last : option Z) :
  decide_phase rnd last s =
  phase_dispatch rnd (get_smuggle_frequency s) (get_cooperation_frequency s)
    (snd (_update_trust last s)).
Proof.
  unfold decide_phase. rewrite bind_run. unfold get at 1. simpl.
  rewrite bind_run. reflexivity.
Qed.

(** The trust update writes the trust level and the passive counter only. *)
Lemma update_trust_frame (s : InspectorAI G) (last : option Z) :
  let s' := snd (_update_trust last s) in
  rng s' = rng s /\ llm s' = llm s /\ personality s' = personality s
  /\ history_smuggler s' = history_smuggler s
  /\ history_traps_set s' = history_traps_set s
  /\ pending_deal s' = pending_deal s
  /\ immunity_turns s' = immunity_turns s
  /\ greed s' = greed s /\ deceptiveness s' = deceptiveness s
  /\ adaptiveness s' = adaptiveness s.
Proof.
  unfold _update_trust, py_in, existsb. destruct last as [a |].
  - destruct (a =? ACT_SMUGGLE), (a =? ACT_LAY_LOW), (a =? ACT_SIGNAL_TRUCE),
      (a =? ACT_BRIBE); simpl; repeat split.
  - simpl. repeat split.
Qed.

(** C2. While [immunity_turns > 0], [decide] returns DontInspect with the
    fixed line "I'm looking the other way.", lowers the counter by exactly
    one and does nothing else: the state it leaves is the state it found
    with the counter decremented, so trust, the passive counter, the
    generator, the mood and the pending deal are untouched. *)
Theorem decide_while_immune (s : InspectorAI G) (rnd sc : Z) (last : option Z) :
  0 < immunity_turns s ->
  decide rnd sc last s =
    ((ACT_DONT_INSPECT, false, Some "I'm looking the other way."),
     set_immunity_turns (immunity_turns s - 1) s)
  /\ immunity_turns (snd (decide rnd sc last s)) = immunity_turns s - 1
  /\ trust_level (snd (decide rnd sc last s)) = trust_level s
  /\ consecutive_passive_rounds (snd (decide rnd sc last s))
     = consecutive_passive_rounds s
  /\ rng (snd (decide rnd sc last s)) = rng s
  /\ personality (snd (decide rnd sc last s)) = personality s
  /\ pending_deal (snd (decide rnd sc last s)) = pending_deal s.
Proof.
  intro I. rewrite (decide_immune_run s rnd sc last I). simpl.
  repeat split.
Qed.

(** C8. The trust update: [None] changes nothing; Smuggle takes 0.1 off the
    trust level, not below 0, and zeroes the passive counter; LayLow and
    SignalTruce add 0.05, not above 1, and add one to the counter; Bribe adds
    0.02, not above 1, and zeroes the counter.  It is the first thing a
    [decide] call does once past the immunity and legacy-deal guards.  From
    a trust level within [0, 1] a Smuggle never raises it and the others
    never lower it, a Bribe raising it no further than a LayLow; from a
    level within [0.1, 0.95] a Smuggle lowers it, a Bribe raises it, a
    LayLow raises it further, and the fall after a Smuggle is larger than
    the rise after a LayLow. *)
Theorem update_trust_cases (s : InspectorAI G) :
  _update_trust None s = (tt, s)
  /\ (trust_level (snd (_update_trust (Some ACT_SMUGGLE) s))
        == Qmax 0 (trust_level s - 0.1))%Q
  /\ consecutive_passive_rounds (snd (_update_trust (Some ACT_SMUGGLE) s)) = 0
  /\ (trust_level (snd (_update_trust (Some ACT_LAY_LOW) s))
        == Qmin 1 (trust_level s + 0.05))%Q
  /\ consecutive_passive_rounds (snd (_update_trust (Some ACT_LAY_LOW) s))
     = consecutive_passive_rounds s + 1
  /\ (trust_level (snd (_update_trust (Some ACT_SIGNAL_TRUCE) s))
        == Qmin 1 (trust_level s + 0.05))%Q
  /\ consecutive_passive_rounds (snd (_update_trust (Some ACT_SIGNAL_TRUCE) s))
     = consecutive_passive_rounds s + 1
  /\ (trust_level (snd (_update_trust (Some ACT_BRIBE) s))
        == Qmin 1 (trust_level s + 0.02))%Q
  /\ consecutive_passive_rounds (snd (_update_trust (Some ACT_BRIBE) s)) = 0
  /\ (forall rnd sc last,
         immunity_turns s <= 0 ->
         deal_is "accepted" (pending_deal s) = false ->
         decide rnd sc last s =
         phase_dispatch rnd (get_smuggle_frequency s)
           (get_cooperation_frequency s) (snd (_update_trust last s)))
  /\ ((0 <= trust_level s <= 1)%Q ->
      (trust_level (snd (_update_trust (Some ACT_SMUGGLE) s)) <= trust_level s
       /\ trust_level s <= trust_level (snd (_update_trust (Some ACT_BRIBE) s))
       /\ trust_level (snd (_update_trust (Some ACT_BRIBE) s))
          <= trust_level (snd (_update_trust (Some ACT_LAY_LOW) s)))%Q)
  /\ ((0.1 <= trust_level s <= 0.95)%Q ->
      (trust_level (snd (_update_trust (Some ACT_SMUGGLE) s)) < trust_level s
       /\ trust_level s < trust_level (snd (_update_trust (Some ACT_BRIBE) s))
       /\ trust_level (snd (_update_trust (Some ACT_BRIBE) s))
          < trust_level (snd (_update_trust (Some ACT_LAY_LOW) s))
       /\ trust_level (snd (_update_trust (Some ACT_LAY_LOW) s)) - trust_level s
          < trust_level s
            - trust_level (snd (_update_trust (Some ACT_SMUGGLE) s)))%Q).
Proof.
  split; [reflexivity |].
  split; [simpl; apply py_max_Qmax |].
  split; [reflexivity |].
  split; [simpl; apply py_min_Qmin |].
  split; [reflexivity |].
  split; [simpl; apply py_min_Qmin |].
  split; [reflexivity |].
  split; [simpl; apply py_min_Qmin |].
  split; [reflexivity |].
  split.
  - intros rnd sc last I D.
    rewrite (decide_not_immune s rnd sc last I D). apply decide_phase_run.
  - split; intros [Lo Hi]; simpl; unfold py_max, py_min;
      repeat match goal with
             | |- context [Qltb ?a ?b] =>
                 let E := fresh "E" in
                 destruct (Qltb a b) eqn:E;
                 [apply Qltb_lt in E | apply Qltb_ge in E]
             end;
      repeat split; lra.
Qed.

End Decide.

(** ** Frequencies *)

Lemma fold_count_acc (p : Z -> bool) (xs : list Z) (n : Z) :
  fold_left (fun n a => if p a then n + 1 else n) xs n
  = n + Z.of_nat (List.length (filter p xs)).
Proof.
  revert n. induction xs as [| x xs IH]; intro n; simpl.
  - lia.
  - rewrite IH. destruct (p x); simpl List.length; lia.
Qed.

Lemma py_count_filter (p : Z -> bool) (xs : list Z) :
  py_count p xs = Z.of_nat (List.length (filter p xs)).
Proof.
  unfold py_count. rewrite fold_count_acc. lia.
Qed.

Lemma filter_eqb_count (x : Z) (xs : list Z) :
  List.length (filter (fun a => a =? x) xs) = count_occ Z.eq_dec xs x.
Proof.
  induction xs as [| y xs IH]; simpl; [reflexivity |].
  destruct (Z.eqb_spec y x) as [E | N]; destruct (Z.eq_dec y x) as [E' | N'];
    simpl; congruence.
Qed.

Lemma filter_coop_count (xs : list Z) :
  List.length
    (filter (fun a => py_in a [ACT_LAY_LOW; ACT_SIGNAL_TRUCE; ACT_BRIBE]) xs)
  = (count_occ Z.eq_dec xs ACT_LAY_LOW
     + count_occ Z.eq_dec xs ACT_SIGNAL_TRUCE
     + count_occ Z.eq_dec xs ACT_BRIBE)%nat.
Proof.
  induction xs as [| y xs IH]; [reflexivity |].
  cbn [filter count_occ].
  assert (P : py_in y [ACT_LAY_LOW; ACT_SIGNAL_TRUCE; ACT_BRIBE]
              = (y =? 2) || (y =? 4) || (y =? 3)).
  { unfold py_in, existsb, ACT_LAY_LOW, ACT_SIGNAL_TRUCE, ACT_BRIBE.
    rewrite orb_false_r, orb_assoc. reflexivity. }
  rewrite P. unfold ACT_LAY_LOW, ACT_SIGNAL_TRUCE, ACT_BRIBE in *.
  destruct (Z.eq_dec y 2) as [E2 | N2]; destruct (Z.eq_dec y 4) as [E4 | N4];
    destruct (Z.eq_dec y 3) as [E3 | N3]; try lia.
  - subst y. cbn [Z.eqb Pos.eqb orb List.length]. lia.
  - subst y. cbn [Z.eqb Pos.eqb orb List.length]. lia.
  - subst y. cbn [Z.eqb Pos.eqb orb List.length]. lia.
  - apply Z.eqb_neq in N2, N4, N3. rewrite N2, N4, N3. cbn [orb]. exact IH.
Qed.

Section Frequencies.
Context {G : Type} `{RandomSource G}.

(** C10. A freshly constructed instance reports the defaults 0.3 (smuggle
    frequency) and 0.5 (cooperation frequency).  Recording a round makes the
    history non-empty, and on a non-empty history the accessors return the
    number of Smuggle entries, respectively of LayLow, SignalTruce and Bribe
    entries together, divided by the number of recorded rounds. *)
Theorem frequency_accessors (seed : Z) (l : option LLMDialogueGenerator)
    (s : InspectorAI G) :
  get_smuggle_frequency (__init__ seed l) = 0.3%Q
  /\ get_cooperation_frequency (__init__ seed l) = 0.5%Q
  /\ (forall p i t, history_smuggler (snd (record_round p i t s)) <> [])
  /\ (history_smuggler s <> [] ->
      get_smuggle_frequency s
      = (inject_Z (Z.of_nat (count_occ Z.eq_dec (history_smuggler s) ACT_SMUGGLE))
         / inject_Z (Z.of_nat (List.length (history_smuggler s))))%Q
      /\ get_cooperation_frequency s
         = (inject_Z
              (Z.of_nat
                 (count_occ Z.eq_dec (history_smuggler s) ACT_LAY_LOW
                  + count_occ Z.eq_dec (history_smuggler s) ACT_SIGNAL_TRUCE
                  + count_occ Z.eq_dec (history_smuggler s) ACT_BRIBE))
            / inject_Z (Z.of_nat (List.length (history_smuggler s))))%Q).
Proof.
  split; [| split; [| split]].
  - unfold __init__.
    destruct (random (Random seed)) as [u1 g1].
    destruct (random g1) as [u2 g2]. destruct (random g2) as [u3 g3].
    reflexivity.
  - unfold __init__.
    destruct (random (Random seed)) as [u1 g1].
    destruct (random g1) as [u2 g2]. destruct (random g2) as [u3 g3].
    reflexivity.
  - intros p i t. unfold record_round. rewrite !bind_run. simpl.
    destruct t; simpl; intro E; apply app_eq_nil in E; destruct E; discriminate.
  - intro NE. unfold get_smuggle_frequency, get_cooperation_frequency.
    destruct (history_smuggler s) as [| a h] eqn:E; [contradiction |].
    rewrite !py_count_filter, filter_eqb_count, filter_coop_count.
    split; reflexivity.
Qed.

End Frequencies.

(** ** Pattern detector *)

Lemma last_n_app {A : Type} (p q : list A) :
  py_last_n (List.length q) (p ++ q) = q.
Proof.
  unfold py_last_n. rewrite length_app.
  replace (List.length p + List.length q - List.length q)%nat
    with (List.length p) by lia.
  rewrite skipn_app, skipn_all, Nat.sub_diag. reflexivity.
Qed.

Lemma is_passive_in (a : Z) :
  py_in a [ACT_LAY_LOW; ACT_SIGNAL_TRUCE] = is_passive a.
Proof.
  unfold py_in, is_passive, existsb. rewrite orb_false_r. reflexivity.
Qed.

Section Pattern.
Context {G : Type} `{RandomSource G}.

(** C6, as amended.  On every history the detector follows the rules in
    order: fewer than three entries, none; last three all Smuggle, Inspect;
    last three all LayLow or SignalTruce, DontInspect; at least four entries
    with the last four differing at each adjacent position, Inspect when the
    most recent action is LayLow or SignalTruce and DontInspect for any other
    most recent action (Smuggle, and Bribe as well); otherwise none. *)
Theorem detect_pattern_rules (s : InspectorAI G) :
  _detect_pattern s = detect_pattern_amended (history_smuggler s).
Proof.
  unfold _detect_pattern, detect_pattern_amended.
  set (h := history_smuggler s).
  assert (L : List.length (rev h) = List.length h) by apply length_rev.
  assert (R : h = rev (rev h)) by (symmetry; apply rev_involutive).
  destruct (rev h) as [| c [| b [| a older]]] eqn:E; simpl in L.
  - rewrite <- L. reflexivity.
  - rewrite <- L. reflexivity.
  - rewrite <- L. reflexivity.
  - simpl in R. rewrite <- !app_assoc in R. simpl in R.
    assert (L3 : (List.length h <? 3)%nat = false)
      by (apply Nat.ltb_ge; lia).
    rewrite L3.
    assert (T : py_last_n 3 h = [a; b; c])
      by (rewrite R; apply (last_n_app (rev older) [a; b; c])).
    rewrite T. cbn [forallb]. rewrite !is_passive_in, !andb_true_r.
    rewrite !andb_assoc.
    destruct ((a =? ACT_SMUGGLE) && (b =? ACT_SMUGGLE) && (c =? ACT_SMUGGLE));
      [reflexivity |].
    destruct (is_passive a && is_passive b && is_passive c); [reflexivity |].
    destruct older as [| z older'].
    + assert (L4 : (4 <=? List.length h)%nat = false)
        by (apply Nat.leb_gt; simpl in L; lia).
      rewrite L4. reflexivity.
    + assert (L4 : (4 <=? List.length h)%nat = true)
        by (apply Nat.leb_le; simpl in L; lia).
      rewrite L4.
      assert (F : py_last_n 4 h = [z; a; b; c]).
      { rewrite R. simpl. rewrite <- !app_assoc. simpl.
        apply (last_n_app (rev older') [z; a; b; c]). }
      rewrite F, is_passive_in. reflexivity.
Qed.

End Pattern.

(** ** Bribes, truces and the round record *)

(** Reduce projections of updated states, and nothing else. *)
Ltac fields :=
  cbn [fst snd
       rng llm personality history_smuggler history_inspector
       history_bribes_offered history_bribes_accepted history_truces_signaled
       history_traps_set history_traps_sprung trust_level pending_deal
       immunity_turns consecutive_passive_rounds greed deceptiveness
       adaptiveness
       set_rng set_llm set_personality set_history_smuggler
       set_history_inspector set_history_bribes_offered
       set_history_bribes_accepted set_history_truces_signaled
       set_history_traps_set set_history_traps_sprung set_trust_level
       set_pending_deal set_immunity_turns set_consecutive_passive_rounds].

Ltac fields_in E :=
  cbn [fst snd
       rng llm personality history_smuggler history_inspector
       history_bribes_offered history_bribes_accepted history_truces_signaled
       history_traps_set history_traps_sprung trust_level pending_deal
       immunity_turns consecutive_passive_rounds greed deceptiveness
       adaptiveness
       set_rng set_llm set_personality set_history_smuggler
       set_history_inspector set_history_bribes_offered
       set_history_bribes_accepted set_history_truces_signaled
       set_history_traps_set set_history_traps_sprung set_trust_level
       set_pending_deal set_immunity_turns set_consecutive_passive_rounds]
    in E.

Ltac run_monad :=
  unfold bind, modify, get, ret, rng_random, rng_uniform, llm_generate; fields.

Section Bribes.
Context {G : Type} `{RandomSource G}.

Lemma get_bribe_response_effect (a w : bool) (s : InspectorAI G) :
  set_llm None (snd (get_bribe_response a w s)) = set_llm None s.
Proof.
  unfold get_bribe_response. run_monad.
  destruct (llm s) as [l |]; [| reflexivity].
  destruct (generate l) as [[txt |] l']; [| reflexivity].
  destruct (py_nonempty (Some txt)); reflexivity.
Qed.

Lemma get_truce_response_effect (t : bool) (s : InspectorAI G) :
  set_llm None (snd (get_truce_response t s)) = set_llm None s.
Proof.
  unfold get_truce_response. run_monad.
  destruct (llm s) as [l |]; [| reflexivity].
  destruct (generate l) as [[txt |] l']; [| reflexivity].
  destruct (py_nonempty (Some txt)); reflexivity.
Qed.

(** What [handle_bribe] does, in terms of the two draws it may make. *)
Lemma handle_bribe_effect (s : InspectorAI G) (rnd sc : Z)
    (u1 u2 : Q) (g1 g2 : G) :
  random (rng s) = (u1, g1) ->
  random g1 = (u2, g2) ->
  let accepted := Qltb u1 (acceptance_prob rnd s) in
  let will_betray := Qltb u2 (deceptiveness s * 0.5)%Q in
  let r := handle_bribe rnd sc s in
  fst (fst r) = accepted
  /\ trust_level (snd r) = trust_level s
  /\ pending_deal (snd r)
     = (if accepted
        then Some (if will_betray then "trap" else "safe")
        else pending_deal s)
  /\ immunity_turns (snd r)
     = (if accepted && negb will_betray then 2 else immunity_turns s).
Proof.
  intros R1 R2. unfold handle_bribe. run_monad. rewrite R1. fields.
  change (acceptance_prob rnd
            (set_history_bribes_offered (history_bribes_offered s + 1) s))
    with (acceptance_prob rnd s).
  destruct (Qltb u1 (acceptance_prob rnd s)); fields.
  - rewrite R2. fields.
    destruct (Qltb u2 (deceptiveness s * 0.5)); cbn [negb andb].
    + match goal with
      | |- context [get_bribe_response ?a ?w ?t] =>
          pose proof (get_bribe_response_effect a w t) as E;
          destruct (get_bribe_response a w t) as [txt t']
      end.
      fields. cbn [snd] in E.
      repeat split.
      * apply (f_equal trust_level) in E. exact E.
      * apply (f_equal pending_deal) in E. exact E.
      * apply (f_equal immunity_turns) in E. exact E.
    + match goal with
      | |- context [get_bribe_response ?a ?w ?t] =>
          pose proof (get_bribe_response_effect a w t) as E;
          destruct (get_bribe_response a w t) as [txt t']
      end.
      fields. cbn [snd] in E.
      repeat split.
      apply (f_equal trust_level) in E. exact E.
  - match goal with
    | |- context [get_bribe_response ?a ?w ?t] =>
        pose proof (get_bribe_response_effect a w t) as E;
        destruct (get_bribe_response a w t) as [txt t']
    end.
    fields. cbn [snd] in E.
    repeat split.
    + apply (f_equal trust_level) in E. exact E.
    + apply (f_equal pending_deal) in E. exact E.
    + apply (f_equal immunity_turns) in E. exact E.
Qed.

End Bribes.

Section Effects.
Context {G : Type} `{RandomSource G}.

Lemma update_trust_bounds (s : InspectorAI G) (last : option Z) :
  (0 <= trust_level s <= 1)%Q ->
  (0 <= trust_level (snd (_update_trust last s)) <= 1)%Q.
Proof.
  intros [Lo Hi]. unfold _update_trust, py_in, existsb.
  destruct last as [a |]; [| simpl; split; assumption].
  destruct (a =? ACT_SMUGGLE), (a =? ACT_LAY_LOW), (a =? ACT_SIGNAL_TRUCE),
    (a =? ACT_BRIBE); run_monad; cbn [orb];
    try (split; assumption);
    first [ apply py_max_bounds; lra | apply py_min_bounds; lra
          | fields; first [ apply py_max_bounds; lra | apply py_min_bounds; lra ]
          | fields; split; assumption ].
Qed.

(** The legacy branch of [decide]: a pending "accepted" deal is consumed. *)
Lemma decide_legacy_effect (s : InspectorAI G) (rnd sc : Z) (last : option Z) :
  immunity_turns s <= 0 ->
  deal_is "accepted" (pending_deal s) = true ->
  pending_deal (snd (decide rnd sc last s)) = None
  /\ trust_level (snd (decide rnd sc last s)) = trust_level s.
Proof.
  intros I D. apply Z.ltb_ge in I.
  unfold decide, record_honesty. run_monad. rewrite I, D. fields.
  destruct (random (rng s)) as [u g]. fields.
  destruct (Qltb (deceptiveness s) u); fields; split; reflexivity.
Qed.

(** Past its guards [decide] changes neither the pending deal nor, beyond
    the trust update, the trust level. *)
Lemma decide_phase_effect (s : InspectorAI G) (rnd : Z) (last : option Z) :
  pending_deal (snd (decide_phase rnd last s)) = pending_deal s
  /\ immunity_turns (snd (decide_phase rnd last s)) = immunity_turns s
  /\ trust_level (snd (decide_phase rnd last s))
     = trust_level (snd (_update_trust last s)).
Proof.
  rewrite decide_phase_run.
  pose proof (keeps_phase_dispatch rnd (get_smuggle_frequency s)
                (get_cooperation_frequency s) (snd (_update_trust last s)))
    as F.
  pose proof (update_trust_frame s last) as U. cbv zeta in U.
  unfold frame in F.
  repeat match goal with
         | F : _ /\ _ |- _ => destruct F
         end.
  repeat split; congruence.
Qed.

Lemma decide_pending (s : InspectorAI G) (rnd sc : Z) (last : option Z) :
  deal_is "accepted" (pending_deal s) = false ->
  pending_deal (snd (decide rnd sc last s)) = pending_deal s.
Proof.
  intro D. destruct (Z.ltb_spec 0 (immunity_turns s)) as [I | I].
  - rewrite (decide_immune_run s rnd sc last I). reflexivity.
  - rewrite (decide_not_immune s rnd sc last I D).
    apply decide_phase_effect.
Qed.

Lemma decide_trust_bounds (s : InspectorAI G) (rnd sc : Z) (last : option Z) :
  (0 <= trust_level s <= 1)%Q ->
  (0 <= trust_level (snd (decide rnd sc last s)) <= 1)%Q.
Proof.
  intro B. destruct (Z.ltb_spec 0 (immunity_turns s)) as [I | I].
  - rewrite (decide_immune_run s rnd sc last I). exact B.
  - destruct (deal_is "accepted" (pending_deal s)) eqn:D.
    + destruct (decide_legacy_effect s rnd sc last I D) as [_ T].
      rewrite T. exact B.
    + rewrite (decide_not_immune s rnd sc last I D).
      destruct (decide_phase_effect s rnd last) as [_ [_ T]].
      rewrite T. apply update_trust_bounds, B.
Qed.

Lemma handle_bribe_trust (s : InspectorAI G) (rnd sc : Z) :
  trust_level (snd (handle_bribe rnd sc s)) = trust_level s.
Proof.
  destruct (random (rng s)) as [u1 g1] eqn:R1.
  destruct (random g1) as [u2 g2] eqn:R2.
  apply (handle_bribe_effect s rnd sc u1 u2 g1 g2 R1 R2).
Qed.

Lemma handle_bribe_pending (s : InspectorAI G) (rnd sc : Z) :
  pending_deal (snd (handle_bribe rnd sc s)) = pending_deal s
  \/ pending_deal (snd (handle_bribe rnd sc s)) = Some "trap"
  \/ pending_deal (snd (handle_bribe rnd sc s)) = Some "safe".
Proof.
  destruct (random (rng s)) as [u1 g1] eqn:R1.
  destruct (random g1) as [u2 g2] eqn:R2.
  destruct (handle_bribe_effect s rnd sc u1 u2 g1 g2 R1 R2)
    as [_ [_ [P _]]].
  rewrite P.
  destruct (Qltb u1 (acceptance_prob rnd s)); [| left; reflexivity].
  destruct (Qltb u2 (deceptiveness s * 0.5)); auto.
Qed.

Lemma handle_truce_effect (s : InspectorAI G) :
  pending_deal (snd (handle_truce_signal s)) = pending_deal s
  /\ ((0 <= trust_level s <= 1)%Q ->
      (0 <= trust_level (snd (handle_truce_signal s)) <= 1)%Q).
Proof.
  unfold handle_truce_signal. run_monad.
  destruct (Qltb 0.6 (trust_level s)); fields.
  - match goal with
    | |- context [get_truce_response ?t ?x] =>
        pose proof (get_truce_response_effect t x) as E;
        destruct (get_truce_response t x) as [txt x']
    end.
    cbn [snd] in *. split.
    + apply (f_equal pending_deal) in E. exact E.
    + intros [Lo Hi]. apply (f_equal trust_level) in E. fields_in E.
      rewrite E. apply py_min_bounds. lra.
  - match goal with
    | |- context [get_truce_response ?t ?x] =>
        pose proof (get_truce_response_effect t x) as E;
        destruct (get_truce_response t x) as [txt x']
    end.
    cbn [snd] in *. split.
    + apply (f_equal pending_deal) in E. exact E.
    + intro B. apply (f_equal trust_level) in E. fields_in E.
      rewrite E. exact B.
Qed.

Lemma record_round_effect (s : InspectorAI G) (p i : Z) (t : bool) :
  pending_deal (snd (record_round p i t s)) = pending_deal s
  /\ trust_level (snd (record_round p i t s)) = trust_level s.
Proof.
  unfold record_round. run_monad. destruct t; split; reflexivity.
Qed.

End Effects.

(** ** Trust stays in the unit interval *)

Section Trust.
Context {G : Type} `{RandomSource G}.

Lemma init_trust (seed : Z) (l : option LLMDialogueGenerator) :
  trust_level (__init__ seed l) = 0.5%Q
  /\ pending_deal (__init__ seed l) = None
  /\ immunity_turns (__init__ seed l) = 0.
Proof.
  unfold __init__.
  destruct (random (Random seed)) as [u1 g1].
  destruct (random g1) as [u2 g2]. destruct (random g2) as [u3 g3].
  repeat split.
Qed.

Lemma call_trust_bounds (c : Call) (s : InspectorAI G) :
  (0 <= trust_level s <= 1)%Q ->
  (0 <= trust_level (snd (call c s)) <= 1)%Q.
Proof.
  intro B. destruct c as [rnd sc last | rnd sc | | p i t | last];
    unfold call; rewrite bind_run; cbn [ret snd].
  - apply decide_trust_bounds, B.
  - rewrite handle_bribe_trust. exact B.
  - apply handle_truce_effect, B.
  - destruct (record_round_effect s p i t) as [_ T]. rewrite T. exact B.
  - apply update_trust_bounds, B.
Qed.

Lemma run_trust_bounds (cs : list Call) (s : InspectorAI G) :
  (0 <= trust_level s <= 1)%Q ->
  (0 <= trust_level (snd (run cs s)) <= 1)%Q.
Proof.
  revert s. induction cs as [| c cs IH]; intros s B.
  - exact B.
  - cbn [run]. rewrite bind_run, bind_run. cbn [ret snd].
    apply IH, call_trust_bounds, B.
Qed.

(** C3. From a freshly constructed instance, whose trust level is 0.5, any
    sequence of [decide], [handle_bribe], [handle_truce_signal],
    [record_round] and trust-update calls leaves the trust level within
    [0, 1]; and a single call made at a trust level within [0, 1] ends at a
    trust level within [0, 1]. *)
Theorem trust_level_bounded (seed : Z) (l : option LLMDialogueGenerator)
    (cs : list Call) (c : Call) (s : InspectorAI G) :
  trust_level (@__init__ G _ seed l) = 0.5%Q
  /\ (0 <= trust_level (snd (run cs (__init__ seed l))) <= 1)%Q
  /\ ((0 <= trust_level s <= 1)%Q ->
      (0 <= trust_level (snd (call c s)) <= 1)%Q).
Proof.
  destruct (init_trust seed l) as [T _]. split; [exact T |]. split.
  - apply run_trust_bounds. rewrite T. split; discriminate.
  - apply call_trust_bounds.
Qed.

End Trust.

(** ** Immunity bought by an honoured bribe *)

Section Immunity.
Context {G : Type} `{RandomSource G}.

(** C5. When [handle_bribe] accepts (its first draw is below the acceptance
    probability) and honours the deal (its second draw is not below half the
    deceptiveness), it reports acceptance and leaves [immunity_turns = 2] and
    [pending_deal = "safe"].  The next two [decide] calls, whatever their
    arguments, return DontInspect with the immunity line and bring the
    counter to 1 and then 0; a third call is no longer forced: it is the
    ordinary trust update and phase logic. *)
Theorem honoured_bribe_two_rounds (s : InspectorAI G) (rnd sc : Z)
    (u1 u2 : Q) (g1 g2 : G) :
  random (rng s) = (u1, g1) ->
  random g1 = (u2, g2) ->
  (u1 < acceptance_prob rnd s)%Q ->
  (deceptiveness s * 0.5 <= u2)%Q ->
  fst (fst (handle_bribe rnd sc s)) = true
  /\ immunity_turns (snd (handle_bribe rnd sc s)) = 2
  /\ pending_deal (snd (handle_bribe rnd sc s)) = Some "safe"
  /\ forall r1 c1 l1 r2 c2 l2 r3 c3 l3,
      let s1 := snd (handle_bribe rnd sc s) in
      let s2 := snd (decide r1 c1 l1 s1) in
      let s3 := snd (decide r2 c2 l2 s2) in
      fst (decide r1 c1 l1 s1)
        = (ACT_DONT_INSPECT, false, Some "I'm looking the other way.")
      /\ immunity_turns s2 = 1
      /\ fst (decide r2 c2 l2 s2)
         = (ACT_DONT_INSPECT, false, Some "I'm looking the other way.")
      /\ immunity_turns s3 = 0
      /\ decide r3 c3 l3 s3 = decide_phase r3 l3 s3.
Proof.
  intros R1 R2 A W.
  destruct (handle_bribe_effect s rnd sc u1 u2 g1 g2 R1 R2)
    as [Acc [_ [P I]]].
  apply Qltb_lt in A. apply Qltb_ge in W. rewrite A in *. rewrite W in *.
  cbn [negb andb] in I.
  split; [exact Acc |]. split; [exact I |]. split; [exact P |].
  intros r1 c1 l1 r2 c2 l2 r3 c3 l3 s1 s2 s3.
  assert (I1 : 0 < immunity_turns s1) by (unfold s1; lia).
  assert (E2 : decide r1 c1 l1 s1
               = ((ACT_DONT_INSPECT, false, Some "I'm looking the other way."),
                  set_immunity_turns (immunity_turns s1 - 1) s1))
    by (apply decide_immune_run, I1).
  assert (I2 : immunity_turns s2 = 1)
    by (unfold s2; rewrite E2; unfold s1; cbn [snd]; fields; lia).
  assert (P2 : pending_deal s2 = Some "safe")
    by (unfold s2; rewrite E2; exact P).
  assert (E3 : decide r2 c2 l2 s2
               = ((ACT_DONT_INSPECT, false, Some "I'm looking the other way."),
                  set_immunity_turns (immunity_turns s2 - 1) s2))
    by (apply decide_immune_run; lia).
  assert (I3 : immunity_turns s3 = 0)
    by (unfold s3; rewrite E3; cbn [snd]; fields; lia).
  assert (P3 : pending_deal s3 = Some "safe")
    by (unfold s3; rewrite E3; exact P2).
  split; [rewrite E2; reflexivity |]. split; [exact I2 |].
  split; [rewrite E3; reflexivity |]. split; [exact I3 |].
  apply decide_not_immune; [lia |]. rewrite P3. reflexivity.
Qed.

End Immunity.

(** ** The pending deal across rounds *)

Lemma deal_known_not_accepted {G : Type} (s : InspectorAI G) :
  deal_known s -> deal_is "accepted" (pending_deal s) = false.
Proof.
  intros [E | [E | E]]; rewrite E; reflexivity.
Qed.

Section Deals.
Context {G : Type} `{RandomSource G}.

Lemma call_deal_known (c : Call) (s : InspectorAI G) :
  deal_known s -> deal_known (snd (call c s)).
Proof.
  intro K. pose proof (deal_known_not_accepted s K) as D.
  destruct c as [rnd sc last | rnd sc | | p i t | last];
    unfold call; rewrite bind_run; cbn [ret snd]; unfold deal_known.
  - rewrite (decide_pending s rnd sc last D). exact K.
  - destruct (handle_bribe_pending s rnd sc) as [E | [E | E]]; rewrite E; auto.
  - destruct (handle_truce_effect s) as [E _]. rewrite E. exact K.
  - destruct (record_round_effect s p i t) as [E _]. rewrite E. exact K.
  - destruct (update_trust_frame s last) as [_ [_ [_ [_ [_ [E _]]]]]].
    rewrite E. exact K.
Qed.

Lemma run_deal_known (cs : list Call) (s : InspectorAI G) :
  deal_known s -> deal_known (snd (run cs s)).
Proof.
  revert s. induction cs as [| c cs IH]; intros s K.
  - exact K.
  - cbn [run]. rewrite bind_run, bind_run. cbn [ret snd].
    apply IH, call_deal_known, K.
Qed.

Lemma rng_choice_pending (l : list string) (s : InspectorAI G) :
  pending_deal (snd (rng_choice l s)) = pending_deal s.
Proof.
  unfold rng_choice. destruct (randbelow (List.length l) (rng s)).
  reflexivity.
Qed.

Lemma llm_generate_pending (s : InspectorAI G) :
  pending_deal (snd (llm_generate s)) = pending_deal s.
Proof.
  unfold llm_generate. destruct (llm s) as [l |]; [| reflexivity].
  destruct (generate l). reflexivity.
Qed.

Lemma outcome_fallback_pending (p i : Z) (t : bool) (s : InspectorAI G) :
  pending_deal (snd (outcome_fallback p i t s)) = pending_deal s.
Proof.
  unfold outcome_fallback.
  repeat match goal with
         | |- context [if ?b then _ else _] => destruct b
         end;
    try reflexivity; rewrite bind_run; cbn [ret snd];
    apply rng_choice_pending.
Qed.

Lemma outcome_comment_pending (p i : Z) (t : bool) (s : InspectorAI G) :
  pending_deal (snd (get_outcome_comment p i t s)) = pending_deal s.
Proof.
  unfold get_outcome_comment. rewrite bind_run. cbn [get fst snd].
  destruct (llm s) as [l |]; [| apply outcome_fallback_pending].
  rewrite bind_run.
  assert (P1 : pending_deal
                 (snd ((if t then llm_generate else ret None) s))
               = pending_deal s)
    by (destruct t; [apply llm_generate_pending | reflexivity]).
  destruct (py_nonempty (fst ((if t then llm_generate else ret None) s)));
    [exact P1 |].
  rewrite bind_run.
  destruct (py_nonempty
              (fst (llm_generate
                      (snd ((if t then llm_generate else ret None) s))))).
  - cbn [ret snd]. rewrite llm_generate_pending. exact P1.
  - rewrite outcome_fallback_pending, llm_generate_pending. exact P1.
Qed.

Lemma special_actions_pending (pa rnd sc : Z) (s : InspectorAI G) :
  pending_deal (snd (special_actions pa rnd sc s)) = pending_deal s
  \/ pending_deal (snd (special_actions pa rnd sc s)) = Some "trap"
  \/ pending_deal (snd (special_actions pa rnd sc s)) = Some "safe".
Proof.
  unfold special_actions.
  destruct (pa =? ACT_BRIBE).
  - rewrite bind_run. cbn [ret snd]. apply handle_bribe_pending.
  - destruct (pa =? ACT_SIGNAL_TRUCE).
    + rewrite bind_run. cbn [ret snd]. left. apply handle_truce_effect.
    + left. reflexivity.
Qed.

Lemma override_run (b : bool) (ia : Z) (s : InspectorAI G) :
  override b ia s =
  if deal_is "trap" (pending_deal s)
  then ((ACT_INSPECT, true), set_pending_deal None s)
  else ((if b then ACT_DONT_INSPECT else ia, false), s).
Proof.
  unfold override. rewrite bind_run. cbn [get fst snd].
  destruct (deal_is "trap" (pending_deal s)), b; reflexivity.
Qed.

(** One round, seen from the inspector: when the deal pending at the moment
    [decide] is called is "trap", the round ends with Inspect, the trap flag
    and no pending deal; any other deal is left as it is. *)
Lemma round_inspector_effect (pa rnd sc : Z) (last : option Z)
    (s : InspectorAI G) :
  let s1 := snd (special_actions pa rnd sc s) in
  let r := round_inspector pa rnd sc last s in
  deal_known s1 ->
  (pending_deal s1 = Some "trap" ->
   fst (fst (fst r)) = ACT_INSPECT /\ snd (fst (fst r)) = true
   /\ pending_deal (snd r) = None)
  /\ (pending_deal s1 <> Some "trap" ->
      pending_deal (snd r) = pending_deal s1).
Proof.
  intros s1 r K1.
  pose proof (decide_pending s1 rnd sc last (deal_known_not_accepted s1 K1))
    as P2.
  unfold r, round_inspector.
  rewrite bind_run. fold s1. rewrite bind_run.
  destruct (decide rnd sc last s1) as [[[ia bait] ann] s2]. cbn [fst snd] in *.
  rewrite bind_run, override_run, P2.
  split.
  - intro T. rewrite T. cbn [deal_is String.eqb Ascii.eqb Bool.eqb fst snd].
    rewrite !bind_run. cbn [ret fst snd].
    match goal with
    | |- context [record_round ?p ?i ?t ?x] =>
        destruct (record_round_effect x p i t) as [E _]; rewrite E
    end.
    rewrite outcome_comment_pending.
    destruct (bait && (pa =? ACT_SMUGGLE)); repeat split.
  - intro N.
    assert (D : deal_is "trap" (pending_deal s1) = false).
    { destruct K1 as [E | [E | E]]; rewrite E; try reflexivity.
      contradiction. }
    rewrite D. cbn [fst snd].
    rewrite !bind_run. cbn [ret fst snd].
    match goal with
    | |- context [record_round ?p ?i ?t ?x] =>
        destruct (record_round_effect x p i t) as [E _]; rewrite E
    end.
    rewrite outcome_comment_pending. exact P2.
Qed.

Lemma play_round_settled (pa n : Z) (g : WebGameSession G) :
  deal_settled (inspector g) ->
  deal_settled (inspector (snd (play_round pa n g))).
Proof.
  intro S. unfold play_round.
  destruct (ROUNDS_PER_GAME <=? round_num g); [exact S |].
  pose proof (round_inspector_effect pa (round_num g + 1) (score g)
                (last_player_action g) (inspector g)) as E.
  cbv zeta in E.
  pose proof (special_actions_pending pa (round_num g + 1) (score g)
                (inspector g)) as P.
  destruct (round_inspector pa (round_num g + 1) (score g)
              (last_player_action g) (inspector g))
    as [[[ia wt] ba] i].
  cbn [fst snd inspector] in *. unfold deal_settled, deal_known in *.
  destruct P as [P | [P | P]].
  - destruct E as [_ E].
    + rewrite P. destruct S as [S | S]; rewrite S; auto.
    + rewrite E; rewrite P; [exact S |].
      destruct S as [S | S]; rewrite S; discriminate.
  - destruct E as [E _]; [rewrite P; auto |].
    left. apply E, P.
  - destruct E as [_ E]; [rewrite P; auto |].
    right. rewrite E; rewrite P; [reflexivity | discriminate].
Qed.

Lemma play_rounds_settled (moves : list (Z * Z)) (g : WebGameSession G) :
  deal_settled (inspector g) ->
  deal_settled (inspector (play_rounds moves g)).
Proof.
  revert g. induction moves as [| [a n] moves IH]; intros g S.
  - exact S.
  - cbn [play_rounds]. apply IH, play_round_settled, S.
Qed.

Lemma run_cons_state (c : Call) (cs : list Call) (s : InspectorAI G) :
  snd (run (c :: cs) s) = snd (run cs (snd (call c s))).
Proof.
  cbn [run]. rewrite !bind_run. reflexivity.
Qed.

Lemma call_decide_state (rnd sc : Z) (last : option Z) (s : InspectorAI G) :
  snd (call (CallDecide rnd sc last) s) = snd (decide rnd sc last s).
Proof.
  unfold call. rewrite bind_run. reflexivity.
Qed.

Lemma call_keeps_safe (c : Call) (s : InspectorAI G) :
  no_bribe_call c ->
  pending_deal s = Some "safe" ->
  pending_deal (snd (call c s)) = Some "safe".
Proof.
  intros N S.
  assert (D : deal_is "accepted" (pending_deal s) = false)
    by (rewrite S; reflexivity).
  destruct c as [rnd sc last | rnd sc | | p i t | last];
    [| contradiction | | |];
    unfold call; rewrite bind_run; cbn [ret snd].
  - rewrite (decide_pending s rnd sc last D). exact S.
  - destruct (handle_truce_effect s) as [E _]. rewrite E. exact S.
  - destruct (record_round_effect s p i t) as [E _]. rewrite E. exact S.
  - destruct (update_trust_frame s last) as [_ [_ [_ [_ [_ [E _]]]]]].
    rewrite E. exact S.
Qed.

Lemma run_keeps_safe (cs : list Call) (s : InspectorAI G) :
  Forall no_bribe_call cs ->
  pending_deal s = Some "safe" ->
  pending_deal (snd (run cs s)) = Some "safe".
Proof.
  intro F. revert s. induction F as [| c cs N F IH]; intros s S.
  - exact S.
  - rewrite run_cons_state. apply IH, call_keeps_safe; assumption.
Qed.

Lemma special_actions_no_bribe (pa rnd sc : Z) (s : InspectorAI G) :
  pa <> ACT_BRIBE ->
  pending_deal (snd (special_actions pa rnd sc s)) = pending_deal s.
Proof.
  intro N. apply Z.eqb_neq in N. unfold special_actions. rewrite N.
  destruct (pa =? ACT_SIGNAL_TRUCE); [| reflexivity].
  rewrite bind_run. cbn [ret snd]. apply handle_truce_effect.
Qed.

Lemma play_round_trap_reset (pa n : Z) (g : WebGameSession G) :
  round_num g < ROUNDS_PER_GAME ->
  pending_deal
    (snd (special_actions pa (round_num g + 1) (score g) (inspector g)))
  = Some "trap" ->
  pending_deal (inspector (snd (play_round pa n g))) = None.
Proof.
  intros R T. unfold play_round. apply Z.leb_gt in R. rewrite R.
  pose proof (round_inspector_effect pa (round_num g + 1) (score g)
                (last_player_action g) (inspector g)) as E.
  cbv zeta in E.
  destruct E as [E _]; [right; left; exact T |].
  specialize (E T).
  destruct (round_inspector pa (round_num g + 1) (score g)
              (last_player_action g) (inspector g))
    as [[[ia wt] ba] i].
  cbn [fst snd inspector] in *. apply E.
Qed.

Lemma play_round_keeps_safe (pa n : Z) (g : WebGameSession G) :
  pa <> ACT_BRIBE ->
  pending_deal (inspector g) = Some "safe" ->
  pending_deal (inspector (snd (play_round pa n g))) = Some "safe".
Proof.
  intros N S. unfold play_round.
  destruct (ROUNDS_PER_GAME <=? round_num g); [exact S |].
  pose proof (round_inspector_effect pa (round_num g + 1) (score g)
                (last_player_action g) (inspector g)) as E.
  cbv zeta in E.
  pose proof (special_actions_no_bribe pa (round_num g + 1) (score g)
                (inspector g) N) as P.
  rewrite S in P.
  destruct E as [_ E]; [right; right; exact P |].
  assert (Q : pending_deal
                (snd (round_inspector pa (round_num g + 1) (score g)
                        (last_player_action g) (inspector g)))
              = Some "safe").
  { rewrite E; [exact P |]. rewrite P. discriminate. }
  destruct (round_inspector pa (round_num g + 1) (score g)
              (last_player_action g) (inspector g))
    as [[[ia wt] ba] i].
  cbn [fst snd inspector] in *. exact Q.
Qed.

Lemma play_rounds_keep_safe (moves : list (Z * Z)) (g : WebGameSession G) :
  Forall (fun m => fst m <> ACT_BRIBE) moves ->
  pending_deal (inspector g) = Some "safe" ->
  pending_deal (inspector (play_rounds moves g)) = Some "safe".
Proof.
  intro F. revert g. induction F as [| [a n] moves N F IH]; intros g S.
  - exact S.
  - cbn [play_rounds]. apply IH, play_round_keeps_safe; assumption.
Qed.

(** C9, as amended.  In every state reached from a fresh instance through
    [decide], [handle_bribe], [handle_truce_signal], [record_round] and the
    trust update, the pending deal is [None], "trap" or "safe" (never the
    legacy "accepted"), and a [decide] call in such a state leaves it as it
    found it.  In every state reached from a fresh session through
    [play_round], the pending deal between rounds is [None] or "safe".  A
    "trap" set by [handle_bribe] is reset by the round driver: a round in
    which the deal is "trap" once the special actions are done ends with no
    pending deal.  "safe" is not reset: no call other than [handle_bribe]
    and no round other than a Bribe round changes it.  In particular, after
    an honoured bribe the deal is "safe", the two [decide] calls that follow
    bring the immunity counter to 0, and the deal is still "safe" after any
    further calls other than [handle_bribe]. *)
Theorem pending_deal_lifecycle (seed : Z) (l : option LLMDialogueGenerator)
    (cs : list Call) (moves : list (Z * Z))
    (g : WebGameSession G) (pa n : Z)
    (t : InspectorAI G) (quiet : list Call)
    (g' : WebGameSession G) (later : list (Z * Z))
    (s : InspectorAI G) (rnd sc : Z) (u1 u2 : Q) (g1 g2 : G)
    (r1 c1 : Z) (l1 : option Z) (r2 c2 : Z) (l2 : option Z)
    (after : list Call) :
  deal_known (snd (run cs (@__init__ G _ seed l)))
  /\ (forall rnd sc last,
         pending_deal (snd (decide rnd sc last (snd (run cs (__init__ seed l)))))
         = pending_deal (snd (run cs (__init__ seed l))))
  /\ deal_settled (inspector (play_rounds moves (new_session seed)))
  /\ (round_num g < ROUNDS_PER_GAME ->
      pending_deal
        (snd (special_actions pa (round_num g + 1) (score g) (inspector g)))
      = Some "trap" ->
      pending_deal (inspector (snd (play_round pa n g))) = None)
  /\ (pending_deal t = Some "safe" ->
      Forall no_bribe_call quiet ->
      pending_deal (snd (run quiet t)) = Some "safe")
  /\ (pending_deal (inspector g') = Some "safe" ->
      Forall (fun m => fst m <> ACT_BRIBE) later ->
      pending_deal (inspector (play_rounds later g')) = Some "safe")
  /\ (random (rng s) = (u1, g1) ->
      random g1 = (u2, g2) ->
      (u1 < acceptance_prob rnd s)%Q ->
      (deceptiveness s * 0.5 <= u2)%Q ->
      Forall no_bribe_call after ->
      let s0 := snd (handle_bribe rnd sc s) in
      let s2 := snd (run [CallDecide r1 c1 l1; CallDecide r2 c2 l2] s0) in
      pending_deal s0 = Some "safe"
      /\ immunity_turns s0 = 2
      /\ immunity_turns s2 = 0
      /\ pending_deal s2 = Some "safe"
      /\ pending_deal (snd (run after s2)) = Some "safe").
Proof.
  assert (K : deal_known (snd (run cs (@__init__ G _ seed l)))).
  { apply run_deal_known. left. apply init_trust. }
  split; [exact K |]. split; [| split; [| split; [| split; [| split]]]].
  - intros rnd0 sc0 last. apply decide_pending, deal_known_not_accepted, K.
  - apply play_rounds_settled. left. unfold new_session. cbn [inspector].
    apply init_trust.
  - apply play_round_trap_reset.
  - intros S F. apply run_keeps_safe; assumption.
  - intros S F. apply play_rounds_keep_safe; assumption.
  - intros R1 R2 A W F s0 s2.
    destruct (handle_bribe_effect s rnd sc u1 u2 g1 g2 R1 R2)
      as [_ [_ [P I]]].
    apply Qltb_lt in A. apply Qltb_ge in W. rewrite A in *. rewrite W in *.
    cbn [negb andb] in I. fold s0 in P, I.
    assert (E2 : s2 = set_immunity_turns 0 (set_immunity_turns 1 s0)).
    { unfold s2. rewrite !run_cons_state, !call_decide_state.
      rewrite (decide_immune_run s0 r1 c1 l1) by lia.
      cbn [snd]. rewrite I.
      rewrite decide_immune_run by (cbn; lia).
      reflexivity. }
    assert (P2 : pending_deal s2 = Some "safe") by (rewrite E2; exact P).
    split; [exact P |]. split; [exact I |].
    split; [rewrite E2; reflexivity |]. split; [exact P2 |].
    apply run_keeps_safe; assumption.
Qed.

(** C1, as amended.  A [decide] call that finds [pending_deal = "trap"]
    leaves it in place and, with [immunity_turns = 0], is the ordinary trust
    update and phase logic.  The forcing is the round driver's: when the deal
    is "trap" at the moment [play_round] calls [decide], the round's
    inspector action is Inspect, the round is flagged as a trap, and the
    pending deal is [None] when the round ends. *)
Theorem trap_sprung_by_round_driver (s : InspectorAI G) (rnd sc : Z)
    (last : option Z) (g : WebGameSession G) (pa n : Z) :
  (pending_deal s = Some "trap" ->
   pending_deal (snd (decide rnd sc last s)) = Some "trap"
   /\ (immunity_turns s <= 0 ->
       decide rnd sc last s = decide_phase rnd last s))
  /\ (round_num g < ROUNDS_PER_GAME ->
      pending_deal
        (snd (special_actions pa (round_num g + 1) (score g) (inspector g)))
      = Some "trap" ->
      exists r,
        fst (play_round pa n g) = Some r
        /\ r_inspector_action r = ACT_INSPECT
        /\ r_was_trap r = true
        /\ pending_deal (inspector (snd (play_round pa n g))) = None).
Proof.
  split.
  - intro T.
    assert (D : deal_is "accepted" (pending_deal s) = false)
      by (rewrite T; reflexivity).
    split.
    + rewrite (decide_pending s rnd sc last D). exact T.
    + intro I. apply decide_not_immune; assumption.
  - intros R T. unfold play_round.
    apply Z.leb_gt in R. rewrite R.
    pose proof (round_inspector_effect pa (round_num g + 1) (score g)
                  (last_player_action g) (inspector g)) as E.
    cbv zeta in E.
    destruct E as [E _]; [right; left; exact T |].
    specialize (E T).
    destruct (round_inspector pa (round_num g + 1) (score g)
                (last_player_action g) (inspector g))
      as [[[ia wt] ba] i].
    cbn [fst snd] in E. destruct E as [Ea [Ew Ep]].
    eexists. split; [reflexivity |].
    cbn [r_inspector_action r_was_trap snd inspector].
    repeat split; assumption.
Qed.

End Deals.

(** ** Determinism: the dialogue generator does not steer the inspector *)

Lemma simAt_ret {G A : Type} (R : A -> A -> Prop) (a a' : A)
    (s : InspectorAI G) :
  R a a' -> simAt R (ret a) (ret a') s.
Proof.
  intro r. split; [reflexivity | exact r].
Qed.

Lemma simAt_bind {G A B : Type} (RA : A -> A -> Prop) (RB : B -> B -> Prop)
    (m m' : M G A) (k k' : A -> M G B) (s : InspectorAI G) :
  simAt RA m m' s ->
  (forall a a' t, RA a a' -> simAt RB (k a) (k' a') t) ->
  simAt RB (bind m k) (bind m' k') s.
Proof.
  intros [E r] K. unfold simAt. rewrite !bind_run. rewrite <- E.
  apply K, r.
Qed.

Lemma simAt_bind_eq {G A B : Type} (RB : B -> B -> Prop)
    (m m' : M G A) (k k' : A -> M G B) (s : InspectorAI G) :
  simAt eq m m' s ->
  (forall a t, simAt RB (k a) (k' a) t) ->
  simAt RB (bind m k) (bind m' k') s.
Proof.
  intros S K. apply (simAt_bind eq RB m m' k k' s S).
  intros a a' t <-. apply K.
Qed.

Lemma simAt_bind_get {G B : Type} (RB : B -> B -> Prop)
    (k k' : InspectorAI G -> M G B) (s : InspectorAI G) :
  simAt RB (k s) (k' (erase s)) s ->
  simAt RB (bind get k) (bind get k') s.
Proof.
  unfold simAt. rewrite !bind_run. cbn [get fst snd]. tauto.
Qed.

Lemma simAt_modify {G : Type} (f f' : InspectorAI G -> InspectorAI G)
    (s : InspectorAI G) :
  erase (f s) = f' (erase s) -> simAt eq (modify f) (modify f') s.
Proof.
  intro E. split; [exact E | reflexivity].
Qed.

Section Determinism.
Context {G : Type} `{RandomSource G}.

Lemma simAt_rng_random (s : InspectorAI G) : simAt eq rng_random rng_random s.
Proof.
  unfold simAt, rng_random, erase. fields.
  destruct (random (rng s)). split; reflexivity.
Qed.

Lemma simAt_set_mood (m : string) (s : InspectorAI G) :
  simAt eq (set_mood m) (set_mood m) s.
Proof.
  split; reflexivity.
Qed.

Ltac sim_step :=
  match goal with
  | |- simAt _ (ret _) (ret _) _ => apply simAt_ret; reflexivity
  | |- simAt _ rng_random rng_random _ => apply simAt_rng_random
  | |- simAt _ (set_mood _) (set_mood _) _ => apply simAt_set_mood
  | |- simAt _ (modify _) (modify _) _ => apply simAt_modify; reflexivity
  | |- simAt _ (bind get _) (bind get _) _ =>
      apply simAt_bind_get; cbv beta; unfold erase; fields
  | |- simAt _ (bind _ _) (bind _ _) _ =>
      apply simAt_bind_eq; [| intros ? ?]
  | |- simAt _ (if ?b then _ else _) (if ?b then _ else _) _ => destruct b
  end.

Lemma sim_update_trust (last : option Z) (s : InspectorAI G) :
  simAt eq (_update_trust last) (_update_trust last) s.
Proof.
  unfold _update_trust. destruct last as [a |]; repeat sim_step.
Qed.

Lemma sim_set_mood_of (rnd : Z) (f : Q) (s : InspectorAI G) :
  simAt eq (_set_mood rnd f) (_set_mood rnd f) s.
Proof.
  unfold _set_mood. repeat sim_step.
Qed.

Lemma sim_early (rnd : Z) (s : InspectorAI G) :
  simAt eq (_early_game_decision rnd) (_early_game_decision rnd) s.
Proof.
  unfold _early_game_decision, rng_uniform. repeat sim_step.
Qed.

Lemma sim_mid_adaptive (f : Q) (s : InspectorAI G) :
  simAt eq (mid_game_adaptive f) (mid_game_adaptive f) s.
Proof.
  unfold mid_game_adaptive. repeat sim_step.
Qed.

Lemma sim_mid (rnd : Z) (f c : Q) (s : InspectorAI G) :
  simAt eq (_mid_game_decision rnd f c) (_mid_game_decision rnd f c) s.
Proof.
  unfold _mid_game_decision.
  repeat first [ apply sim_mid_adaptive | sim_step ].
Qed.

Lemma sim_late_final (rnd : Z) (s : InspectorAI G) :
  simAt eq (late_game_final rnd) (late_game_final rnd) s.
Proof.
  unfold late_game_final. repeat sim_step.
Qed.

Lemma sim_late_exploit (rnd : Z) (f : Q) (s : InspectorAI G) :
  simAt eq (late_game_exploit rnd f) (late_game_exploit rnd f) s.
Proof.
  unfold late_game_exploit.
  repeat first [ apply sim_late_final | sim_step ].
Qed.

Lemma sim_late_trust (rnd : Z) (f : Q) (s : InspectorAI G) :
  simAt eq (late_game_trust rnd f) (late_game_trust rnd f) s.
Proof.
  unfold late_game_trust.
  repeat first [ apply sim_late_exploit | sim_step ].
Qed.

Lemma sim_late (rnd : Z) (f c : Q) (s : InspectorAI G) :
  simAt eq (_late_game_decision rnd f c) (_late_game_decision rnd f c) s.
Proof.
  unfold _late_game_decision. apply simAt_bind_get. cbv beta zeta.
  change (_detect_pattern (erase s)) with (_detect_pattern s).
  destruct (_detect_pattern s) as [a |];
    repeat first [ apply sim_late_trust | sim_step ].
Qed.

Lemma sim_phase_dispatch (rnd : Z) (f c : Q) (s : InspectorAI G) :
  simAt eq (phase_dispatch rnd f c) (phase_dispatch rnd f c) s.
Proof.
  unfold phase_dispatch.
  repeat first
    [ apply sim_set_mood_of | apply sim_early | apply sim_mid | apply sim_late
    | sim_step ].
Qed.

Lemma sim_decide_phase (rnd : Z) (last : option Z) (s : InspectorAI G) :
  simAt eq (decide_phase rnd last) (decide_phase rnd last) s.
Proof.
  unfold decide_phase. apply simAt_bind_get. cbv beta zeta.
  change (get_smuggle_frequency (erase s)) with (get_smuggle_frequency s).
  change (get_cooperation_frequency (erase s))
    with (get_cooperation_frequency s).
  repeat first [ apply sim_update_trust | apply sim_phase_dispatch | sim_step ].
Qed.

Lemma sim_decide (rnd sc : Z) (last : option Z) (s : InspectorAI G) :
  simAt eq (decide rnd sc last) (decide rnd sc last) s.
Proof.
  unfold decide, record_honesty.
  repeat first [ apply sim_decide_phase | sim_step ].
Qed.

Lemma sim_get_bribe_response (a w : bool) (s : InspectorAI G) :
  simAt (fun _ _ => True) (get_bribe_response a w) (get_bribe_response a w) s.
Proof.
  split; [| exact I]. unfold erase.
  rewrite get_bribe_response_effect. reflexivity.
Qed.

Lemma sim_get_truce_response (t : bool) (s : InspectorAI G) :
  simAt (fun _ _ => True) (get_truce_response t) (get_truce_response t) s.
Proof.
  split; [| exact I]. unfold erase.
  rewrite get_truce_response_effect. reflexivity.
Qed.

Lemma sim_handle_bribe (rnd sc : Z) (s : InspectorAI G) :
  simAt (fun r r' => fst r = fst r')
    (handle_bribe rnd sc) (handle_bribe rnd sc) s.
Proof.
  unfold handle_bribe.
  apply simAt_bind_eq; [sim_step | intros ? t].
  apply simAt_bind_get. cbv beta zeta.
  change (acceptance_prob rnd (erase t)) with (acceptance_prob rnd t).
  unfold erase. fields.
  apply simAt_bind_eq; [sim_step | intros u t1].
  destruct (Qltb u (acceptance_prob rnd t)).
  - apply simAt_bind_eq; [sim_step | intros ? t2].
    apply simAt_bind_eq; [sim_step | intros v t3].
    apply simAt_bind_eq; [sim_step | intros ? t4].
    eapply simAt_bind; [apply sim_get_bribe_response | intros r r' t5 _].
    apply simAt_bind_eq.
    + destruct (negb (Qltb v (deceptiveness t * 0.5))); sim_step.
    + intros ? t6. apply simAt_ret. reflexivity.
  - eapply simAt_bind; [apply sim_get_bribe_response | intros r r' t5 _].
    apply simAt_ret. reflexivity.
Qed.

Lemma sim_handle_truce_signal (s : InspectorAI G) :
  simAt (fun _ _ => True) handle_truce_signal handle_truce_signal s.
Proof.
  unfold handle_truce_signal.
  apply simAt_bind_eq; [sim_step | intros ? t].
  apply simAt_bind_get. cbv beta zeta. unfold erase. fields.
  apply simAt_bind_eq.
  - destruct (Qltb 0.6 (trust_level t)); sim_step.
  - intros ? t1. apply sim_get_truce_response.
Qed.

Lemma sim_record_round (p i : Z) (w : bool) (s : InspectorAI G) :
  simAt eq (record_round p i w) (record_round p i w) s.
Proof.
  unfold record_round. repeat sim_step.
Qed.

Lemma sim_call (c : Call) (s : InspectorAI G) :
  simAt (fun o o' => observe o = observe o') (call c) (call c) s.
Proof.
  destruct c as [rnd sc last | rnd sc | | p i t | last]; unfold call.
  - apply simAt_bind_eq; [apply sim_decide | intros d t].
    apply simAt_ret. reflexivity.
  - eapply simAt_bind; [apply sim_handle_bribe | intros r r' t E].
    apply simAt_ret. cbn [observe]. rewrite E. reflexivity.
  - eapply simAt_bind; [apply sim_handle_truce_signal | intros r r' t _].
    apply simAt_ret. reflexivity.
  - apply simAt_bind_eq; [apply sim_record_round | intros ? t0].
    apply simAt_ret. reflexivity.
  - apply simAt_bind_eq; [apply sim_update_trust | intros ? t0].
    apply simAt_ret. reflexivity.
Qed.

Lemma sim_run (cs : list Call) (s : InspectorAI G) :
  simAt (fun os os' => map observe os = map observe os') (run cs) (run cs) s.
Proof.
  revert s. induction cs as [| c cs IH]; intro s; cbn [run].
  - apply simAt_ret. reflexivity.
  - eapply simAt_bind; [apply sim_call | intros o o' t E].
    eapply simAt_bind; [apply IH | intros os os' t' E'].
    apply simAt_ret. cbn [map]. rewrite E, E'. reflexivity.
Qed.

Lemma init_erase (seed : Z) (l : option LLMDialogueGenerator) :
  erase (__init__ seed l) = __init__ seed None.
Proof.
  unfold __init__, erase.
  destruct (random (Random seed)) as [u1 g1].
  destruct (random g1) as [u2 g2]. destruct (random g2) as [u3 g3].
  reflexivity.
Qed.

(** C4. Two instances built from the same seed, each with any dialogue
    generator or none, have the same greed, deceptiveness and adaptiveness,
    and any one sequence of [decide], [handle_bribe], [handle_truce_signal]
    and [record_round] calls (trust updates too) yields on both the same
    decisions (action, bait flag, announced intent) and the same bribe
    acceptances, call by call. *)
Theorem same_seed_same_decisions (seed : Z)
    (l1 l2 : option LLMDialogueGenerator) (cs : list Call) :
  greed (@__init__ G _ seed l1) = greed (@__init__ G _ seed l2)
  /\ deceptiveness (@__init__ G _ seed l1)
     = deceptiveness (@__init__ G _ seed l2)
  /\ adaptiveness (@__init__ G _ seed l1)
     = adaptiveness (@__init__ G _ seed l2)
  /\ map observe (fst (run cs (@__init__ G _ seed l1)))
     = map observe (fst (run cs (@__init__ G _ seed l2))).
Proof.
  pose proof (init_erase seed l1) as E1.
  pose proof (init_erase seed l2) as E2.
  split; [| split; [| split]].
  - change (greed (erase (__init__ seed l1)) = greed (erase (__init__ seed l2))).
    rewrite E1, E2. reflexivity.
  - change (deceptiveness (erase (__init__ seed l1))
            = deceptiveness (erase (__init__ seed l2))).
    rewrite E1, E2. reflexivity.
  - change (adaptiveness (erase (__init__ seed l1))
            = adaptiveness (erase (__init__ seed l2))).
    rewrite E1, E2. reflexivity.
  - destruct (sim_run cs (__init__ seed l1)) as [_ R1].
    destruct (sim_run cs (__init__ seed l2)) as [_ R2].
    rewrite E1 in R1. rewrite E2 in R2. congruence.
Qed.

End Determinism.

(** * Concrete runs *)

(** C1 as stated fails: with [immunity_turns = 0] and the deal "trap"
    pending, [decide] answers from the early-game logic (here DontInspect,
    no bait) and the deal is still "trap" afterwards. *)
Lemma decide_does_not_spring_trap :
  immunity_turns betrayed = 0
  /\ pending_deal betrayed = Some "trap"
  /\ fst (decide 1 0 None betrayed) = (ACT_DONT_INSPECT, false, None)
  /\ pending_deal (snd (decide 1 0 None betrayed)) = Some "trap"
  /\ ~ (fst (fst (fst (decide 1 0 None betrayed))) = ACT_INSPECT
        /\ snd (fst (fst (decide 1 0 None betrayed))) = true
        /\ pending_deal (snd (decide 1 0 None betrayed)) = None).
Proof.
  repeat split; try (vm_compute; reflexivity).
  intros [A _]. vm_compute in A. discriminate A.
Qed.

(** C6 as stated fails: on Smuggle, LayLow, Smuggle, Bribe the last four
    actions alternate and the most recent one is neither passive nor
    Smuggle, so the description gives none, yet the detector recommends
    DontInspect. *)
Lemma detect_pattern_after_bribe :
  history_smuggler alternation_ending_in_bribe
  = [ACT_SMUGGLE; ACT_LAY_LOW; ACT_SMUGGLE; ACT_BRIBE]
  /\ _detect_pattern alternation_ending_in_bribe = Some ACT_DONT_INSPECT
  /\ detect_pattern_described (history_smuggler alternation_ending_in_bribe)
     = None
  /\ _detect_pattern alternation_ending_in_bribe
     <> detect_pattern_described (history_smuggler alternation_ending_in_bribe).
Proof.
  repeat split; try (vm_compute; reflexivity).
  vm_compute. discriminate.
Qed.

(** C9 as stated fails: after a betrayed bribe the state, reached through
    the interface alone, holds the deal "trap"; the [decide] call that
    follows does not reset it, and it is still there after the round is
    recorded and the next round's [decide] has run. *)
Lemma trap_deal_survives_decide :
  pending_deal betrayed = Some "trap"
  /\ pending_deal (snd (decide 1 0 None betrayed)) = Some "trap"
  /\ pending_deal
       (snd (run [CallDecide 1 0 None;
                  CallRecordRound ACT_BRIBE ACT_DONT_INSPECT false;
                  CallDecide 2 (-2) (Some ACT_BRIBE)] betrayed))
     = Some "trap"
  /\ ~ (pending_deal (snd (decide 1 0 None betrayed)) = None).
Proof.
  repeat split; try (vm_compute; reflexivity).
  vm_compute. discriminate.
Qed.

(** After the two immune rounds the third [decide] can inspect. *)
Lemma third_decide_can_inspect :
  fst (run [CallHandleBribe 1 0; CallDecide 1 0 None; CallDecide 2 0 None;
            CallDecide 3 0 None] honoured_from)
  = [OutBribe true "Deal. You've bought yourself a pass.";
     OutDecision (ACT_DONT_INSPECT, false, Some "I'm looking the other way.");
     OutDecision (ACT_DONT_INSPECT, false, Some "I'm looking the other way.");
     OutDecision (ACT_INSPECT, false, None)].
Proof.
  vm_compute. reflexivity.
Qed.

(** The statement of C3 at a truce signal sent to a fresh instance. *)
Lemma trust_level_bounded_witness :
  (0 <= trust_level (__init__ 0 None : InspectorAI (list Q)) <= 1)%Q
  /\ (0 <= trust_level
             (snd (call CallHandleTruceSignal
                     (__init__ 0 None : InspectorAI (list Q)))) <= 1)%Q.
Proof.
  assert (B : (0 <= trust_level (__init__ 0 None : InspectorAI (list Q))
               <= 1)%Q)
    by (vm_compute; split; discriminate).
  split; [exact B |].
  exact (proj2 (proj2 (trust_level_bounded 0 None [] CallHandleTruceSignal
                         (__init__ 0 None))) B).
Defined.

(** The statement of C2 at an instance with two immune rounds left. *)
Lemma decide_while_immune_witness :
  0 < immunity_turns (snd (handle_bribe 1 0 honoured_from))
  /\ immunity_turns
       (snd (decide 1 0 None (snd (handle_bribe 1 0 honoured_from))))
     = immunity_turns (snd (handle_bribe 1 0 honoured_from)) - 1.
Proof.
  assert (I : 0 < immunity_turns (snd (handle_bribe 1 0 honoured_from)))
    by (vm_compute; reflexivity).
  split; [exact I |].
  exact (proj1 (proj2 (decide_while_immune
                         (snd (handle_bribe 1 0 honoured_from)) 1 0 None I))).
Defined.

(** The statement of C5 at the honoured bribe of seed 2. *)
Lemma honoured_bribe_two_rounds_witness :
  fst (fst (handle_bribe 1 0 honoured_from)) = true
  /\ immunity_turns (snd (handle_bribe 1 0 honoured_from)) = 2
  /\ pending_deal (snd (handle_bribe 1 0 honoured_from)) = Some "safe".
Proof.
  assert (R1 : random (rng honoured_from)
               = (0.1%Q, [0.9; 0.5; 0.2]%Q)) by reflexivity.
  assert (R2 : random [0.9; 0.5; 0.2]%Q = (0.9%Q, [0.5; 0.2]%Q))
    by reflexivity.
  assert (A : (0.1 < acceptance_prob 1 honoured_from)%Q)
    by (vm_compute; reflexivity).
  assert (W : (deceptiveness honoured_from * 0.5 <= 0.9)%Q)
    by (vm_compute; discriminate).
  pose proof (honoured_bribe_two_rounds honoured_from 1 0 _ _ _ _ R1 R2 A W)
    as T.
  destruct T as [T1 [T2 [T3 _]]].
  repeat split; assumption.
Defined.

(** The statement of C8 at a fresh instance (trust 0.5, no immunity). *)
Lemma update_trust_cases_witness :
  (trust_level (snd (_update_trust (Some ACT_SMUGGLE) (__init__ 0 None)))
   <= trust_level (__init__ 0 None : InspectorAI (list Q)))%Q
  /\ (trust_level (snd (_update_trust (Some ACT_LAY_LOW) (__init__ 0 None)))
      - trust_level (__init__ 0 None : InspectorAI (list Q))
      < trust_level (__init__ 0 None : InspectorAI (list Q))
        - trust_level (snd (_update_trust (Some ACT_SMUGGLE) (__init__ 0 None))))%Q
  /\ decide 1 0 (Some ACT_LAY_LOW) (__init__ 0 None : InspectorAI (list Q))
     = phase_dispatch 1 (get_smuggle_frequency (__init__ 0 None))
         (get_cooperation_frequency (__init__ 0 None))
         (snd (_update_trust (Some ACT_LAY_LOW) (__init__ 0 None))).
Proof.
  pose proof (update_trust_cases (__init__ 0 None : InspectorAI (list Q)))
    as T.
  destruct T as [_ [_ [_ [_ [_ [_ [_ [_ [_ [D [W S]]]]]]]]]]].
  split; [| split].
  - apply W. vm_compute. split; discriminate.
  - apply S. vm_compute. split; discriminate.
  - apply D; vm_compute; [discriminate | reflexivity].
Defined.

(** The statement of C9, as amended: the betrayed bribe of seed 1 played as
    a round, and the honoured bribe of seed 2 followed by further calls and
    rounds. *)
Lemma pending_deal_lifecycle_witness :
  pending_deal (inspector (snd (play_round ACT_BRIBE 1 (new_session 1))))
  = None
  /\ pending_deal
       (snd (run [CallDecide 2 0 (Some ACT_BRIBE); CallHandleTruceSignal;
                  CallRecordRound ACT_SMUGGLE ACT_DONT_INSPECT false]
               (snd (handle_bribe 1 0 honoured_from))))
     = Some "safe"
  /\ pending_deal
       (inspector
          (play_rounds [(ACT_SMUGGLE, 1); (ACT_LAY_LOW, 1); (ACT_SMUGGLE, 1)]
             after_honoured_bribe))
     = Some "safe"
  /\ immunity_turns
       (snd (run [CallDecide 2 0 (Some ACT_BRIBE);
                  CallDecide 3 0 (Some ACT_LAY_LOW)]
               (snd (handle_bribe 1 0 honoured_from))))
     = 0
  /\ pending_deal
       (snd (run [CallDecide 4 0 (Some ACT_SMUGGLE)]
               (snd (run [CallDecide 2 0 (Some ACT_BRIBE);
                          CallDecide 3 0 (Some ACT_LAY_LOW)]
                       (snd (handle_bribe 1 0 honoured_from))))))
     = Some "safe".
Proof.
  assert (R1 : random (rng honoured_from)
               = (0.1%Q, [0.9; 0.5; 0.2]%Q)) by reflexivity.
  assert (R2 : random [0.9; 0.5; 0.2]%Q = (0.9%Q, [0.5; 0.2]%Q))
    by reflexivity.
  assert (A : (0.1 < acceptance_prob 1 honoured_from)%Q)
    by (vm_compute; reflexivity).
  assert (W : (deceptiveness honoured_from * 0.5 <= 0.9)%Q)
    by (vm_compute; discriminate).
  pose proof (pending_deal_lifecycle 2 None [] []
                (new_session 1) ACT_BRIBE 1
                (snd (handle_bribe 1 0 honoured_from))
                [CallDecide 2 0 (Some ACT_BRIBE); CallHandleTruceSignal;
                 CallRecordRound ACT_SMUGGLE ACT_DONT_INSPECT false]
                after_honoured_bribe
                [(ACT_SMUGGLE, 1); (ACT_LAY_LOW, 1); (ACT_SMUGGLE, 1)]
                honoured_from 1 0 0.1%Q 0.9%Q
                [0.9; 0.5; 0.2]%Q [0.5; 0.2]%Q
                2 0 (Some ACT_BRIBE) 3 0 (Some ACT_LAY_LOW)
                [CallDecide 4 0 (Some ACT_SMUGGLE)]) as T.
  destruct T as [_ [_ [_ [D [Q [P F]]]]]].
  split; [| split; [| split]].
  - apply D; vm_compute; reflexivity.
  - apply Q; [vm_compute; reflexivity |].
    repeat first [apply Forall_nil | apply Forall_cons; [exact I |]].
  - apply P; [vm_compute; reflexivity |].
    repeat first [apply Forall_nil
                 | apply Forall_cons; [vm_compute; discriminate |]].
  - destruct (F R1 R2 A W) as [_ [_ [I0 [_ S]]]].
    + repeat first [apply Forall_nil | apply Forall_cons; [exact I |]].
    + split; [exact I0 | exact S].
Defined.

(** The statement of C10 at a history of two rounds, Smuggle then Bribe. *)
Lemma frequency_accessors_witness :
  history_smuggler two_rounds_recorded <> []
  /\ get_smuggle_frequency two_rounds_recorded
     = (inject_Z 1 / inject_Z 2)%Q
  /\ get_cooperation_frequency two_rounds_recorded
     = (inject_Z 1 / inject_Z 2)%Q.
Proof.
  assert (N : history_smuggler two_rounds_recorded <> [])
    by (vm_compute; discriminate).
  split; [exact N |].
  exact (proj2 (proj2 (proj2
           (frequency_accessors 0 None two_rounds_recorded))) N).
Defined.

(** The statement of C1, as amended, at the betrayed bribe of seed 1. *)
Lemma trap_sprung_by_round_driver_witness :
  pending_deal (snd (decide 1 0 None betrayed)) = Some "trap"
  /\ exists r,
      fst (play_round ACT_BRIBE 1 (new_session 1)) = Some r
      /\ r_inspector_action r = ACT_INSPECT
      /\ r_was_trap r = true
      /\ pending_deal
           (inspector (snd (play_round ACT_BRIBE 1 (new_session 1))))
         = None.
Proof.
  pose proof (trap_sprung_by_round_driver betrayed 1 0 None
                (new_session 1) ACT_BRIBE 1) as T.
  destruct T as [D P]. split.
  - apply D. vm_compute. reflexivity.
  - apply P; vm_compute; reflexivity.
Defined.

(** * Further properties *)

(** ** What a decision can be *)

Lemma yields_ret {G A : Type} (P : A -> Prop) (a : A) :
  P a -> yields P (@ret G A a).
Proof.
  intros p s. exact p.
Qed.

Lemma yields_bind {G A B : Type} (P : B -> Prop) (m : M G A)
    (k : A -> M G B) :
  (forall a, yields P (k a)) -> yields P (bind m k).
Proof.
  intros K s. rewrite bind_run. apply K.
Qed.

Section Decisions.
Context {G : Type} `{RandomSource G}.

(** The detector answers Inspect, DontInspect or nothing. *)
Lemma detect_pattern_range (s : InspectorAI G) (a : Z) :
  _detect_pattern s = Some a -> a = ACT_INSPECT \/ a = ACT_DONT_INSPECT.
Proof.
  unfold _detect_pattern.
  repeat match goal with
         | |- context [if ?b then _ else _] => destruct b
         | |- context [match ?l with [] => _ | _ :: _ => _ end] => destruct l
         end;
    intro E; inversion E; auto.
Qed.

Ltac yields_step :=
  match goal with
  | |- yields _ (ret _) => apply yields_ret; cbn; auto
  | |- yields _ (bind _ _) => apply yields_bind; intro
  | |- yields _ (if ?b then _ else _) => destruct b
  end.

Lemma yields_early (rnd : Z) : yields decision_ok (_early_game_decision rnd).
Proof.
  unfold _early_game_decision. repeat yields_step; intuition discriminate.
Qed.

Lemma yields_mid (rnd : Z) (f c : Q) :
  yields decision_ok (_mid_game_decision rnd f c).
Proof.
  unfold _mid_game_decision, mid_game_adaptive.
  repeat yields_step; intuition discriminate.
Qed.

Lemma yields_late_trust (rnd : Z) (f : Q) :
  yields decision_ok (late_game_trust rnd f).
Proof.
  unfold late_game_trust, late_game_exploit, late_game_final.
  repeat yields_step; intuition discriminate.
Qed.

Lemma yields_late (rnd : Z) (f c : Q) :
  yields decision_ok (_late_game_decision rnd f c).
Proof.
  unfold _late_game_decision. apply yields_bind. intro s. cbv zeta.
  destruct (_detect_pattern s) as [a |] eqn:E; [| apply yields_late_trust].
  destruct (py_truthy (Some a)); [| apply yields_late_trust].
  apply yields_bind. intro u.
  destruct (Qltb u 0.7); [| apply yields_late_trust].
  apply yields_ret. cbn. split; [| discriminate].
  apply (detect_pattern_range s a E).
Qed.

Lemma yields_phase_dispatch (rnd : Z) (f c : Q) :
  yields decision_ok (phase_dispatch rnd f c).
Proof.
  unfold phase_dispatch. apply yields_bind. intros _.
  destruct (rnd <=? EARLY_GAME_END); [apply yields_early |].
  destruct (rnd <=? MID_GAME_END); [apply yields_mid | apply yields_late].
Qed.

(** X1. Whatever the state and the arguments, [decide] returns Inspect or
    DontInspect, never AcceptBribe or SetTrap, and when it flags its
    decision as bait the action is Inspect. *)
Theorem decide_inspects_or_not (s : InspectorAI G) (rnd sc : Z)
    (last : option Z) :
  decision_ok (fst (decide rnd sc last s))
  /\ fst (fst (fst (decide rnd sc last s))) <> ACT_ACCEPT_BRIBE
  /\ fst (fst (fst (decide rnd sc last s))) <> ACT_SET_TRAP.
Proof.
  assert (D : decision_ok (fst (decide rnd sc last s))).
  { revert s. change (yields decision_ok (decide rnd sc last)).
    unfold decide, decide_phase.
    repeat first [ apply yields_phase_dispatch | yields_step ];
      intuition discriminate. }
  split; [exact D |].
  destruct (decide rnd sc last s) as [[[a b] t] s']. cbn in *.
  destruct D as [[-> | ->] _]; split; discriminate.
Qed.

(** X2. In rounds 1 to 3, once past the immunity and legacy-deal guards,
    [decide] neither baits nor announces anything: it returns plain Inspect
    or plain DontInspect. *)
Theorem no_bait_before_round_four (s : InspectorAI G) (rnd sc : Z)
    (last : option Z) :
  rnd < 4 ->
  immunity_turns s <= 0 ->
  deal_is "accepted" (pending_deal s) = false ->
  fst (decide rnd sc last s) = (ACT_INSPECT, false, None)
  \/ fst (decide rnd sc last s) = (ACT_DONT_INSPECT, false, None).
Proof.
  intros R I D.
  rewrite (decide_not_immune s rnd sc last I D), decide_phase_run.
  generalize (snd (_update_trust last s)).
  change (yields (fun d => d = (ACT_INSPECT, false, None)
                           \/ d = (ACT_DONT_INSPECT, false, None))
            (phase_dispatch rnd (get_smuggle_frequency s)
               (get_cooperation_frequency s))).
  unfold phase_dispatch. apply yields_bind. intros _.
  assert (E : (rnd <=? EARLY_GAME_END) = true)
    by (apply Z.leb_le; unfold EARLY_GAME_END; lia).
  assert (F : (4 <=? rnd) = false) by (apply Z.leb_gt; lia).
  rewrite E. unfold _early_game_decision. rewrite F.
  intro t. rewrite bind_run, bind_run. cbn [ret fst snd]. rewrite bind_run.
  match goal with
  | |- context [if ?b then _ else _] => destruct b
  end; auto.
Qed.

End Decisions.

(** ** What each call writes *)

Section Writes.
Context {G : Type} `{RandomSource G}.

Lemma update_trust_state (s : InspectorAI G) (last : option Z) :
  exists t c,
    snd (_update_trust last s)
    = set_consecutive_passive_rounds c (set_trust_level t s).
Proof.
  assert (N : s = set_consecutive_passive_rounds (consecutive_passive_rounds s)
                    (set_trust_level (trust_level s) s))
    by (destruct s; reflexivity).
  unfold _update_trust, py_in, existsb. destruct last as [a |].
  - destruct (a =? ACT_SMUGGLE); [eexists; eexists; reflexivity |].
    destruct ((a =? ACT_LAY_LOW) || ((a =? ACT_SIGNAL_TRUCE) || false));
      [eexists; eexists; reflexivity |].
    destruct (a =? ACT_BRIBE); [eexists; eexists; reflexivity |].
    exists (trust_level s), (consecutive_passive_rounds s). exact N.
  - exists (trust_level s), (consecutive_passive_rounds s). exact N.
Qed.

Lemma decide_statics (s : InspectorAI G) (rnd sc : Z) (last : option Z) :
  statics s (snd (decide rnd sc last s))
  /\ (immunity_turns (snd (decide rnd sc last s)) = immunity_turns s
      \/ (0 < immunity_turns s
          /\ immunity_turns (snd (decide rnd sc last s))
             = immunity_turns s - 1)).
Proof.
  destruct (Z.ltb_spec 0 (immunity_turns s)) as [I | I].
  - rewrite (decide_immune_run s rnd sc last I). unfold statics. fields.
    split; [repeat split | right; split; [exact I | reflexivity]].
  - destruct (deal_is "accepted" (pending_deal s)) eqn:D.
    + pose proof I as I'. apply Z.ltb_ge in I'.
      unfold decide, record_honesty. run_monad. rewrite I', D. fields.
      destruct (random (rng s)) as [u g]. fields.
      destruct (Qltb (deceptiveness s) u); unfold statics; fields;
        (split; [repeat split | left; reflexivity]).
    + rewrite (decide_not_immune s rnd sc last I D), decide_phase_run.
      pose proof (keeps_phase_dispatch rnd (get_smuggle_frequency s)
                    (get_cooperation_frequency s)
                    (snd (_update_trust last s))) as F.
      destruct (update_trust_state s last) as [t [c E]].
      rewrite E in *. unfold frame in F. fields_in F.
      repeat match goal with
             | F : _ /\ _ |- _ => destruct F
             end.
      unfold statics. split; [repeat split; assumption | left; assumption].
Qed.

Lemma handle_bribe_state (s : InspectorAI G) (rnd sc : Z)
    (u1 u2 : Q) (g1 g2 : G) :
  random (rng s) = (u1, g1) ->
  random g1 = (u2, g2) ->
  erase (snd (handle_bribe rnd sc s))
  = erase
      (if Qltb u1 (acceptance_prob rnd s) then
         if Qltb u2 (deceptiveness s * 0.5)%Q then
           set_pending_deal (Some "trap")
             (set_rng g2
                (set_history_bribes_accepted (history_bribes_accepted s + 1)
                   (set_history_bribes_offered (history_bribes_offered s + 1)
                      s)))
         else
           set_pending_deal (Some "safe")
             (set_immunity_turns 2
                (set_rng g2
                   (set_history_bribes_accepted
                      (history_bribes_accepted s + 1)
                      (set_history_bribes_offered
                         (history_bribes_offered s + 1) s))))
       else
         set_rng g1
           (set_history_bribes_offered (history_bribes_offered s + 1) s)).
Proof.
  intros R1 R2. unfold handle_bribe. run_monad. rewrite R1. fields.
  change (acceptance_prob rnd
            (set_history_bribes_offered (history_bribes_offered s + 1) s))
    with (acceptance_prob rnd s).
  destruct (Qltb u1 (acceptance_prob rnd s)); fields.
  - rewrite R2. fields.
    destruct (Qltb u2 (deceptiveness s * 0.5)); cbn [negb];
      match goal with
      | |- context [get_bribe_response ?a ?w ?t] =>
          pose proof (get_bribe_response_effect a w t) as E;
          destruct (get_bribe_response a w t) as [txt t']
      end;
      cbn [snd fst] in *; unfold erase;
      [ fields; exact E
      | apply (f_equal (fun x => set_pending_deal (Some "safe")
                                   (set_immunity_turns 2 x))) in E;
        exact E ].
  - match goal with
    | |- context [get_bribe_response ?a ?w ?t] =>
        pose proof (get_bribe_response_effect a w t) as E;
        destruct (get_bribe_response a w t) as [txt t']
    end.
    cbn [snd fst] in *. unfold erase. exact E.
Qed.

Lemma handle_truce_state (s : InspectorAI G) :
  erase (snd (handle_truce_signal s))
  = erase
      (if Qltb 0.6 (trust_level s)
       then set_trust_level (py_min 1 (trust_level s + 0.1))
              (set_history_truces_signaled (history_truces_signaled s + 1) s)
       else set_history_truces_signaled (history_truces_signaled s + 1) s).
Proof.
  unfold handle_truce_signal. run_monad.
  destruct (Qltb 0.6 (trust_level s)); fields;
    match goal with
    | |- context [get_truce_response ?t ?x] =>
        pose proof (get_truce_response_effect t x) as E;
        destruct (get_truce_response t x) as [txt x']
    end;
    cbn [snd] in *; unfold erase; exact E.
Qed.

(** One call: the traits stay, the histories grow by what the call records,
    the bribe counters count, and the immunity counter stays, drops by one
    or is set to 2. *)
Lemma call_writes (c : Call) (s : InspectorAI G) :
  greed (snd (call c s)) = greed s
  /\ deceptiveness (snd (call c s)) = deceptiveness s
  /\ adaptiveness (snd (call c s)) = adaptiveness s
  /\ history_smuggler (snd (call c s))
     = (history_smuggler s ++ map fst (recorded [c]))%list
  /\ history_inspector (snd (call c s))
     = (history_inspector s ++ map snd (recorded [c]))%list
  /\ history_bribes_offered (snd (call c s))
     = history_bribes_offered s + bribes_offered_in [c]
  /\ (history_bribes_accepted (snd (call c s)) = history_bribes_accepted s
      \/ (history_bribes_accepted (snd (call c s))
          = history_bribes_accepted s + 1
          /\ bribes_offered_in [c] = 1))
  /\ (immunity_turns (snd (call c s)) = immunity_turns s
      \/ (0 < immunity_turns s
          /\ immunity_turns (snd (call c s)) = immunity_turns s - 1)
      \/ immunity_turns (snd (call c s)) = 2).
Proof.
  destruct c as [rnd sc last | rnd sc | | p i t | last];
    unfold call; rewrite bind_run; cbn [ret snd recorded bribes_offered_in map].
  - destruct (decide_statics s rnd sc last) as [S I]. unfold statics in S.
    repeat match goal with
           | S : _ /\ _ |- _ => destruct S
           end.
    rewrite !app_nil_r.
    repeat split; try assumption; try lia; left; assumption.
  - destruct (random (rng s)) as [u1 g1] eqn:R1.
    destruct (random g1) as [u2 g2] eqn:R2.
    pose proof (handle_bribe_state s rnd sc u1 u2 g1 g2 R1 R2) as E.
    unfold erase in E. rewrite !app_nil_r.
    destruct (Qltb u1 (acceptance_prob rnd s));
      [destruct (Qltb u2 (deceptiveness s * 0.5)) |].
    + repeat split;
        try (apply (f_equal greed) in E; exact E);
        try (apply (f_equal deceptiveness) in E; exact E);
        try (apply (f_equal adaptiveness) in E; exact E);
        try (apply (f_equal history_smuggler) in E; exact E);
        try (apply (f_equal history_inspector) in E; exact E);
        try (apply (f_equal history_bribes_offered) in E; exact E).
      * right. split; [| reflexivity].
        apply (f_equal history_bribes_accepted) in E. exact E.
      * left. apply (f_equal immunity_turns) in E. exact E.
    + repeat split;
        try (apply (f_equal greed) in E; exact E);
        try (apply (f_equal deceptiveness) in E; exact E);
        try (apply (f_equal adaptiveness) in E; exact E);
        try (apply (f_equal history_smuggler) in E; exact E);
        try (apply (f_equal history_inspector) in E; exact E);
        try (apply (f_equal history_bribes_offered) in E; exact E).
      * right. split; [| reflexivity].
        apply (f_equal history_bribes_accepted) in E. exact E.
      * right. right. apply (f_equal immunity_turns) in E. exact E.
    + repeat split;
        try (apply (f_equal greed) in E; exact E);
        try (apply (f_equal deceptiveness) in E; exact E);
        try (apply (f_equal adaptiveness) in E; exact E);
        try (apply (f_equal history_smuggler) in E; exact E);
        try (apply (f_equal history_inspector) in E; exact E);
        try (apply (f_equal history_bribes_offered) in E; exact E).
      * left. apply (f_equal history_bribes_accepted) in E. exact E.
      * left. apply (f_equal immunity_turns) in E. exact E.
  - pose proof (handle_truce_state s) as E. unfold erase in E.
    rewrite !app_nil_r, Z.add_0_r.
    destruct (Qltb 0.6 (trust_level s));
      (repeat split;
       [ apply (f_equal greed) in E; exact E
       | apply (f_equal deceptiveness) in E; exact E
       | apply (f_equal adaptiveness) in E; exact E
       | apply (f_equal history_smuggler) in E; exact E
       | apply (f_equal history_inspector) in E; exact E
       | apply (f_equal history_bribes_offered) in E; exact E
       | left; apply (f_equal history_bribes_accepted) in E; exact E
       | left; apply (f_equal immunity_turns) in E; exact E ]).
  - unfold record_round. run_monad. rewrite Z.add_0_r.
    destruct t; fields; repeat split; left; reflexivity.
  - destruct (update_trust_state s last) as [t [k E]]. rewrite E. fields.
    rewrite !app_nil_r, Z.add_0_r. repeat split; left; reflexivity.
Qed.

End Writes.

(** ** Invariants of a game driven through the interface *)

Lemma recorded_cons (c : Call) (cs : list Call) :
  recorded (c :: cs) = (recorded [c] ++ recorded cs)%list.
Proof.
  destruct c; reflexivity.
Qed.

Lemma bribes_offered_in_cons (c : Call) (cs : list Call) :
  bribes_offered_in (c :: cs) = bribes_offered_in [c] + bribes_offered_in cs.
Proof.
  destruct c; cbn [bribes_offered_in]; lia.
Qed.

Lemma bribes_offered_in_nonneg (cs : list Call) : 0 <= bribes_offered_in cs.
Proof.
  induction cs as [| c cs IH]; [reflexivity |].
  destruct c; cbn [bribes_offered_in]; lia.
Qed.

Section Invariants.
Context {G : Type} `{RandomSource G}.

Lemma run_writes (cs : list Call) (s : InspectorAI G) :
  greed (snd (run cs s)) = greed s
  /\ deceptiveness (snd (run cs s)) = deceptiveness s
  /\ adaptiveness (snd (run cs s)) = adaptiveness s
  /\ history_smuggler (snd (run cs s))
     = (history_smuggler s ++ map fst (recorded cs))%list
  /\ history_inspector (snd (run cs s))
     = (history_inspector s ++ map snd (recorded cs))%list
  /\ history_bribes_offered (snd (run cs s))
     = history_bribes_offered s + bribes_offered_in cs
  /\ (0 <= history_bribes_accepted s <= history_bribes_offered s ->
      0 <= history_bribes_accepted (snd (run cs s))
        <= history_bribes_offered (snd (run cs s)))
  /\ (0 <= immunity_turns s <= 2 ->
      0 <= immunity_turns (snd (run cs s)) <= 2).
Proof.
  revert s. induction cs as [| c cs IH]; intro s.
  - cbn [run ret snd recorded bribes_offered_in map].
    rewrite !app_nil_r, Z.add_0_r. repeat split; tauto.
  - cbn [run]. rewrite bind_run, bind_run. cbn [ret snd].
    destruct (call_writes c s) as [Cg [Cd [Ca [Chs [Chi [Co [Cacc Ci]]]]]]].
    destruct (IH (snd (call c s))) as [Rg [Rd [Ra [Rhs [Rhi [Ro [Racc Ri]]]]]]].
    rewrite recorded_cons, bribes_offered_in_cons, !map_app, !app_assoc.
    pose proof (bribes_offered_in_nonneg [c]) as N.
    repeat split; try congruence; lia.
Qed.

Lemma init_fields (seed : Z) (l : option LLMDialogueGenerator) :
  history_smuggler (__init__ seed l) = []
  /\ history_inspector (__init__ seed l) = []
  /\ history_bribes_offered (__init__ seed l) = 0
  /\ history_bribes_accepted (__init__ seed l) = 0
  /\ immunity_turns (__init__ seed l) = 0.
Proof.
  unfold __init__.
  destruct (random (Random seed)) as [u1 g1].
  destruct (random g1) as [u2 g2]. destruct (random g2) as [u3 g3].
  repeat split.
Qed.

(** X3. If the three draws made at construction lie in [0, 1), then greed
    lies between 0.3 and 0.7, deceptiveness between 0.2 and 0.6 and
    adaptiveness between 0.4 and 0.8, the ends included, and they keep the
    values drawn through every sequence of calls: no method writes them. *)
Theorem traits_stay_in_range (seed : Z) (l : option LLMDialogueGenerator)
    (cs : list Call) (u1 u2 u3 : Q) (g1 g2 g3 : G) :
  random (Random seed) = (u1, g1) ->
  random g1 = (u2, g2) ->
  random g2 = (u3, g3) ->
  (0 <= u1 < 1)%Q -> (0 <= u2 < 1)%Q -> (0 <= u3 < 1)%Q ->
  greed (snd (run cs (__init__ seed l))) = greed (__init__ seed l)
  /\ deceptiveness (snd (run cs (__init__ seed l)))
     = deceptiveness (__init__ seed l)
  /\ adaptiveness (snd (run cs (__init__ seed l)))
     = adaptiveness (__init__ seed l)
  /\ (0.3 <= greed (snd (run cs (__init__ seed l))) <= 0.7)%Q
  /\ (0.2 <= deceptiveness (snd (run cs (__init__ seed l))) <= 0.6)%Q
  /\ (0.4 <= adaptiveness (snd (run cs (__init__ seed l))) <= 0.8)%Q.
Proof.
  intros R1 R2 R3 U1 U2 U3.
  destruct (run_writes cs (__init__ seed l)) as [Eg [Ed [Ea _]]].
  rewrite Eg, Ed, Ea. unfold __init__. rewrite R1, R2, R3. fields.
  repeat split; try reflexivity; lra.
Qed.

(** X4. In every state reached from a fresh instance the immunity counter
    is 0, 1 or 2: it is never negative and never above the grant. *)
Theorem immunity_between_zero_and_two (seed : Z)
    (l : option LLMDialogueGenerator) (cs : list Call) :
  0 <= immunity_turns (snd (run cs (@__init__ G _ seed l))) <= 2.
Proof.
  destruct (run_writes cs (__init__ seed l)) as [_ [_ [_ [_ [_ [_ [_ I]]]]]]].
  apply I. destruct (init_fields seed l) as [_ [_ [_ [_ E]]]].
  rewrite E. lia.
Qed.

(** X5. In every state reached from a fresh instance the counter of bribes
    offered is the number of [handle_bribe] calls made, and the counter of
    bribes accepted lies between 0 and it. *)
Theorem bribes_accepted_at_most_offered (seed : Z)
    (l : option LLMDialogueGenerator) (cs : list Call) :
  history_bribes_offered (snd (run cs (@__init__ G _ seed l)))
  = bribes_offered_in cs
  /\ 0 <= history_bribes_accepted (snd (run cs (@__init__ G _ seed l)))
       <= history_bribes_offered (snd (run cs (@__init__ G _ seed l))).
Proof.
  destruct (run_writes cs (__init__ seed l))
    as [_ [_ [_ [_ [_ [O [A _]]]]]]].
  destruct (init_fields seed l) as [_ [_ [Eo [Ea _]]]].
  split.
  - rewrite O, Eo. lia.
  - apply A. rewrite Eo, Ea. lia.
Qed.

(** X6. The two histories are append-only and move together: in every state
    reached from a fresh instance they hold exactly the smuggler actions
    and the inspector actions passed to [record_round], in call order, so
    they have the same length; no other method touches them. *)
Theorem histories_are_the_record (seed : Z) (l : option LLMDialogueGenerator)
    (cs : list Call) :
  history_smuggler (snd (run cs (@__init__ G _ seed l)))
  = map fst (recorded cs)
  /\ history_inspector (snd (run cs (@__init__ G _ seed l)))
     = map snd (recorded cs)
  /\ List.length (history_smuggler (snd (run cs (@__init__ G _ seed l))))
     = List.length (history_inspector (snd (run cs (@__init__ G _ seed l)))).
Proof.
  destruct (run_writes cs (__init__ seed l)) as [_ [_ [_ [Hs [Hi _]]]]].
  destruct (init_fields seed l) as [Es [Ei _]].
  rewrite Hs, Hi, Es, Ei. cbn [app].
  repeat split. rewrite !length_map. reflexivity.
Qed.

(** X7. With construction draws in [0, 1), a bribe is never sure to be
    accepted and never sure to be refused: in every reachable state the
    acceptance probability lies in [0.3, 0.9) up to round 14 and in
    [0.15, 0.75) after it. *)
Theorem acceptance_prob_bounds (seed : Z) (l : option LLMDialogueGenerator)
    (cs : list Call) (rnd : Z) (u1 : Q) (g1 : G) :
  random (Random seed) = (u1, g1) ->
  (0 <= u1 < 1)%Q ->
  (rnd <= MID_GAME_END ->
   (0.3 <= acceptance_prob rnd (snd (run cs (__init__ seed l))) < 0.9)%Q)
  /\ (MID_GAME_END < rnd ->
      (0.15 <= acceptance_prob rnd (snd (run cs (__init__ seed l))) < 0.75)%Q).
Proof.
  intros R1 U1.
  assert (T : (0 <= trust_level (snd (run cs (__init__ seed l))) <= 1)%Q).
  { apply run_trust_bounds. destruct (init_trust seed l) as [E _].
    rewrite E. split; discriminate. }
  assert (Gr : (0.3 <= greed (snd (run cs (__init__ seed l))) < 0.7)%Q).
  { destruct (run_writes cs (__init__ seed l)) as [Eg _]. rewrite Eg.
    unfold __init__. rewrite R1.
    destruct (random g1) as [u2 g2]. destruct (random g2) as [u3 g3].
    fields. lra. }
  unfold acceptance_prob. split; intro L.
  - apply Z.ltb_ge in L. rewrite L. lra.
  - apply Z.ltb_lt in L. rewrite L. lra.
Qed.

End Invariants.

(** ** One round of the driver *)

Section Rounds.
Context {G : Type} `{RandomSource G}.

Lemma rng_choice_state (l : list string) (s : InspectorAI G) :
  exists g, snd (rng_choice l s) = set_rng g s.
Proof.
  unfold rng_choice. destruct (randbelow (List.length l) (rng s)) as [i g].
  exists g. reflexivity.
Qed.

Lemma llm_generate_state (s : InspectorAI G) :
  erase (snd (llm_generate s)) = erase s.
Proof.
  unfold llm_generate. destruct (llm s) as [l |]; [| reflexivity].
  destruct (generate l). reflexivity.
Qed.

Lemma outcome_fallback_state (p i : Z) (t : bool) (s : InspectorAI G) :
  exists g, snd (outcome_fallback p i t s) = set_rng g s.
Proof.
  assert (N : s = set_rng (rng s) s) by (destruct s; reflexivity).
  unfold outcome_fallback.
  repeat match goal with
         | |- context [if ?b then _ else _] => destruct b
         end;
    try (rewrite bind_run; cbn [ret snd]; apply rng_choice_state).
  exists (rng s). exact N.
Qed.

(** The outcome comment draws from the generator and may call the dialogue
    generator; it writes nothing else. *)
Lemma outcome_comment_state (p i : Z) (t : bool) (s : InspectorAI G) :
  exists g, erase (snd (get_outcome_comment p i t s)) = erase (set_rng g s).
Proof.
  assert (N : s = set_rng (rng s) s) by (destruct s; reflexivity).
  assert (F : forall x : InspectorAI G, erase x = erase s ->
              exists g, erase (snd (outcome_fallback p i t x))
                        = erase (set_rng g s)).
  { intros x E. destruct (outcome_fallback_state p i t x) as [g Eg].
    exists g. rewrite Eg. unfold erase in *.
    apply (f_equal (set_rng g)) in E. exact E. }
  unfold get_outcome_comment. rewrite bind_run. cbn [get fst snd].
  destruct (llm s) as [l |]; [| apply F; reflexivity].
  rewrite bind_run.
  assert (E1 : erase (snd ((if t then llm_generate else ret None) s))
               = erase s)
    by (destruct t; [apply llm_generate_state | reflexivity]).
  destruct (py_nonempty (fst ((if t then llm_generate else ret None) s))).
  - exists (rng s). cbn [ret snd]. rewrite E1, <- N. reflexivity.
  - rewrite bind_run.
    assert (E2 : erase (snd (llm_generate
                               (snd ((if t then llm_generate else ret None)
                                       s))))
                 = erase s)
      by (rewrite llm_generate_state; exact E1).
    destruct (py_nonempty
                (fst (llm_generate
                        (snd ((if t then llm_generate else ret None) s))))).
    + exists (rng s). cbn [ret snd]. rewrite E2, <- N. reflexivity.
    + apply F. exact E2.
Qed.

(** The whole of one round, seen from the inspector: what it returns, and
    the state it leaves in terms of the state [decide] left. *)
Lemma round_inspector_result (pa rnd sc : Z) (last : option Z)
    (s : InspectorAI G) :
  let r1 := special_actions pa rnd sc s in
  let r2 := decide rnd sc last (snd r1) in
  let trap := deal_is "trap" (pending_deal (snd r2)) in
  let ia := if trap then ACT_INSPECT
            else if fst r1 then ACT_DONT_INSPECT else fst (fst (fst r2)) in
  let wt := if trap then true
            else snd (fst (fst r2)) && (pa =? ACT_SMUGGLE) in
  fst (round_inspector pa rnd sc last s) = (ia, wt, fst r1)
  /\ exists g,
      erase (snd (round_inspector pa rnd sc last s))
      = erase
          (set_history_traps_sprung
             (if wt then history_traps_sprung (snd r2) + 1
              else history_traps_sprung (snd r2))
             (set_history_inspector (history_inspector (snd r2) ++ [ia])
                (set_history_smuggler (history_smuggler (snd r2) ++ [pa])
                   (set_rng g
                      (if trap then set_pending_deal None (snd r2)
                       else snd r2))))).
Proof.
  intros r1 r2 trap ia wt. unfold round_inspector.
  rewrite bind_run. fold r1. rewrite bind_run. fold r2.
  destruct (fst r2) as [[a bait] ann] eqn:D.
  rewrite bind_run, override_run. fold trap.
  assert (Eia : ia = if trap then ACT_INSPECT
                     else if fst r1 then ACT_DONT_INSPECT else a)
    by (unfold ia; reflexivity).
  assert (Ewt : wt = if trap then true else bait && (pa =? ACT_SMUGGLE))
    by (unfold wt; reflexivity).
  clearbody ia wt.
  assert (W : (if bait && (pa =? ACT_SMUGGLE) then true
               else snd (if trap
                         then (ACT_INSPECT, true)
                         else (if fst r1 then ACT_DONT_INSPECT else a, false)))
              = wt).
  { rewrite Ewt. destruct trap, (bait && (pa =? ACT_SMUGGLE)); reflexivity. }
  assert (A : fst (if trap
                   then (ACT_INSPECT, true)
                   else (if fst r1 then ACT_DONT_INSPECT else a, false))
              = ia)
    by (rewrite Eia; destruct trap; reflexivity).
  destruct trap; cbn [fst snd] in *; rewrite W;
    rewrite !bind_run; cbn [ret fst snd]; subst ia;
    (split; [reflexivity |]);
    match goal with
    | |- context [get_outcome_comment ?p ?i ?t ?x] =>
        destruct (outcome_comment_state p i t x) as [g E];
        exists g; revert E;
        generalize (snd (get_outcome_comment p i t x))
    end;
    intros y E; unfold record_round; run_monad; unfold erase in *;
    destruct wt; fields;
    first
      [ apply (f_equal
                 (fun z => set_history_traps_sprung
                             (history_traps_sprung z + 1)
                             (set_history_inspector
                                (history_inspector z ++ [ACT_INSPECT])
                                (set_history_smuggler
                                   (history_smuggler z ++ [pa]) z)))) in E;
        exact E
      | apply (f_equal
                 (fun z => set_history_inspector
                             (history_inspector z ++ [ACT_INSPECT])
                             (set_history_smuggler
                                (history_smuggler z ++ [pa]) z))) in E;
        exact E
      | apply (f_equal
                 (fun z => set_history_traps_sprung
                             (history_traps_sprung z + 1)
                             (set_history_inspector
                                (history_inspector z
                                   ++ [if fst r1 then ACT_DONT_INSPECT else a])
                                (set_history_smuggler
                                   (history_smuggler z ++ [pa]) z)))) in E;
        exact E
      | apply (f_equal
                 (fun z => set_history_inspector
                             (history_inspector z
                                ++ [if fst r1 then ACT_DONT_INSPECT else a])
                             (set_history_smuggler
                                (history_smuggler z ++ [pa]) z))) in E;
        exact E ].
Qed.

End Rounds.

(** ** Rounds of the web session *)

Lemma deal_is_false (lit : string) (x : option string) :
  x <> Some lit -> deal_is lit x = false.
Proof.
  intro N. destruct x as [t |]; [| reflexivity]. cbn [deal_is].
  destruct (String.eqb_spec t lit) as [E | E]; [| reflexivity].
  subst t. contradiction.
Qed.

Section Session.
Context {G : Type} `{RandomSource G}.

Lemma play_round_run (pa n : Z) (g : WebGameSession G) :
  round_num g < ROUNDS_PER_GAME ->
  let ri := round_inspector pa (round_num g + 1) (score g)
              (last_player_action g) (inspector g) in
  play_round pa n g =
  (Some {| r_round := round_num g + 1;
           r_player_action := pa;
           r_inspector_action := fst (fst (fst ri));
           r_payoff := round_payoff pa (fst (fst (fst ri))) n;
           r_amount := n;
           r_total_score := score g + round_payoff pa (fst (fst (fst ri))) n;
           r_was_trap := snd (fst (fst ri));
           r_bribe_accepted := snd (fst ri) |},
   {| inspector := snd ri;
      round_num := round_num g + 1;
      score := score g + round_payoff pa (fst (fst (fst ri))) n;
      last_player_action := Some pa |}).
Proof.
  intros R ri. unfold play_round. apply Z.leb_gt in R. rewrite R.
  fold ri. destruct ri as [[[ia wt] ba] i]. reflexivity.
Qed.

Lemma play_round_over (pa n : Z) (g : WebGameSession G) :
  ROUNDS_PER_GAME <= round_num g -> play_round pa n g = (None, g).
Proof.
  intro R. unfold play_round. apply Z.leb_le in R. rewrite R. reflexivity.
Qed.

(** The bribe and the truce signal leave the histories, the immunity
    counter and, unless a bribe is offered, the pending deal alone. *)
Lemma special_actions_effect (pa rnd sc : Z) (s : InspectorAI G) :
  history_smuggler (snd (special_actions pa rnd sc s)) = history_smuggler s
  /\ history_inspector (snd (special_actions pa rnd sc s))
     = history_inspector s
  /\ (pa <> ACT_BRIBE ->
      fst (special_actions pa rnd sc s) = false
      /\ immunity_turns (snd (special_actions pa rnd sc s))
         = immunity_turns s
      /\ pending_deal (snd (special_actions pa rnd sc s)) = pending_deal s)
  /\ (fst (special_actions pa rnd sc s) = true -> pa = ACT_BRIBE).
Proof.
  unfold special_actions.
  destruct (Z.eqb_spec pa ACT_BRIBE) as [B | B].
  - rewrite bind_run. cbn [ret fst snd].
    destruct (call_writes (CallHandleBribe rnd sc) s)
      as [_ [_ [_ [Hs [Hi _]]]]].
    unfold call in Hs, Hi. rewrite bind_run in Hs, Hi.
    cbn [ret snd recorded map] in Hs, Hi. rewrite app_nil_r in Hs, Hi.
    split; [exact Hs |]. split; [exact Hi |].
    split; [intro N; contradiction | intros _; exact B].
  - destruct (pa =? ACT_SIGNAL_TRUCE).
    + rewrite bind_run. cbn [ret fst snd].
      pose proof (handle_truce_state s) as E. unfold erase in E.
      destruct (Qltb 0.6 (trust_level s));
        (repeat split;
         [ apply (f_equal history_smuggler) in E; exact E
         | apply (f_equal history_inspector) in E; exact E
         | apply (f_equal immunity_turns) in E; exact E
         | apply (f_equal pending_deal) in E; exact E
         | discriminate ]).
    + cbn [ret fst snd]. repeat split. discriminate.
Qed.

(** X8. A round in which the bribe is accepted is a Bribe round and ends in
    one of two ways: honoured, with DontInspect, no trap and payoff -2; or
    betrayed, with Inspect, the trap flag and payoff -3.  The quantity plays
    no part. *)
Theorem accepted_bribe_round (pa n : Z) (g : WebGameSession G)
    (r : RoundResult) :
  round_num g < ROUNDS_PER_GAME ->
  fst (play_round pa n g) = Some r ->
  r_bribe_accepted r = true ->
  pa = ACT_BRIBE
  /\ ((r_inspector_action r = ACT_DONT_INSPECT /\ r_was_trap r = false
       /\ r_payoff r = -2)
      \/ (r_inspector_action r = ACT_INSPECT /\ r_was_trap r = true
          /\ r_payoff r = -3)).
Proof.
  intros R E A. rewrite (play_round_run pa n g R) in E. cbn [fst] in E.
  inversion E as [Er]. clear E. rewrite <- Er in *. cbn in A |- *.
  destruct (round_inspector_result pa (round_num g + 1) (score g)
              (last_player_action g) (inspector g)) as [F _].
  cbv zeta in F. rewrite F in *. cbn [fst snd] in *.
  destruct (special_actions_effect pa (round_num g + 1) (score g)
              (inspector g)) as [_ [_ [_ B]]].
  specialize (B A). subst pa. split; [reflexivity |]. rewrite A.
  destruct (deal_is "trap" _); [right | left]; repeat split.
  apply andb_false_r.
Qed.

(** X9. While the inspector is immune and no trap is pending, a round in
    which the player does anything but bribe is not inspected and is no
    trap: Smuggle pays 10 x quantity and every other action pays 1, and
    the immunity counter drops by one. *)
Theorem immune_round_is_safe (pa n : Z) (g : WebGameSession G) :
  round_num g < ROUNDS_PER_GAME ->
  0 < immunity_turns (inspector g) ->
  pending_deal (inspector g) <> Some "trap" ->
  pa <> ACT_BRIBE ->
  exists r,
    fst (play_round pa n g) = Some r
    /\ r_inspector_action r = ACT_DONT_INSPECT
    /\ r_was_trap r = false
    /\ r_payoff r = (if pa =? ACT_SMUGGLE then 10 * n else 1)
    /\ immunity_turns (inspector (snd (play_round pa n g)))
       = immunity_turns (inspector g) - 1.
Proof.
  intros R I T B. rewrite (play_round_run pa n g R). cbn [fst snd inspector].
  eexists. split; [reflexivity |]. cbn.
  destruct (round_inspector_result pa (round_num g + 1) (score g)
              (last_player_action g) (inspector g)) as [F [gen E]].
  cbv zeta in F, E.
  destruct (special_actions_effect pa (round_num g + 1) (score g)
              (inspector g)) as [_ [_ [S _]]].
  destruct (S B) as [Sb [Si Sp]]. clear S.
  assert (I1 : 0 < immunity_turns
                     (snd (special_actions pa (round_num g + 1) (score g)
                             (inspector g))))
    by (rewrite Si; exact I).
  rewrite (decide_immune_run _ (round_num g + 1) (score g)
             (last_player_action g) I1) in F, E.
  cbn [fst snd] in F, E. fields_in F. fields_in E.
  rewrite Sp, (deal_is_false "trap" _ T), Sb in F, E.
  rewrite F. cbn [fst snd].
  split; [reflexivity |]. split; [reflexivity |]. split.
  - unfold round_payoff, py_in, existsb.
    apply Z.eqb_neq in B. rewrite B. cbn [orb].
    destruct (Z.eqb_spec pa ACT_SIGNAL_TRUCE) as [-> | N4]; [reflexivity |].
    cbn [orb].
    destruct (pa =? ACT_SMUGGLE); cbn; reflexivity.
  - unfold erase in E. apply (f_equal immunity_turns) in E. fields_in E.
    rewrite E, Si. reflexivity.
Qed.

End Session.

(** ** A whole game of the web session *)

Lemma round_payoff_bounds (pa ia n : Z) :
  1 <= n <= 5 ->
  -25 <= round_payoff pa ia n <= 50
  /\ (pa <> ACT_SMUGGLE -> -3 <= round_payoff pa ia n <= 1).
Proof.
  intro N. rewrite (round_payoff_calculate pa ia n false).
  destruct calculate_payoff_cases as [C _]. rewrite C.
  destruct (Z.eqb_spec pa ACT_SMUGGLE) as [-> | S].
  - cbn [Z.eqb ACT_SMUGGLE ACT_BRIBE Pos.eqb].
    destruct (ia =? ACT_INSPECT); split; try lia; intro; contradiction.
  - destruct (pa =? ACT_BRIBE), (ia =? ACT_INSPECT); split; lia.
Qed.

Lemma clamp_amount_range (n : Z) :
  1 <= clamp_amount n <= 5 /\ (1 <= n <= 5 -> clamp_amount n = n).
Proof.
  unfold clamp_amount. lia.
Qed.

Section Games.
Context {G : Type} `{RandomSource G}.

Lemma play_round_record (pa n : Z) (g : WebGameSession G) :
  round_num g < ROUNDS_PER_GAME ->
  history_smuggler (inspector (snd (play_round pa n g)))
  = (history_smuggler (inspector g) ++ [pa])%list
  /\ List.length (history_inspector (inspector (snd (play_round pa n g))))
     = S (List.length (history_inspector (inspector g)))
  /\ round_num (snd (play_round pa n g)) = round_num g + 1.
Proof.
  intro R. rewrite (play_round_run pa n g R).
  cbn [snd inspector round_num].
  destruct (round_inspector_result pa (round_num g + 1) (score g)
              (last_player_action g) (inspector g)) as [_ [gen E]].
  cbv zeta in E.
  destruct (special_actions_effect pa (round_num g + 1) (score g)
              (inspector g)) as [Hs [Hi _]].
  destruct (decide_statics
              (snd (special_actions pa (round_num g + 1) (score g)
                      (inspector g)))
              (round_num g + 1) (score g) (last_player_action g))
    as [[_ [Ds [Di _]]] _].
  unfold erase in E. split; [| split; [| reflexivity]].
  - apply (f_equal history_smuggler) in E. fields_in E.
    rewrite E, Ds, Hs. reflexivity.
  - apply (f_equal history_inspector) in E. fields_in E.
    rewrite E, length_app, Di, Hi. cbn [List.length]. lia.
Qed.

Lemma play_rounds_written (moves : list (Z * Z)) (g : WebGameSession G) :
  0 <= round_num g <= ROUNDS_PER_GAME ->
  let k := Z.to_nat (ROUNDS_PER_GAME - round_num g) in
  play_rounds moves g = play_rounds (firstn k moves) g
  /\ round_num (play_rounds moves g)
     = round_num g + Z.of_nat (List.length (firstn k moves))
  /\ history_smuggler (inspector (play_rounds moves g))
     = (history_smuggler (inspector g) ++ map fst (firstn k moves))%list
  /\ List.length (history_inspector (inspector (play_rounds moves g)))
     = (List.length (history_inspector (inspector g))
        + List.length (firstn k moves))%nat.
Proof.
  revert g. induction moves as [| [a n] moves IH]; intros g R k.
  - rewrite firstn_nil. cbn [play_rounds map List.length].
    rewrite app_nil_r. repeat split; lia.
  - destruct (Z.eq_dec (round_num g) ROUNDS_PER_GAME) as [E | N].
    + assert (K : k = 0%nat) by (unfold k; lia).
      rewrite K. cbn [firstn play_rounds map List.length].
      rewrite play_round_over by lia. cbn [snd].
      destruct (IH g R) as [I1 [I2 [I3 I4]]]. fold k in I1, I2, I3, I4.
      rewrite K in I1, I2, I3, I4.
      cbn [firstn play_rounds map List.length] in I1, I2, I3, I4.
      rewrite I1, app_nil_r. cbn [play_rounds]. repeat split; lia.
    + assert (L : round_num g < ROUNDS_PER_GAME) by lia.
      destruct (play_round_record a n g L) as [P1 [P2 P3]].
      assert (R' : 0 <= round_num (snd (play_round a n g)) <= ROUNDS_PER_GAME)
        by lia.
      destruct (IH (snd (play_round a n g)) R') as [I1 [I2 [I3 I4]]].
      assert (K : k = S (Z.to_nat (ROUNDS_PER_GAME
                                   - round_num (snd (play_round a n g)))))
        by (unfold k; rewrite P3; lia).
      rewrite K. cbn [firstn play_rounds map List.length fst].
      rewrite <- I1, I2, I3, I4, P1, P2, P3, <- app_assoc. cbn [app].
      repeat split; lia.
Qed.

(** X10. A session plays 20 rounds and no more.  After any list of moves
    from a fresh session the round number is the number of moves, capped at
    20; the smuggler history is the first 20 actions moved, in order; the
    inspector history has the same length; the game is over exactly when 20
    or more moves were made; and moves after the twentieth change nothing. *)
Theorem game_is_twenty_rounds (seed : Z) (moves : list (Z * Z)) :
  round_num (play_rounds moves (@new_session G _ seed))
  = Z.min (Z.of_nat (List.length moves)) ROUNDS_PER_GAME
  /\ history_smuggler (inspector (play_rounds moves (@new_session G _ seed)))
     = map fst (firstn 20 moves)
  /\ List.length
       (history_inspector (inspector (play_rounds moves (@new_session G _ seed))))
     = List.length
         (history_smuggler (inspector (play_rounds moves (@new_session G _ seed))))
  /\ is_game_over (play_rounds moves (@new_session G _ seed))
     = (20 <=? List.length moves)%nat
  /\ play_rounds moves (@new_session G _ seed)
     = play_rounds (firstn 20 moves) (new_session seed).
Proof.
  assert (R : 0 <= round_num (@new_session G _ seed) <= ROUNDS_PER_GAME)
    by (cbn; unfold ROUNDS_PER_GAME; lia).
  destruct (play_rounds_written moves (new_session seed) R)
    as [I1 [I2 [I3 I4]]].
  cbn [new_session round_num inspector] in I1, I2, I3, I4.
  destruct (init_fields seed None) as [Es [Ei _]].
  rewrite Es in I3. rewrite Ei in I4. cbn [app List.length Nat.add] in I3, I4.
  change (Z.to_nat (ROUNDS_PER_GAME - 0)) with 20%nat in I1, I2, I3, I4.
  assert (N : round_num (play_rounds moves (@new_session G _ seed))
              = Z.min (Z.of_nat (List.length moves)) ROUNDS_PER_GAME).
  { rewrite I2, length_firstn. unfold ROUNDS_PER_GAME. lia. }
  split; [exact N |]. split; [exact I3 |]. split.
  - rewrite I4, I3, length_map. reflexivity.
  - split; [| exact I1].
    unfold is_game_over. rewrite N. unfold ROUNDS_PER_GAME.
    destruct (Nat.leb_spec 20 (List.length moves));
      [apply Z.leb_le | apply Z.leb_gt]; lia.
Qed.

Lemma play_game_rounds (moves : list (Z * Z)) (g : WebGameSession G) :
  snd (play_game moves g) = play_rounds moves g.
Proof.
  revert g. induction moves as [| [a n] moves IH]; intro g; [reflexivity |].
  cbn [play_game play_rounds].
  destruct (play_round a n g) as [r g1]. cbn [snd]. rewrite <- IH.
  destruct (play_game moves g1). reflexivity.
Qed.

(** X11. The score is the sum of the round payoffs: after any moves from
    any session the score is the score before plus the payoffs of the
    results kept in [self.history], and each kept payoff is what
    [calculate_payoff] gives for that round's two actions, bribe flag and
    quantity: the payoff written out in [play_round] and the calculator of
    the command-line game agree. *)
Theorem score_is_sum_of_payoffs (moves : list (Z * Z))
    (g : WebGameSession G) :
  score (play_rounds moves g)
  = score g + fold_right Z.add 0 (map r_payoff (fst (play_game moves g)))
  /\ Forall
       (fun r =>
          r_payoff r
          = calculate_payoff (r_player_action r) (r_inspector_action r)
              (r_bribe_accepted r) (r_amount r))
       (fst (play_game moves g)).
Proof.
  revert g. induction moves as [| [a n] moves IH]; intro g.
  - cbn. split; [lia | constructor].
  - cbn [play_game play_rounds].
    destruct (Z.lt_ge_cases (round_num g) ROUNDS_PER_GAME) as [L | L].
    + rewrite (play_round_run a n g L). cbv zeta. cbn [snd].
      match goal with
      | |- context [play_rounds moves ?x] =>
          destruct (IH x) as [I1 I2]; rewrite I1;
          destruct (play_game moves x) as [rs g2]
      end.
      cbn [fst snd score map fold_right r_payoff] in *.
      split; [lia |]. constructor; [| exact I2].
      cbn. apply round_payoff_calculate.
    + rewrite (play_round_over a n g L). cbn [snd].
      destruct (IH g) as [I1 I2]. rewrite I1.
      destruct (play_game moves g) as [rs g2]. cbn [fst] in *.
      split; [reflexivity | exact I2].
Qed.

Lemma move_keeps_bounds (a n : Z) (g : WebGameSession G) :
  0 <= round_num g <= ROUNDS_PER_GAME
  /\ -25 * round_num g <= score g <= 50 * round_num g ->
  0 <= round_num (snd (move a n g)) <= ROUNDS_PER_GAME
  /\ -25 * round_num (snd (move a n g)) <= score (snd (move a n g))
     <= 50 * round_num (snd (move a n g)).
Proof.
  intros [R S]. unfold move.
  destruct (Z.lt_ge_cases (round_num g) ROUNDS_PER_GAME) as [L | L].
  - rewrite (play_round_run a (clamp_amount n) g L). cbv zeta.
    cbn [snd round_num score].
    match goal with
    | |- context [round_payoff a ?ia (clamp_amount n)] =>
        destruct (round_payoff_bounds a ia (clamp_amount n)
                    (proj1 (clamp_amount_range n))) as [B _]
    end.
    lia.
  - rewrite (play_round_over a (clamp_amount n) g L). cbn [snd].
    split; assumption.
Qed.

(** X12. However many requests the move handler serves and whatever
    quantities they ask for, a game served from a fresh session stays
    within 20 rounds and its score within -25 and +50 per round played,
    hence between -500 and 1000. *)
Theorem served_score_bounds (seed : Z) (requests : list (Z * Z)) :
  0 <= round_num (serve requests (@new_session G _ seed)) <= ROUNDS_PER_GAME
  /\ -25 * round_num (serve requests (@new_session G _ seed))
     <= score (serve requests (@new_session G _ seed))
     <= 50 * round_num (serve requests (@new_session G _ seed))
  /\ -500 <= score (serve requests (@new_session G _ seed)) <= 1000.
Proof.
  assert (Inv : forall (g : WebGameSession G),
             0 <= round_num g <= ROUNDS_PER_GAME
             /\ -25 * round_num g <= score g <= 50 * round_num g ->
             0 <= round_num (serve requests g) <= ROUNDS_PER_GAME
             /\ -25 * round_num (serve requests g) <= score (serve requests g)
                <= 50 * round_num (serve requests g)).
  { induction requests as [| [a n] requests IH]; intros g I; [exact I |].
    cbn [serve]. apply IH, move_keeps_bounds, I. }
  destruct (Inv (new_session seed)) as [R S].
  { cbn. unfold ROUNDS_PER_GAME. lia. }
  unfold ROUNDS_PER_GAME in *. repeat split; lia.
Qed.

End Games.

(** ** The predictability score *)

Lemma repeat_loop_ge (prev : Z) (rest : list Z) (m c : Z) :
  m <= repeat_loop prev rest m c.
Proof.
  revert prev m c. induction rest as [| x rest IH]; intros prev m c; cbn.
  - lia.
  - destruct (x =? prev).
    + pose proof (IH x (Z.max m (c + 1)) (c + 1)). lia.
    + apply IH.
Qed.

Lemma alternations_bounds (prev : Z) (rest : list Z) :
  0 <= alternations_from prev rest <= Z.of_nat (List.length rest).
Proof.
  revert prev. induction rest as [| x rest IH]; intro prev.
  - cbn. lia.
  - cbn [alternations_from List.length]. specialize (IH x).
    destruct (negb (x =? prev)); lia.
Qed.

Lemma repeat_loop_constant (a : Z) (j : nat) (m c : Z) :
  c <= m -> repeat_loop a (repeat a j) m c = Z.max m (c + Z.of_nat j).
Proof.
  revert m c. induction j as [| j IH]; intros m c L.
  - cbn. lia.
  - cbn [repeat repeat_loop]. rewrite Z.eqb_refl, IH by lia. lia.
Qed.

Lemma alternations_constant (a : Z) (j : nat) :
  alternations_from a (repeat a j) = 0.
Proof.
  induction j as [| j IH]; [reflexivity |].
  cbn [repeat alternations_from]. rewrite Z.eqb_refl, IH. reflexivity.
Qed.

Lemma repeat_loop_alternating (prev : Z) (rest : list Z) (m c : Z) :
  adjacent_differ prev rest -> repeat_loop prev rest m c = m.
Proof.
  revert prev c. induction rest as [| x rest IH]; intros prev c A.
  - reflexivity.
  - destruct A as [N A]. cbn [repeat_loop].
    apply Z.eqb_neq in N. rewrite N. apply IH, A.
Qed.

Lemma alternations_alternating (prev : Z) (rest : list Z) :
  adjacent_differ prev rest ->
  alternations_from prev rest = Z.of_nat (List.length rest).
Proof.
  revert prev. induction rest as [| x rest IH]; intros prev A.
  - reflexivity.
  - destruct A as [N A]. cbn [alternations_from List.length].
    apply Z.eqb_neq in N. rewrite N, (IH x A). cbn [negb]. lia.
Qed.

Lemma ratio_bounds (a n : Z) :
  0 <= a <= n -> 0 < n -> (0 <= inject_Z a / inject_Z n <= 1)%Q.
Proof.
  intros [A1 A2] N.
  assert (Nq : (0 < inject_Z n)%Q)
    by (change 0%Q with (inject_Z 0); rewrite <- Zlt_Qlt; exact N).
  split.
  - apply Qle_shift_div_l; [exact Nq |]. rewrite Qmult_0_l.
    change 0%Q with (inject_Z 0). rewrite <- Zle_Qle. exact A1.
  - apply Qle_shift_div_r; [exact Nq |]. rewrite Qmult_1_l.
    rewrite <- Zle_Qle. exact A2.
Qed.

Lemma alt_score_bounds (r : Q) :
  (0 <= r <= 1 -> 0 <= Qabs (r - 0.5) * 2 <= 1)%Q.
Proof.
  intros [Lo Hi].
  assert (A : (Qabs (r - 0.5) <= 0.5)%Q)
    by (apply Qabs_Qle_condition; split; lra).
  pose proof (Qabs_nonneg (r - 0.5)) as P.
  split; lra.
Qed.

Section Predictability.
Context {G : Type}.

(** X13. The predictability score is 0.5 as long as fewer than five rounds
    are recorded and lies between 0 and 1 on every history. *)
Theorem pattern_score_bounds (s : InspectorAI G) :
  (0 <= _calculate_pattern_score s <= 1)%Q
  /\ ((List.length (history_smuggler s) < 5)%nat ->
      _calculate_pattern_score s = 0.5%Q).
Proof.
  unfold _calculate_pattern_score.
  destruct (Nat.ltb_spec (List.length (history_smuggler s)) 5) as [L | L].
  - split; [split; discriminate | reflexivity].
  - split; [| lia].
    destruct (history_smuggler s) as [| h0 rest]; [split; discriminate |].
    cbn [List.length] in *.
    pose proof (repeat_loop_ge h0 rest 1 1) as M.
    pose proof (alternations_bounds h0 rest) as A.
    assert (RS : (0 <= py_min 1 (inject_Z (repeat_loop h0 rest 1 1) / 5)
                  <= 1)%Q).
    { apply py_min_bounds. apply Qle_shift_div_l; [reflexivity |].
      rewrite Qmult_0_l. change 0%Q with (inject_Z 0).
      rewrite <- Zle_Qle. lia. }
    assert (AR : (0 <= inject_Z (alternations_from h0 rest)
                       / inject_Z (Z.of_nat (S (List.length rest)) - 1)
                  <= 1)%Q)
      by (apply ratio_bounds; lia).
    pose proof (alt_score_bounds _ AR) as AS.
    destruct RS, AS. split.
    + apply Qle_shift_div_l; [reflexivity | lra].
    + apply Qle_shift_div_r; [reflexivity | lra].
Qed.

(** X14. The two extremes of the predictability score, on five rounds or
    more: a player who repeats one action throughout scores 1, and a player
    who never plays the same action twice in a row scores 0.6. *)
Theorem pattern_score_extremes (s1 s2 : InspectorAI G) (a1 a2 : Z)
    (k : nat) (rest : list Z) :
  history_smuggler s1 = repeat a1 k ->
  (5 <= k)%nat ->
  history_smuggler s2 = a2 :: rest ->
  (4 <= List.length rest)%nat ->
  adjacent_differ a2 rest ->
  (_calculate_pattern_score s1 == 1)%Q
  /\ (_calculate_pattern_score s2 == 0.6)%Q.
Proof.
  intros E1 K E2 L A. unfold _calculate_pattern_score. split.
  - rewrite E1, repeat_length.
    assert (F : (k <? 5)%nat = false) by (apply Nat.ltb_ge; lia).
    rewrite F. destruct k as [| j]; [lia |]. cbn [repeat].
    rewrite repeat_loop_constant by lia.
    rewrite alternations_constant.
    assert (R : py_min 1 (inject_Z (Z.max 1 (1 + Z.of_nat j)) / 5) = 1%Q).
    { unfold py_min.
      assert (Q5 : (1 <= inject_Z (Z.max 1 (1 + Z.of_nat j)) / 5)%Q).
      { apply Qle_shift_div_l; [reflexivity |].
        change (1 * 5)%Q with (inject_Z 5). rewrite <- Zle_Qle. lia. }
      apply Qltb_ge in Q5. rewrite Q5. reflexivity. }
    rewrite R.
    assert (Z0 : (inject_Z 0 / inject_Z (Z.of_nat (S j) - 1) == 0)%Q)
      by (unfold Qdiv; apply Qmult_0_l).
    rewrite Z0. reflexivity.
  - rewrite E2. cbn [List.length].
    assert (F : (S (List.length rest) <? 5)%nat = false)
      by (apply Nat.ltb_ge; lia).
    rewrite F.
    rewrite (repeat_loop_alternating a2 rest 1 1 A).
    rewrite (alternations_alternating a2 rest A).
    replace (Z.of_nat (S (List.length rest)) - 1)
      with (Z.of_nat (List.length rest)) by lia.
    assert (N : ~ (inject_Z (Z.of_nat (List.length rest)) == 0)%Q).
    { intro Q0. unfold Qeq in Q0. cbn in Q0. lia. }
    assert (One : (inject_Z (Z.of_nat (List.length rest))
                   / inject_Z (Z.of_nat (List.length rest)) == 1)%Q)
      by (unfold Qdiv; apply Qmult_inv_r; exact N).
    rewrite One. reflexivity.
Qed.

End Predictability.

(** ** The end-of-game report *)

Lemma fold_rounds_acc (p : RoundResult -> bool) (h : list RoundResult)
    (n : Z) :
  fold_left (fun n r => if p r then n + 1 else n) h n
  = n + Z.of_nat (List.length (filter p h)).
Proof.
  revert n. induction h as [| r h IH]; intro n; cbn [fold_left filter].
  - cbn. lia.
  - rewrite IH. destruct (p r); cbn [List.length]; lia.
Qed.

Lemma count_rounds_filter (p : RoundResult -> bool) (h : list RoundResult) :
  count_rounds p h = Z.of_nat (List.length (filter p h)).
Proof.
  unfold count_rounds. rewrite fold_rounds_acc. lia.
Qed.

Lemma rate_compare (c n : Z) :
  0 < n ->
  (Qltb 0.3 (inject_Z c / inject_Z n) = true <-> 3 * n < 10 * c)
  /\ (Qltb (inject_Z c / inject_Z n) 0.7 = true <-> 10 * c < 7 * n)
  /\ (Qltb 0.7 (inject_Z c / inject_Z n) = true <-> 7 * n < 10 * c).
Proof.
  intro N. destruct n as [| q | q]; try lia.
  rewrite !Qltb_lt. unfold Qlt, Qdiv, Qmult, Qinv, inject_Z.
  cbn [Qnum Qden]. rewrite ?Pos.mul_1_l.
  repeat split; intro; lia.
Qed.

(** X15. The report always opens with exactly one strategy entry and has at
    most two more.  The strategy entry is Mixed Strategy Equilibrium (A)
    when the share of Smuggle rounds is strictly between 30% and 70%,
    Predictability Tax (C) when it is above 70%, and Risk Aversion (B)
    otherwise: at 30% or less, at exactly 70%, and on an empty history,
    which is handled without a division.  An Information Asymmetry entry is
    present exactly when some round of the history was a trap. *)
Theorem report_shape (history : list RoundResult) (final_score : Z)
    (trust : Q) :
  (1 <= List.length (generate_report history final_score trust) <= 3)%nat
  /\ (exists e rest,
         generate_report history final_score trust = e :: rest
         /\ (let rounds := Z.of_nat (List.length history) in
             let smuggles :=
               Z.of_nat
                 (List.length
                    (filter (fun r => r_player_action r =? ACT_SMUGGLE)
                       history)) in
             (concept e = "Mixed Strategy Equilibrium" /\ rating e = "A"
              /\ 3 * rounds < 10 * smuggles < 7 * rounds)
             \/ (concept e = "Predictability Tax" /\ rating e = "C"
                 /\ 7 * rounds < 10 * smuggles)
             \/ (concept e = "Risk Aversion" /\ rating e = "B"
                 /\ (10 * smuggles <= 3 * rounds
                     \/ 10 * smuggles = 7 * rounds))))
  /\ ((exists e,
          In e (generate_report history final_score trust)
          /\ concept e = "Information Asymmetry")
      <-> exists r, In r history /\ r_was_trap r = true).
Proof.
  unfold generate_report. rewrite !count_rounds_filter.
  set (rounds := Z.of_nat (List.length history)).
  set (smuggles :=
         Z.of_nat (List.length
                     (filter (fun r => r_player_action r =? ACT_SMUGGLE)
                        history))).
  set (rate := if 0 <? rounds then (inject_Z smuggles / inject_Z rounds)%Q
               else 0%Q).
  set (sig := signaling_entries _ _ trust).
  set (traps := Z.of_nat (List.length (filter r_was_trap history))).
  assert (Ls : (List.length sig <= 1)%nat).
  { unfold sig, signaling_entries.
    destruct (3 <? _); [destruct (Qltb 0.6 trust) |]; cbn; lia. }
  assert (La : (List.length (asymmetry_entries traps) <= 1)%nat)
    by (unfold asymmetry_entries; destruct (0 <? traps); cbn; lia).
  split; [| split].
  - cbn [app List.length]. rewrite length_app. lia.
  - exists (strategy_entry rate), (sig ++ asymmetry_entries traps)%list.
    split; [reflexivity |].
    unfold strategy_entry, rate.
    destruct (Z.ltb_spec 0 rounds) as [P | P].
    + destruct (rate_compare smuggles rounds P) as [C1 [C2 C3]].
      destruct (Qltb 0.3 (inject_Z smuggles / inject_Z rounds)) eqn:E1;
        destruct (Qltb (inject_Z smuggles / inject_Z rounds) 0.7) eqn:E2;
        destruct (Qltb 0.7 (inject_Z smuggles / inject_Z rounds)) eqn:E3;
        cbn [andb concept rating].
      all: try (left; repeat split; [apply C1 | apply C2]; reflexivity).
      all: try (right; left; repeat split; apply C3; reflexivity).
      all: right; right; repeat split.
      all: destruct (Z.lt_ge_cases (3 * rounds) (10 * smuggles)) as [A | A];
        [apply C1 in A; try discriminate | left; lia].
      all: destruct (Z.lt_ge_cases (10 * smuggles) (7 * rounds)) as [B | B];
        [apply C2 in B; try discriminate |].
      all: destruct (Z.lt_ge_cases (7 * rounds) (10 * smuggles)) as [D | D];
        [apply C3 in D; try discriminate | right; lia].
    + assert (R0 : rounds = 0) by (unfold rounds in *; lia).
      assert (S0 : smuggles = 0).
      { unfold smuggles, rounds in *.
        pose proof (filter_length_le
                      (fun r => r_player_action r =? ACT_SMUGGLE) history).
        lia. }
      right. right.
      change (Qltb 0.3 0) with false. change (Qltb 0.7 0) with false.
      cbn [andb concept rating]. repeat split. left.
      rewrite S0, R0. discriminate.
  - split.
    + intros [e [I C]]. cbn [app] in I. destruct I as [I | I].
      * subst e. unfold strategy_entry in C.
        destruct (_ && _); [| destruct (Qltb 0.7 rate)]; discriminate C.
      * apply in_app_or in I. destruct I as [I | I].
        -- unfold sig, signaling_entries in I.
           destruct (3 <? _); [destruct (Qltb 0.6 trust) |]; cbn in I;
             try contradiction; destruct I as [I | []]; subst e;
             discriminate C.
        -- unfold asymmetry_entries in I.
           destruct (Z.ltb_spec 0 traps) as [T | T]; [| contradiction].
           unfold traps in T.
           destruct (filter r_was_trap history) as [| r f] eqn:F;
             [cbn in T; lia |].
           assert (Ir : In r (filter r_was_trap history))
             by (rewrite F; left; reflexivity).
           apply filter_In in Ir. exists r. exact Ir.
    + intros [r [I T]].
      assert (Ir : In r (filter r_was_trap history))
        by (apply filter_In; split; assumption).
      assert (P : 0 < traps).
      { unfold traps. destruct (filter r_was_trap history);
          [contradiction | cbn [List.length]; lia]. }
      unfold asymmetry_entries. apply Z.ltb_lt in P. rewrite P.
      eexists. split.
      * cbn [app]. right. apply in_or_app. right. left. reflexivity.
      * reflexivity.
Qed.

(** ** The detector looks at four actions *)

Lemma last_three_of_four {A : Type} (p : list A) (a b c d : A) :
  py_last_n 3 (p ++ [a; b; c; d]) = [b; c; d].
Proof.
  change (p ++ [a; b; c; d])%list with (p ++ [a] ++ [b; c; d])%list.
  rewrite app_assoc. apply (last_n_app (p ++ [a]) [b; c; d]).
Qed.

Section Locality.
Context {G : Type} `{RandomSource G}.

(** X16. On histories of four rounds or more the detector depends on the
    last four actions only: two instances whose histories end in the same
    four actions get the same recommendation, however the histories began
    and whatever else differs between the instances. *)
Theorem detect_pattern_last_four (s1 s2 : InspectorAI G) (p q l : list Z) :
  List.length l = 4%nat ->
  history_smuggler s1 = (p ++ l)%list ->
  history_smuggler s2 = (q ++ l)%list ->
  _detect_pattern s1 = _detect_pattern s2.
Proof.
  intros L E1 E2.
  destruct l as [| a [| b [| c [| d [| e l]]]]]; try discriminate L.
  unfold _detect_pattern. rewrite E1, E2.
  rewrite !last_three_of_four.
  assert (F1 : py_last_n 4 (p ++ [a; b; c; d]) = [a; b; c; d])
    by apply (last_n_app p [a; b; c; d]).
  assert (F2 : py_last_n 4 (q ++ [a; b; c; d]) = [a; b; c; d])
    by apply (last_n_app q [a; b; c; d]).
  rewrite F1, F2.
  rewrite !length_app. cbn [List.length].
  assert (P3 : (List.length p + 4 <? 3)%nat = false)
    by (apply Nat.ltb_ge; lia).
  assert (Q3 : (List.length q + 4 <? 3)%nat = false)
    by (apply Nat.ltb_ge; lia).
  assert (P4 : (4 <=? List.length p + 4)%nat = true)
    by (apply Nat.leb_le; lia).
  assert (Q4 : (4 <=? List.length q + 4)%nat = true)
    by (apply Nat.leb_le; lia).
  rewrite P3, Q3, P4, Q4. reflexivity.
Qed.

End Locality.

(** ** Trust under a run of the same action *)

Lemma inject_Z_succ (k : nat) :
  (inject_Z (Z.of_nat (S k)) == inject_Z (Z.of_nat k) + 1)%Q.
Proof.
  rewrite Nat2Z.inj_succ. unfold Z.succ. rewrite inject_Z_plus. reflexivity.
Qed.

Section Runs.
Context {G : Type} `{RandomSource G}.

Lemma update_trust_times_succ (a : Z) (k : nat) (s : InspectorAI G) :
  update_trust_times a (S k) s
  = snd (_update_trust (Some a) (update_trust_times a k s)).
Proof.
  reflexivity.
Qed.

Lemma update_trust_times_bounds (a : Z) (k : nat) (s : InspectorAI G) :
  (0 <= trust_level s <= 1)%Q ->
  (0 <= trust_level (update_trust_times a k s) <= 1)%Q.
Proof.
  intro B. induction k as [| k IH]; [exact B |].
  rewrite update_trust_times_succ. apply update_trust_bounds, IH.
Qed.

(** X17. From a trust level within [0, 1], a run of trust updates on
    Smuggle keeps trust within [0, 1], never raises it, lowers it at every
    update as long as any is left, and leaves the passive counter at 0 from
    the first update on; a run on LayLow keeps trust within [0, 1], never
    lowers it, raises it at every update as long as it is below 1, and
    raises the passive counter by one per update.  Eleven smuggling rounds
    use up any trust and twenty quiet rounds restore it in full; neither
    count rests on the steps 0.1 and 0.05 adding up exactly. *)
Theorem trust_after_a_run (s : InspectorAI G) (k : nat) :
  (0 <= trust_level s <= 1)%Q ->
  (0 <= trust_level (update_trust_times ACT_SMUGGLE k s) <= trust_level s)%Q
  /\ (trust_level (update_trust_times ACT_SMUGGLE (S k) s)
      <= trust_level (update_trust_times ACT_SMUGGLE k s))%Q
  /\ ((0 < trust_level (update_trust_times ACT_SMUGGLE k s))%Q ->
      (trust_level (update_trust_times ACT_SMUGGLE (S k) s)
       < trust_level (update_trust_times ACT_SMUGGLE k s))%Q)
  /\ consecutive_passive_rounds (update_trust_times ACT_SMUGGLE (S k) s) = 0
  /\ (trust_level s <= trust_level (update_trust_times ACT_LAY_LOW k s) <= 1)%Q
  /\ (trust_level (update_trust_times ACT_LAY_LOW k s)
      <= trust_level (update_trust_times ACT_LAY_LOW (S k) s))%Q
  /\ ((trust_level (update_trust_times ACT_LAY_LOW k s) < 1)%Q ->
      (trust_level (update_trust_times ACT_LAY_LOW k s)
       < trust_level (update_trust_times ACT_LAY_LOW (S k) s))%Q)
  /\ consecutive_passive_rounds (update_trust_times ACT_LAY_LOW k s)
     = consecutive_passive_rounds s + Z.of_nat k
  /\ (trust_level (update_trust_times ACT_SMUGGLE 11 s) == 0)%Q
  /\ (trust_level (update_trust_times ACT_LAY_LOW 20 s) == 1)%Q.
Proof.
  intros [Lo Hi].
  assert (Sm : forall j,
             (trust_level (update_trust_times ACT_SMUGGLE j s)
              == Qmax 0 (trust_level s - 0.1 * inject_Z (Z.of_nat j)))%Q).
  { induction j as [| j IH].
    - change (update_trust_times ACT_SMUGGLE 0 s) with s.
      cbn [Z.of_nat]. change (inject_Z 0) with 0%Q.
      destruct (Q.max_spec 0 (trust_level s - 0.1 * 0))
        as [[A E] | [A E]]; rewrite E; lra.
    - rewrite update_trust_times_succ.
      set (t := update_trust_times ACT_SMUGGLE j s) in *.
      change (trust_level (snd (_update_trust (Some ACT_SMUGGLE) t)))
        with (py_max 0 (trust_level t - 0.1)).
      rewrite py_max_Qmax.
      pose proof (inject_Z_succ j) as S1.
      destruct (Q.max_spec 0 (trust_level t - 0.1)) as [[A E] | [A E]];
        destruct (Q.max_spec 0
                    (trust_level s - 0.1 * inject_Z (Z.of_nat j)))
          as [[B F] | [B F]];
        destruct (Q.max_spec 0
                    (trust_level s - 0.1 * inject_Z (Z.of_nat (S j))))
          as [[C K] | [C K]];
        rewrite E, K; rewrite F in IH; lra. }
  assert (Pa : forall j,
             (trust_level (update_trust_times ACT_LAY_LOW j s)
              == Qmin 1 (trust_level s + 0.05 * inject_Z (Z.of_nat j)))%Q).
  { induction j as [| j IH].
    - change (update_trust_times ACT_LAY_LOW 0 s) with s.
      cbn [Z.of_nat]. change (inject_Z 0) with 0%Q.
      destruct (Q.min_spec 1 (trust_level s + 0.05 * 0))
        as [[A E] | [A E]]; rewrite E; lra.
    - rewrite update_trust_times_succ.
      set (t := update_trust_times ACT_LAY_LOW j s) in *.
      change (trust_level (snd (_update_trust (Some ACT_LAY_LOW) t)))
        with (py_min 1 (trust_level t + 0.05)).
      rewrite py_min_Qmin.
      pose proof (inject_Z_succ j) as S1.
      destruct (Q.min_spec 1 (trust_level t + 0.05)) as [[A E] | [A E]];
        destruct (Q.min_spec 1
                    (trust_level s + 0.05 * inject_Z (Z.of_nat j)))
          as [[B F] | [B F]];
        destruct (Q.min_spec 1
                    (trust_level s + 0.05 * inject_Z (Z.of_nat (S j))))
          as [[C K] | [C K]];
        rewrite E, K; rewrite F in IH; lra. }
  assert (SmStep : forall j,
             (trust_level (update_trust_times ACT_SMUGGLE (S j) s)
              <= trust_level (update_trust_times ACT_SMUGGLE j s))%Q
             /\ ((0 < trust_level (update_trust_times ACT_SMUGGLE j s))%Q ->
                 (trust_level (update_trust_times ACT_SMUGGLE (S j) s)
                  < trust_level (update_trust_times ACT_SMUGGLE j s))%Q)).
  { intro j.
    pose proof (update_trust_times_bounds ACT_SMUGGLE j s (conj Lo Hi))
      as [Bl Bh].
    rewrite update_trust_times_succ.
    set (t := update_trust_times ACT_SMUGGLE j s) in *.
    change (trust_level (snd (_update_trust (Some ACT_SMUGGLE) t)))
      with (py_max 0 (trust_level t - 0.1)).
    unfold py_max.
    destruct (Qltb 0 (trust_level t - 0.1)) eqn:E;
      [apply Qltb_lt in E | apply Qltb_ge in E];
      (split; [| intro P]); lra. }
  assert (PaStep : forall j,
             (trust_level (update_trust_times ACT_LAY_LOW j s)
              <= trust_level (update_trust_times ACT_LAY_LOW (S j) s))%Q
             /\ ((trust_level (update_trust_times ACT_LAY_LOW j s) < 1)%Q ->
                 (trust_level (update_trust_times ACT_LAY_LOW j s)
                  < trust_level (update_trust_times ACT_LAY_LOW (S j) s))%Q)).
  { intro j.
    pose proof (update_trust_times_bounds ACT_LAY_LOW j s (conj Lo Hi))
      as [Bl Bh].
    rewrite update_trust_times_succ.
    set (t := update_trust_times ACT_LAY_LOW j s) in *.
    change (trust_level (snd (_update_trust (Some ACT_LAY_LOW) t)))
      with (py_min 1 (trust_level t + 0.05)).
    unfold py_min.
    destruct (Qltb (trust_level t + 0.05) 1) eqn:E;
      [apply Qltb_lt in E | apply Qltb_ge in E];
      (split; [| intro P]); lra. }
  split; [| split; [| split; [| split; [| split; [| split; [| split;
    [| split; [| split]]]]]]]].
  - split; [apply (update_trust_times_bounds ACT_SMUGGLE k s (conj Lo Hi)) |].
    induction k as [| k IH]; [apply Qle_refl |].
    eapply Qle_trans; [apply SmStep | exact IH].
  - apply SmStep.
  - apply SmStep.
  - reflexivity.
  - split; [| apply (update_trust_times_bounds ACT_LAY_LOW k s (conj Lo Hi))].
    induction k as [| k IH]; [apply Qle_refl |].
    eapply Qle_trans; [exact IH | apply PaStep].
  - apply PaStep.
  - apply PaStep.
  - induction k as [| k IH]; [cbn; lia |].
    rewrite update_trust_times_succ.
    change (consecutive_passive_rounds
              (snd (_update_trust (Some ACT_LAY_LOW)
                      (update_trust_times ACT_LAY_LOW k s))))
      with (consecutive_passive_rounds (update_trust_times ACT_LAY_LOW k s)
            + 1).
    rewrite IH. lia.
  - rewrite (Sm 11%nat).
    destruct (Q.max_spec 0 (trust_level s - 0.1 * inject_Z (Z.of_nat 11)))
      as [[A E] | [A E]]; rewrite E; [| reflexivity].
    change (inject_Z (Z.of_nat 11)) with 11%Q in *. lra.
  - rewrite (Pa 20%nat).
    destruct (Q.min_spec 1 (trust_level s + 0.05 * inject_Z (Z.of_nat 20)))
      as [[A E] | [A E]]; rewrite E; [reflexivity |].
    change (inject_Z (Z.of_nat 20)) with 20%Q in *. lra.
Qed.

End Runs.

(** ** The personality record *)

Lemma personality_kept_ret {G A : Type} (a : A) :
  personality_kept (@ret G A a).
Proof.
  intro s. reflexivity.
Qed.

Lemma personality_kept_bind {G A B : Type} (m : M G A) (k : A -> M G B) :
  personality_kept m -> (forall a, personality_kept (k a)) ->
  personality_kept (bind m k).
Proof.
  intros Km Kk s. rewrite bind_run. rewrite Kk. apply Km.
Qed.

Section Personality.
Context {G : Type} `{RandomSource G}.

Lemma personality_kept_random : personality_kept rng_random.
Proof.
  intro s. unfold rng_random. destruct (random (rng s)). reflexivity.
Qed.

Lemma personality_kept_get : personality_kept (@get G).
Proof.
  intro s. reflexivity.
Qed.

Lemma personality_kept_traps :
  personality_kept
    (@modify G (fun s => set_history_traps_set (history_traps_set s + 1) s)).
Proof.
  intro s. reflexivity.
Qed.

Ltac kept_step :=
  match goal with
  | |- personality_kept (ret _) => apply personality_kept_ret
  | |- personality_kept get => apply personality_kept_get
  | |- personality_kept rng_random => apply personality_kept_random
  | |- personality_kept (modify _) => apply personality_kept_traps
  | |- personality_kept (bind _ _) => apply personality_kept_bind; [| intro]
  | |- personality_kept (if ?b then _ else _) => destruct b
  end.

Lemma personality_kept_early (rnd : Z) :
  personality_kept (_early_game_decision rnd).
Proof.
  unfold _early_game_decision, rng_uniform. repeat kept_step.
Qed.

Lemma personality_kept_mid (rnd : Z) (f c : Q) :
  personality_kept (_mid_game_decision rnd f c).
Proof.
  unfold _mid_game_decision, mid_game_adaptive. repeat kept_step.
Qed.

Lemma personality_kept_late_trust (rnd : Z) (f : Q) :
  personality_kept (late_game_trust rnd f).
Proof.
  unfold late_game_trust, late_game_exploit, late_game_final.
  repeat kept_step.
Qed.

Lemma personality_kept_late (rnd : Z) (f c : Q) :
  personality_kept (_late_game_decision rnd f c).
Proof.
  unfold _late_game_decision. apply personality_kept_bind;
    [apply personality_kept_get | intro t]. cbv zeta.
  destruct (_detect_pattern t) as [a |];
    [| apply personality_kept_late_trust].
  destruct (py_truthy (Some a)); [| apply personality_kept_late_trust].
  repeat first [ apply personality_kept_late_trust | kept_step ].
Qed.

(** The mood [_set_mood] leaves, and nothing else of the personality. *)
Lemma set_mood_of_effect (rnd : Z) (f : Q) (s : InspectorAI G) :
  honesty_streak (personality (snd (_set_mood rnd f s)))
  = honesty_streak (personality s)
  /\ betrayal_count (personality (snd (_set_mood rnd f s)))
     = betrayal_count (personality s)
  /\ (Qltb 0.5 f = true ->
      mood (personality (snd (_set_mood rnd f s))) = "aggressive")
  /\ (Qltb 0.5 f = false -> Qltb 0.7 (trust_level s) = false ->
      mood (personality (snd (_set_mood rnd f s))) = "neutral")
  /\ (Qltb 0.5 f = false -> Qltb 0.7 (trust_level s) = true ->
      mood (personality (snd (_set_mood rnd f s))) = "deceptive"
      \/ mood (personality (snd (_set_mood rnd f s))) = "friendly").
Proof.
  unfold _set_mood, set_mood. run_monad.
  destruct (Qltb 0.5 f); [fields; repeat split; intros; discriminate |].
  destruct (Qltb 0.7 (trust_level s)).
  - destruct (random (rng s)) as [u g]. fields.
    destruct (Qltb u (deceptiveness s)); fields; repeat split;
      intros; try discriminate; auto.
  - fields. repeat split; intros; discriminate.
Qed.

Lemma phase_dispatch_personality (rnd : Z) (f c : Q) (s : InspectorAI G) :
  personality (snd (phase_dispatch rnd f c s))
  = personality (snd (_set_mood rnd f s)).
Proof.
  unfold phase_dispatch. rewrite bind_run.
  generalize (snd (_set_mood rnd f s)). intro t.
  destruct (rnd <=? EARLY_GAME_END); [apply personality_kept_early |].
  destruct (rnd <=? MID_GAME_END);
    [apply personality_kept_mid | apply personality_kept_late].
Qed.

(** X18. Past the immunity and legacy-deal guards, [decide] leaves the mood
    "aggressive" when the smuggle frequency read at the start of the call
    exceeds 0.5; otherwise "neutral" when the updated trust is at most 0.7,
    and "deceptive" or "friendly" when it is above.  The phase logic that
    follows does not touch the mood. *)
Theorem mood_after_decide (s : InspectorAI G) (rnd sc : Z)
    (last : option Z) :
  immunity_turns s <= 0 ->
  deal_is "accepted" (pending_deal s) = false ->
  ((0.5 < get_smuggle_frequency s)%Q ->
   mood (personality (snd (decide rnd sc last s))) = "aggressive")
  /\ ((get_smuggle_frequency s <= 0.5)%Q ->
      (trust_level (snd (_update_trust last s)) <= 0.7)%Q ->
      mood (personality (snd (decide rnd sc last s))) = "neutral")
  /\ ((get_smuggle_frequency s <= 0.5)%Q ->
      (0.7 < trust_level (snd (_update_trust last s)))%Q ->
      mood (personality (snd (decide rnd sc last s))) = "deceptive"
      \/ mood (personality (snd (decide rnd sc last s))) = "friendly").
Proof.
  intros I D.
  rewrite (decide_not_immune s rnd sc last I D), decide_phase_run.
  rewrite phase_dispatch_personality.
  destruct (set_mood_of_effect rnd (get_smuggle_frequency s)
              (snd (_update_trust last s))) as [_ [_ [A [N F]]]].
  split; [| split].
  - intro L. apply A, Qltb_lt, L.
  - intros L T. apply N; apply Qltb_ge; assumption.
  - intros L T. apply F; [apply Qltb_ge | apply Qltb_lt]; assumption.
Qed.

Lemma call_personality (c : Call) (s : InspectorAI G) :
  deal_known s ->
  honesty_streak (personality (snd (call c s)))
  = honesty_streak (personality s)
  /\ betrayal_count (personality (snd (call c s)))
     = betrayal_count (personality s)
  /\ (known_mood (mood (personality s)) ->
      known_mood (mood (personality (snd (call c s))))).
Proof.
  intro K. pose proof (deal_known_not_accepted s K) as D.
  destruct c as [rnd sc last | rnd sc | | p i t | last];
    unfold call; rewrite bind_run; cbn [ret snd].
  - destruct (Z.ltb_spec 0 (immunity_turns s)) as [I | I].
    + rewrite (decide_immune_run s rnd sc last I). fields.
      repeat split. tauto.
    + rewrite (decide_not_immune s rnd sc last I D), decide_phase_run.
      rewrite phase_dispatch_personality.
      destruct (set_mood_of_effect rnd (get_smuggle_frequency s)
                  (snd (_update_trust last s))) as [E1 [E2 [A [N F]]]].
      destruct (update_trust_frame s last) as [_ [_ [P _]]].
      cbv zeta in P. rewrite E1, E2, P.
      split; [reflexivity |]. split; [reflexivity |]. intros _.
      unfold known_mood.
      destruct (Qltb 0.5 (get_smuggle_frequency s));
        [rewrite A by reflexivity; auto |].
      destruct (Qltb 0.7 (trust_level (snd (_update_trust last s)))).
      * destruct F as [F | F]; try reflexivity; rewrite F; auto.
      * rewrite N by reflexivity. auto.
  - destruct (random (rng s)) as [u1 g1] eqn:R1.
    destruct (random g1) as [u2 g2] eqn:R2.
    pose proof (handle_bribe_state s rnd sc u1 u2 g1 g2 R1 R2) as E.
    unfold erase in E. apply (f_equal personality) in E.
    destruct (Qltb u1 (acceptance_prob rnd s));
      [destruct (Qltb u2 (deceptiveness s * 0.5)) |];
      fields_in E; rewrite E; repeat split; tauto.
  - pose proof (handle_truce_state s) as E. unfold erase in E.
    apply (f_equal personality) in E.
    destruct (Qltb 0.6 (trust_level s)); fields_in E; rewrite E;
      repeat split; tauto.
  - unfold record_round. run_monad. destruct t; fields; repeat split; tauto.
  - destruct (update_trust_frame s last) as [_ [_ [P _]]].
    cbv zeta in P. rewrite P. repeat split. tauto.
Qed.

(** X19. The honesty bookkeeping is dead: it is written only in the branch
    of [decide] for a pending "accepted" deal, which no reachable state
    enters.  In every state reached from a fresh instance the honesty
    streak and the betrayal count are still 0, and the mood is one of
    "neutral", "aggressive", "deceptive" and "friendly". *)
Theorem honesty_counters_never_move (seed : Z)
    (l : option LLMDialogueGenerator) (cs : list Call) :
  honesty_streak (personality (snd (run cs (@__init__ G _ seed l)))) = 0
  /\ betrayal_count (personality (snd (run cs (@__init__ G _ seed l)))) = 0
  /\ known_mood (mood (personality (snd (run cs (@__init__ G _ seed l))))).
Proof.
  assert (Inv : forall (s : InspectorAI G),
             deal_known s ->
             honesty_streak (personality (snd (run cs s)))
             = honesty_streak (personality s)
             /\ betrayal_count (personality (snd (run cs s)))
                = betrayal_count (personality s)
             /\ (known_mood (mood (personality s)) ->
                 known_mood (mood (personality (snd (run cs s)))))).
  { induction cs as [| c cs IH]; intros s K.
    - cbn [run ret snd]. repeat split. tauto.
    - cbn [run]. rewrite bind_run, bind_run. cbn [ret snd].
      destruct (call_personality c s K) as [C1 [C2 C3]].
      destruct (IH (snd (call c s)) (call_deal_known c s K)) as [I1 [I2 I3]].
      rewrite I1, I2, C1, C2. repeat split. tauto. }
  assert (K0 : deal_known (@__init__ G _ seed l))
    by (left; apply init_trust).
  destruct (Inv _ K0) as [I1 [I2 I3]].
  assert (P0 : personality (@__init__ G _ seed l)
               = {| honesty_streak := 0; betrayal_count := 0;
                    mood := "neutral" |}).
  { unfold __init__.
    destruct (random (Random seed)) as [u1 g1].
    destruct (random g1) as [u2 g2]. destruct (random g2) as [u3 g3].
    reflexivity. }
  rewrite I1, I2. rewrite P0 in *. cbn [honesty_streak betrayal_count mood] in *.
  split; [reflexivity |]. split; [reflexivity |].
  apply I3. left. reflexivity.
Qed.

End Personality.

(** ** The late game against a frequent smuggler *)

Section LateGame.
Context {G : Type} `{RandomSource G}.

Lemma detect_pattern_history (s t : InspectorAI G) :
  history_smuggler t = history_smuggler s ->
  _detect_pattern t = _detect_pattern s.
Proof.
  intro E. unfold _detect_pattern. rewrite E. reflexivity.
Qed.

(** X20. After round 14, past the immunity and legacy-deal guards, a player
    who smuggled in more than 55% of the recorded rounds and shows no streak
    or alternation is inspected for certain, with the line "Too aggressive.
    Predictable.", as long as the round is before 18 or the updated trust is
    at most 0.75: no draw of the generator can change the outcome. *)
Theorem frequent_smuggler_is_inspected (s : InspectorAI G) (rnd sc : Z)
    (last : option Z) :
  MID_GAME_END < rnd ->
  immunity_turns s <= 0 ->
  deal_is "accepted" (pending_deal s) = false ->
  _detect_pattern s = None ->
  (rnd < 18 \/ (trust_level (snd (_update_trust last s)) <= 0.75)%Q) ->
  (0.55 < get_smuggle_frequency s)%Q ->
  fst (decide rnd sc last s)
  = (ACT_INSPECT, false, Some "Too aggressive. Predictable.").
Proof.
  intros R I D P T F.
  rewrite (decide_not_immune s rnd sc last I D), decide_phase_run.
  unfold phase_dispatch. rewrite bind_run.
  pose proof (keeps_set_mood_of rnd (get_smuggle_frequency s)
                (snd (_update_trust last s))) as K.
  destruct (update_trust_frame s last) as [_ [_ [_ [Uh _]]]]. cbv zeta in Uh.
  destruct K as [_ [Kh [_ [_ [_ [_ [_ [Kt _]]]]]]]].
  set (t := snd (_set_mood rnd (get_smuggle_frequency s)
                   (snd (_update_trust last s)))) in *.
  assert (E1 : (rnd <=? EARLY_GAME_END) = false)
    by (apply Z.leb_gt; unfold EARLY_GAME_END, MID_GAME_END in *; lia).
  assert (E2 : (rnd <=? MID_GAME_END) = false) by (apply Z.leb_gt; lia).
  rewrite E1, E2. unfold _late_game_decision. rewrite bind_run.
  cbn [get fst snd]. cbv zeta.
  rewrite (detect_pattern_history s t) by (rewrite Kh; exact Uh).
  rewrite P. unfold late_game_trust. rewrite bind_run. cbn [get fst snd].
  assert (C : Qltb 0.75 (trust_level t) && (18 <=? rnd) = false).
  { destruct T as [T | T].
    - apply Z.leb_gt in T. rewrite T. apply andb_false_r.
    - rewrite Kt. apply Qltb_ge in T. rewrite T. reflexivity. }
  rewrite C. rewrite bind_run. cbn [ret fst snd].
  unfold late_game_exploit. apply Qltb_lt in F. rewrite F. reflexivity.
Qed.

End LateGame.

(** * Concrete runs of the further properties *)

(** The statement of X2 at round 1 of a fresh instance. *)
Lemma no_bait_before_round_four_witness :
  fst (decide 1 0 None (__init__ 0 None : InspectorAI (list Q)))
  = (ACT_INSPECT, false, None)
  \/ fst (decide 1 0 None (__init__ 0 None : InspectorAI (list Q)))
     = (ACT_DONT_INSPECT, false, None).
Proof.
  apply no_bait_before_round_four.
  - reflexivity.
  - vm_compute. discriminate.
  - reflexivity.
Defined.

(** The statement of X3 at seed 1, after the betrayed bribe. *)
Lemma traits_stay_in_range_witness :
  (0.3 <= greed betrayed <= 0.7)%Q
  /\ (0.2 <= deceptiveness betrayed <= 0.6)%Q
  /\ (0.4 <= adaptiveness betrayed <= 0.8)%Q.
Proof.
  assert (R1 : random (Random 1)
               = (0.5%Q, [0.5; 0.5; 0.1; 0.1; 0.5; 0.9; 0.5; 0.9]%Q))
    by reflexivity.
  assert (R2 : random [0.5; 0.5; 0.1; 0.1; 0.5; 0.9; 0.5; 0.9]%Q
               = (0.5%Q, [0.5; 0.1; 0.1; 0.5; 0.9; 0.5; 0.9]%Q))
    by reflexivity.
  assert (R3 : random [0.5; 0.1; 0.1; 0.5; 0.9; 0.5; 0.9]%Q
               = (0.5%Q, [0.1; 0.1; 0.5; 0.9; 0.5; 0.9]%Q))
    by reflexivity.
  assert (U : (0 <= 0.5 < 1)%Q) by (split; [discriminate | reflexivity]).
  exact (proj2 (proj2 (proj2
           (traits_stay_in_range 1 None [CallHandleBribe 1 0] _ _ _ _ _ _
              R1 R2 R3 U U U)))).
Defined.

(** The statement of X7 at seed 1, after the betrayed bribe. *)
Lemma acceptance_prob_bounds_witness :
  (0.3 <= acceptance_prob 5 betrayed < 0.9)%Q
  /\ (0.15 <= acceptance_prob 15 betrayed < 0.75)%Q.
Proof.
  assert (R1 : random (Random 1)
               = (0.5%Q, [0.5; 0.5; 0.1; 0.1; 0.5; 0.9; 0.5; 0.9]%Q))
    by reflexivity.
  assert (U : (0 <= 0.5 < 1)%Q) by (split; [discriminate | reflexivity]).
  split.
  - apply (proj1 (acceptance_prob_bounds 1 None [CallHandleBribe 1 0] 5
                    _ _ R1 U)).
    discriminate.
  - apply (proj2 (acceptance_prob_bounds 1 None [CallHandleBribe 1 0] 15
                    _ _ R1 U)).
    reflexivity.
Defined.

(** The statement of X8 at the honoured bribe of seed 2. *)
Lemma accepted_bribe_round_witness :
  let r := {| r_round := 1; r_player_action := ACT_BRIBE;
              r_inspector_action := ACT_DONT_INSPECT; r_payoff := -2;
              r_amount := 4; r_total_score := -2; r_was_trap := false;
              r_bribe_accepted := true |} in
  fst (play_round ACT_BRIBE 4 (new_session 2)) = Some r
  /\ ((r_inspector_action r = ACT_DONT_INSPECT /\ r_was_trap r = false
       /\ r_payoff r = -2)
      \/ (r_inspector_action r = ACT_INSPECT /\ r_was_trap r = true
          /\ r_payoff r = -3)).
Proof.
  intro r.
  assert (E : fst (play_round ACT_BRIBE 4 (new_session 2)) = Some r)
    by (vm_compute; reflexivity).
  split; [exact E |].
  refine (proj2 (accepted_bribe_round ACT_BRIBE 4 (new_session 2) r _ E _));
    reflexivity.
Defined.

(** The statement of X9 at the round after the honoured bribe of seed 2. *)
Lemma immune_round_is_safe_witness :
  exists r,
    fst (play_round ACT_SMUGGLE 3 after_honoured_bribe) = Some r
    /\ r_inspector_action r = ACT_DONT_INSPECT
    /\ r_was_trap r = false
    /\ r_payoff r = 30
    /\ immunity_turns
         (inspector (snd (play_round ACT_SMUGGLE 3 after_honoured_bribe)))
       = immunity_turns (inspector after_honoured_bribe) - 1.
Proof.
  apply (immune_round_is_safe ACT_SMUGGLE 3 after_honoured_bribe).
  - reflexivity.
  - reflexivity.
  - vm_compute. discriminate.
  - discriminate.
Defined.

(** The statement of X13 at a history of two rounds. *)
Lemma pattern_score_bounds_witness :
  (List.length (history_smuggler two_rounds_recorded) < 5)%nat
  /\ _calculate_pattern_score two_rounds_recorded = 0.5%Q.
Proof.
  assert (L : (List.length (history_smuggler two_rounds_recorded) < 5)%nat)
    by (vm_compute; lia).
  split; [exact L |].
  exact (proj2 (pattern_score_bounds two_rounds_recorded) L).
Defined.

(** The statement of X14 at five Smuggles and at a five-round zigzag. *)
Lemma pattern_score_extremes_witness :
  (_calculate_pattern_score five_smuggles == 1)%Q
  /\ (_calculate_pattern_score zigzag == 0.6)%Q.
Proof.
  apply (pattern_score_extremes five_smuggles zigzag ACT_SMUGGLE ACT_SMUGGLE
           5 [ACT_LAY_LOW; ACT_SMUGGLE; ACT_LAY_LOW; ACT_SMUGGLE]).
  - reflexivity.
  - lia.
  - reflexivity.
  - cbn. lia.
  - cbn. repeat split; discriminate.
Defined.

(** The statement of X16 at two histories ending in Smuggle, LayLow,
    Smuggle, Bribe. *)
Lemma detect_pattern_last_four_witness :
  _detect_pattern alternation_ending_in_bribe
  = _detect_pattern truce_then_alternation.
Proof.
  apply (detect_pattern_last_four alternation_ending_in_bribe
           truce_then_alternation [] [ACT_SIGNAL_TRUCE]
           [ACT_SMUGGLE; ACT_LAY_LOW; ACT_SMUGGLE; ACT_BRIBE]);
    reflexivity.
Defined.

(** The statement of X17 at a fresh instance and three updates. *)
Lemma trust_after_a_run_witness :
  (trust_level
     (update_trust_times ACT_SMUGGLE 4 (__init__ 0 None : InspectorAI (list Q)))
   < trust_level
       (update_trust_times ACT_SMUGGLE 3
          (__init__ 0 None : InspectorAI (list Q))))%Q
  /\ (trust_level
        (update_trust_times ACT_LAY_LOW 3
           (__init__ 0 None : InspectorAI (list Q)))
      < trust_level
          (update_trust_times ACT_LAY_LOW 4
             (__init__ 0 None : InspectorAI (list Q))))%Q
  /\ (trust_level
        (update_trust_times ACT_SMUGGLE 11
           (__init__ 0 None : InspectorAI (list Q))) == 0)%Q.
Proof.
  assert (B : (0 <= trust_level (__init__ 0 None : InspectorAI (list Q))
               <= 1)%Q)
    by (vm_compute; split; discriminate).
  destruct (trust_after_a_run (__init__ 0 None) 3 B)
    as [_ [_ [Sm [_ [_ [_ [Pa [_ [Z0 _]]]]]]]]].
  split; [| split].
  - apply Sm. vm_compute. reflexivity.
  - apply Pa. vm_compute. reflexivity.
  - exact Z0.
Defined.

(** The statement of X18 at round 1 of a fresh instance. *)
Lemma mood_after_decide_witness :
  mood (personality
          (snd (decide 1 0 None (__init__ 0 None : InspectorAI (list Q)))))
  = "neutral".
Proof.
  refine (proj1 (proj2 (mood_after_decide (__init__ 0 None) 1 0 None _ _))
            _ _).
  - vm_compute. discriminate.
  - reflexivity.
  - vm_compute. discriminate.
  - vm_compute. discriminate.
Defined.

(** The statement of X20 at round 15, after Smuggle, Smuggle, LayLow,
    Smuggle. *)
Lemma frequent_smuggler_is_inspected_witness :
  fst (decide 15 0 (Some ACT_SMUGGLE) mostly_smuggling)
  = (ACT_INSPECT, false, Some "Too aggressive. Predictable.").
Proof.
  apply frequent_smuggler_is_inspected.
  - reflexivity.
  - vm_compute. discriminate.
  - reflexivity.
  - reflexivity.
  - left. reflexivity.
  - vm_compute. reflexivity.
Defined.
